(** * Container launch orchestration: libcontainer [network] and [namespaces]

    A shallow embedding of
    - package [network]    (interface primitives over [net] and [netlink]), and
    - package [namespaces] ([Exec], [SetupCgroups], [InitializeNetworking],
      [TeardownNetworking], [GetNamespaceFlags]),
    followed by the properties of the launch life cycle.

    Every call that leaves the two packages (netlink requests, process
    control, the pid file, cgroup backends, the terminal, the sync pipe, the
    logger) is an [event] appended to a trace; what the call answers is given
    by an environment [Env] that sees the whole history of earlier calls, so
    the theorems hold for every behaviour of the outside world. *)

From stdpp Require Import base option list strings gmap fin_maps.
From Stdlib Require Import ZArith Lia.

Local Open Scope Z_scope.

(** ** Data model *)

(** Go [error] values.  The orchestrator only ever asks one question of an
    error: whether its dynamic type is [*exec.ExitError]. *)
Inductive error : Type :=
| exec_ExitError
| errors_New (msg : string).

Definition is_ExitError (err : error) : bool :=
  match err with exec_ExitError => true | errors_New _ => false end.

(** A Go [(T, error)] pair whose value is only meaningful when the error is
    nil. *)
Inductive result (T : Type) : Type :=
| Ok (v : T)
| Err (err : error).
Arguments Ok {T} v.
Arguments Err {T} err.

(** [*os.File]: an open descriptor. *)
Record File : Type := { fd : Z }.

(** The method [Fd] of an [os.File] pointer: a nil receiver yields
    [^uintptr(0)]. *)
Definition File_Fd (f : option File) : Z :=
  match f with
  | Some f => fd f
  | None => 2 ^ 64 - 1
  end.

(** [net.Interface]. *)
Record Interface : Type := { Index : Z; MTU : Z; Name : string }.

(** [syscall.WaitStatus] (a [uint32]) with the Linux decoding. *)
Definition WaitStatus := Z.

Definition WaitStatus_Exited (w : WaitStatus) : bool := Z.land w 127 =? 0.

Definition WaitStatus_ExitStatus (w : WaitStatus) : Z :=
  if WaitStatus_Exited w then Z.land (Z.shiftr w 8) 255 else -1.

(** [libcontainer.Context]: the payload handed to the child. *)
Abbreviation Context := (gmap string string).

(** The parts of the [libcontainer] container description that the two
    packages read. *)
Record Network : Type := { Type_ : string; Address : string; Gateway : string; Mtu : Z }.
Record NetworkInterface : Type := { HostIfaceName : string }.
Record Cgroup : Type := { Cgroup_Name : string; Cgroup_Parent : string }.
Record Container : Type := {
  Tty : bool;
  Namespaces : gmap string bool;
  Cgroups : option Cgroup;
  Networks : list Network;
  NetworkInterfaces : list NetworkInterface
}.

(** [libcontainer.Namespace], an entry of the static registry. *)
Record Namespace : Type := { Key : string; Value : Z; NsFile : string }.

(** [cgroups.ActiveCgroup]: the handle whose [Cleanup] releases the group. *)
Record ActiveCgroup : Type := { cgroup_id : Z }.

(** [network.NetworkStrategy]: a registered strategy, named by its
    discriminator. *)
Record NetworkStrategy : Type := { strategy_name : string }.

(** [SyncPipe]: both ends of the anonymous pipe. *)
Record SyncPipe : Type := { parent : File; child : File }.

(** ** Events *)

(** Requests of package [netlink]. *)
Inductive netlink_request : Type :=
| NetworkLinkUp (iface : Interface)
| NetworkLinkDown (iface : Interface)
| NetworkChangeName (iface : Interface) (newName : string)
| NetworkCreateVethPair (name1 name2 : string)
| NetworkSetNsPid (iface : Interface) (nsPid : Z)
| AddToBridge (iface master : Interface)
| AddDefaultGw (ip ifaceName : string)
| NetworkLinkAddIp (iface : Interface) (ip ipNet : string)
| NetworkSetMTU (iface : Interface) (mtu : Z).

(** Arguments of a [log.Printf] line. *)
Inductive log_arg : Type :=
| AStr (s : string)
| AInt (n : Z)
| AErr (err : error)
| AIface (i : NetworkInterface).

(** The files [TeardownNetworking] opens. *)
Inductive proc_path : Type :=
| proc_self_net_ns               (* "/proc/self/net/ns" *)
| proc_pid_net_ns (pid : Z).     (* fmt.Sprintf("/proc/%d/net/ns", pid) *)

Inductive event : Type :=
| EvInterfaceByName (name : string)
| EvNetlink (req : netlink_request)
| EvLog (format : string) (args : list log_arg)
| EvNewSyncPipe
| EvCreateMasterAndConsole
| EvTermSetMaster (master : File)
| EvCreateCommand (console rootfs dataPath init : string) (pipe : File) (args : list string)
| EvTermAttach
| EvTermClose
| EvStart
| EvGetProcessStartTime (pid : Z)
| EvWritePid (dataPath : string) (pid : Z) (started : string)
| EvDeletePid (dataPath : string)
| EvKill
| EvWait
| EvUseSystemd
| EvSystemdApply (c : Cgroup) (pid : Z)
| EvFsApply (c : Cgroup) (pid : Z)
| EvCleanup (h : ActiveCgroup)
| EvGetStrategy (type : string)
| EvStrategyCreate (s : NetworkStrategy) (config : Network) (pid : Z)
| EvSendToChild (pipe : SyncPipe) (context : Context)
| EvSyncPipeClose (pipe : SyncPipe)
| EvStartCallback
| EvOpenFile (path : proc_path)
| EvSetns (fd : Z).

Definition trace := list event.

(** ** The outside world *)

(** What each outside call answers, given the history of calls made before
    it.  [net_ParseCIDR] and [libcontainer_GetNamespace] are pure. *)
Record Env : Type := {
  net_InterfaceByName : trace → string → result Interface;
  net_ParseCIDR : string → result (string * string);
  netlink_answer : trace → netlink_request → option error;
  libcontainer_GetNamespace : string → option Namespace;
  os_Getpid : Z;
  os_Args0 : string;
  os_OpenFile : trace → proc_path → result File;
  system_Setns : trace → Z → option error;
  system_CreateMasterAndConsole : trace → result (File * string);
  system_GetProcessStartTime : trace → Z → result string;
  NewSyncPipe_answer : trace → result SyncPipe;
  SendToChild_answer : trace → SyncPipe → Context → option error;
  term_Attach_answer : trace → option error;
  command_Start_answer : trace → result Z;
  command_Wait_answer : trace → option error * WaitStatus;
  WritePid_answer : trace → string → Z → string → option error;
  systemd_UseSystemd : trace → bool;
  systemd_Apply : trace → Cgroup → Z → option ActiveCgroup * option error;
  fs_Apply : trace → Cgroup → Z → option ActiveCgroup * option error;
  network_GetStrategy : string → result NetworkStrategy;
  strategy_Create : trace → NetworkStrategy → Network → Z → Context → Context * option error
}.

(** ** Effects: a trace-passing monad *)

Definition M (A : Type) : Type := trace → A * trace.

#[export] Instance M_ret : MRet M := λ A a t, (a, t).
#[export] Instance M_bind : MBind M := λ A B k m t, let '(a, t') := m t in k a t'.

(** Performing an outside call: the answer is computed from the history so
    far, then the call is recorded. *)
Definition perform {A : Type} (e : event) (answer : trace → A) : M A :=
  λ t, (answer t, t ++ [e]).

(** Calls whose result the code does not look at. *)
Definition emit (e : event) : M unit := perform e (λ _, tt).

Definition log_Printf (format : string) (args : list log_arg) : M unit :=
  emit (EvLog format args).

(** ** Package [network] *)

Module network.
Section network.
Context (env : Env).

Definition InterfaceByName (name : string) : M (result Interface) :=
  perform (EvInterfaceByName name) (λ t, net_InterfaceByName env t name).

Definition netlink (req : netlink_request) : M (option error) :=
  perform (EvNetlink req) (λ t, netlink_answer env t req).

Definition InterfaceUp (name : string) : M (option error) :=
  r ← InterfaceByName name;
  match r with
  | Err err => mret (Some err)
  | Ok iface => netlink (NetworkLinkUp iface)
  end.

Definition InterfaceDown (name : string) : M (option error) :=
  r ← InterfaceByName name;
  match r with
  | Err err => mret (Some err)
  | Ok iface => netlink (NetworkLinkDown iface)
  end.

Definition ChangeInterfaceName (old newName : string) : M (option error) :=
  r ← InterfaceByName old;
  match r with
  | Err err => mret (Some err)
  | Ok iface => netlink (NetworkChangeName iface newName)
  end.

Definition CreateVethPair (name1 name2 : string) : M (option error) :=
  netlink (NetworkCreateVethPair name1 name2).

Definition SetInterfaceInNamespacePid (name : string) (nsPid : Z) : M (option error) :=
  log_Printf "setting interface my name %s, %d" [AStr name; AInt nsPid];;
  r ← InterfaceByName name;
  match r with
  | Err err =>
      log_Printf "error getting interfacebyname %+v" [AErr err];;
      mret (Some err)
  | Ok iface => netlink (NetworkSetNsPid iface nsPid)
  end.

Definition SetInterfaceMaster (name master : string) : M (option error) :=
  r ← InterfaceByName name;
  match r with
  | Err err => mret (Some err)
  | Ok iface =>
      r ← InterfaceByName master;
      match r with
      | Err err => mret (Some err)
      | Ok masterIface => netlink (AddToBridge iface masterIface)
      end
  end.

Definition SetDefaultGateway (ip ifaceName : string) : M (option error) :=
  netlink (AddDefaultGw ip ifaceName).

Definition SetInterfaceIp (name rawIp : string) : M (option error) :=
  r ← InterfaceByName name;
  match r with
  | Err err => mret (Some err)
  | Ok iface =>
      match net_ParseCIDR env rawIp with
      | Err err => mret (Some err)
      | Ok (ip, ipNet) => netlink (NetworkLinkAddIp iface ip ipNet)
      end
  end.

Definition SetMtu (name : string) (mtu : Z) : M (option error) :=
  r ← InterfaceByName name;
  match r with
  | Err err => mret (Some err)
  | Ok iface => netlink (NetworkSetMTU iface mtu)
  end.

End network.
End network.

(** ** Function bodies: Go's [return], [defer] and [for range] *)

(** A statement either falls through with a value or leaves the function. *)
Inductive flow (R A : Type) : Type :=
| Returned (r : R)
| Next (a : A).
Arguments Returned {R A} r.
Arguments Next {R A} a.

(** A statement of a function returning [R]: it threads the stack of
    deferred calls (most recent first) and the trace. *)
Definition Body (R A : Type) : Type := list (M unit) → M (flow R A * list (M unit)).

#[export] Instance Body_ret {R} : MRet (Body R) := λ A a ds, mret (Next a, ds).
#[export] Instance Body_bind {R} : MBind (Body R) := λ A B k m ds,
  '(fl, ds') ← m ds;
  match fl with
  | Returned r => mret (Returned r, ds')
  | Next a => k a ds'
  end.

Definition call {R A : Type} (m : M A) : Body R A :=
  λ ds, a ← m; mret (Next a, ds).

Definition return_ {R A : Type} (r : R) : Body R A :=
  λ ds, mret (Returned r, ds).

Definition defer {R : Type} (d : M unit) : Body R unit :=
  λ ds, mret (Next tt, d :: ds).

Fixpoint run_deferred (ds : list (M unit)) : M unit :=
  match ds with
  | [] => mret tt
  | d :: ds' => d;; run_deferred ds'
  end.

(** A whole function: run the body, then the deferred calls, last one
    first. *)
Definition func {R : Type} (body : Body R R) : M R :=
  '(fl, ds) ← body [];
  run_deferred ds;;
  mret (match fl with Returned r => r | Next r => r end).

(** [v, err := f(); if err != nil { handler }] *)
Definition unless_err {R T : Type} (m : M (result T)) (handler : error → Body R T) : Body R T :=
  r ← call m;
  match r with
  | Ok v => mret v
  | Err err => handler err
  end.

(** [if err := f(); err != nil { handler }] *)
Definition if_err {R : Type} (m : M (option error)) (handler : error → Body R unit) : Body R unit :=
  r ← call m;
  match r with
  | None => mret tt
  | Some err => handler err
  end.

(** [for _, x := range l { body }], with the variables the loop updates
    passed along in [s]. *)
Fixpoint for_range {R A S : Type} (l : list A) (s : S) (body : S → A → Body R S) : Body R S :=
  match l with
  | [] => mret s
  | x :: l' => s' ← body s x; for_range l' s' body
  end.

(** ** Package [namespaces] *)

Module namespaces.
Section namespaces.
Context (env : Env).

(** *** Outside calls *)

Definition NewSyncPipe : M (result SyncPipe) :=
  perform EvNewSyncPipe (NewSyncPipe_answer env).

Definition SyncPipe_SendToChild (pipe : SyncPipe) (context : Context) : M (option error) :=
  perform (EvSendToChild pipe context) (λ t, SendToChild_answer env t pipe context).

Definition SyncPipe_Close (pipe : SyncPipe) : M unit :=
  emit (EvSyncPipeClose pipe).

Definition CreateMasterAndConsole : M (result (File * string)) :=
  perform EvCreateMasterAndConsole (system_CreateMasterAndConsole env).

Definition GetProcessStartTime (pid : Z) : M (result string) :=
  perform (EvGetProcessStartTime pid) (λ t, system_GetProcessStartTime env t pid).

Definition Setns (fd : Z) : M (option error) :=
  perform (EvSetns fd) (λ t, system_Setns env t fd).

Definition OpenFile (path : proc_path) : M (result File) :=
  perform (EvOpenFile path) (λ t, os_OpenFile env t path).

Definition term_SetMaster (master : File) : M unit := emit (EvTermSetMaster master).

Definition term_Attach : M (option error) := perform EvTermAttach (term_Attach_answer env).

Definition term_Close : M unit := emit EvTermClose.

Definition createCommand (console rootfs dataPath init : string) (pipe : File)
    (args : list string) : M unit :=
  emit (EvCreateCommand console rootfs dataPath init pipe args).

(** [command.Start()]; on success the answer is [command.Process.Pid]. *)
Definition command_Start : M (result Z) := perform EvStart (command_Start_answer env).

Definition command_Process_Kill : M unit := emit EvKill.

(** [command.Wait()]: the error and, with it, what [command.ProcessState]
    then holds. *)
Definition command_Wait : M (option error * WaitStatus) :=
  perform EvWait (command_Wait_answer env).

Definition WritePid (dataPath : string) (pid : Z) (started : string) : M (option error) :=
  perform (EvWritePid dataPath pid started) (λ t, WritePid_answer env t dataPath pid started).

Definition DeletePid (dataPath : string) : M unit := emit (EvDeletePid dataPath).

Definition cleaner_Cleanup (cleaner : ActiveCgroup) : M unit := emit (EvCleanup cleaner).

Definition GetStrategy (type : string) : M (result NetworkStrategy) :=
  perform (EvGetStrategy type) (λ _, network_GetStrategy env type).

Definition strategy_Create_ (strategy : NetworkStrategy) (config : Network) (nspid : Z)
    (context : Context) : M (Context * option error) :=
  perform (EvStrategyCreate strategy config nspid)
          (λ t, strategy_Create env t strategy config nspid context).

(** *** [SetupCgroups] *)

Definition SetupCgroups (container : Container) (nspid : Z)
    : M (option ActiveCgroup * option error) :=
  match Cgroups container with
  | Some c =>
      useSystemd ← perform EvUseSystemd (systemd_UseSystemd env);
      if useSystemd : bool
      then perform (EvSystemdApply c nspid) (λ t, systemd_Apply env t c nspid)
      else perform (EvFsApply c nspid) (λ t, fs_Apply env t c nspid)
  | None => mret (None, None)
  end.

(** *** [InitializeNetworking] *)

(** The body of the loop over [container.NetworkInterfaces]. *)
Definition InitializeNetworking_iface (nspid : Z) (net_iface : NetworkInterface) : M unit :=
  log_Printf "setting up %+v" [AIface net_iface];;
  err ← network.InterfaceDown env (HostIfaceName net_iface);
  (if err is Some _
   then log_Printf "interface down failed for %s" [AStr (HostIfaceName net_iface)]
   else mret tt);;
  err ← network.SetInterfaceInNamespacePid env (HostIfaceName net_iface) nspid;
  (if err is Some err
   then log_Printf "failed to set interface into namespace pid of %d, named %s"
                   [AInt nspid; AStr (HostIfaceName net_iface)];;
        log_Printf "error was %+v" [AErr err]
   else mret tt);;
  err ← network.InterfaceUp env (HostIfaceName net_iface);
  (if err is Some _
   then log_Printf "interface up failed for %s" [AStr (HostIfaceName net_iface)]
   else mret tt).

Definition InitializeNetworking (container : Container) (nspid : Z) (pipe : SyncPipe)
    : M (option error) :=
  func (
    context ← for_range (Networks container) (∅ : Context) (λ context config,
      strategy ← unless_err (GetStrategy (Type_ config)) (λ err, return_ (Some err));
      '(context, err) ← call (strategy_Create_ strategy config nspid context);
      if err is Some err then return_ (Some err) else mret context);
    for_range (NetworkInterfaces container) tt (λ _ net_iface,
      call (InitializeNetworking_iface nspid net_iface));;
    err ← call (SyncPipe_SendToChild pipe context);
    return_ err).

(** *** [TeardownNetworking] *)

(** The body of the loop over [container.NetworkInterfaces]. *)
Definition TeardownNetworking_iface (nspid : Z) (net_iface : NetworkInterface) : M unit :=
  log_Printf "tearing down %+v" [AIface net_iface];;
  err ← network.InterfaceDown env (HostIfaceName net_iface);
  (if err is Some _
   then log_Printf "interface down failed for %s" [AStr (HostIfaceName net_iface)]
   else mret tt);;
  err ← network.SetInterfaceInNamespacePid env (HostIfaceName net_iface) 1;
  (if err is Some err
   then log_Printf "failed to set interface into namespace pid of %d, named %s"
                   [AInt nspid; AStr (HostIfaceName net_iface)];;
        log_Printf "unable to set interface namespace pid %+v" [AErr err]
   else mret tt);;
  err ← network.InterfaceUp env (HostIfaceName net_iface);
  (if err is Some _
   then log_Printf "interface up failed for %s" [AStr (HostIfaceName net_iface)]
   else mret tt).

Definition TeardownNetworking (container : Container) (nspid : Z) (pipe : SyncPipe) : M unit :=
  func (
    r ← call (OpenFile proc_self_net_ns);
    match r with
    | Err err => call (log_Printf "unable to open self proc %+v" [AErr err])
    | Ok original =>
        defer (err ← Setns (File_Fd (Some original));
               if err is Some err
               then log_Printf "unable to set ns to self proc %+v" [AErr err]
               else mret tt)
    end;;
    r ← call (OpenFile (proc_pid_net_ns nspid));
    running ← match r with
              | Err err =>
                  call (log_Printf "unable to open %d proc %+v" [AInt nspid; AErr err]);;
                  mret None
              | Ok running => mret (Some running)
              end;
    err ← call (Setns (File_Fd running));
    (if err is Some err
     then call (log_Printf "unable to set ns to pid proc %+v" [AErr err])
     else mret tt);;
    call (log_Printf "namespace set to pid" []);;
    for_range (NetworkInterfaces container) tt (λ _ net_iface,
      call (TeardownNetworking_iface nspid net_iface));;
    return_ tt).

(** *** [GetNamespaceFlags] *)

(** The loop, over the entries in the order the map iteration yields
    them.  [|=] on Go [int]s is [Z.lor]; it cannot overflow. *)
Definition GetNamespaceFlags_range (entries : list (string * bool)) : Z :=
  foldl (λ flag '(key, enabled),
           if enabled : bool
           then if libcontainer_GetNamespace env key is Some ns
                then Z.lor flag (Value ns)
                else flag
           else flag)
        0 entries.

Definition GetNamespaceFlags (namespaces : gmap string bool) : Z :=
  GetNamespaceFlags_range (map_to_list namespaces).

(** *** [Exec] *)

(** The terminal [term] and the command builder [createCommand] are
    collaborators of the caller: their calls are events, answered by the host.
    [startCallback] is [true] when the caller passed a non-nil callback. *)
Definition Exec (container : Container) (rootfs dataPath : string) (args : list string)
    (startCallback : bool) : M (Z * option error) :=
  func (
    syncPipe ← unless_err NewSyncPipe (λ err, return_ (-1, Some err));
    '(master, console) ←
      (if Tty container
       then '(master, console) ← unless_err CreateMasterAndConsole
                                    (λ err, return_ (-1, Some err));
            call (term_SetMaster master);;
            mret (Some master, console)
       else mret (None, ""%string));
    call (createCommand console rootfs dataPath (os_Args0 env) (child syncPipe) args);;
    if_err term_Attach (λ err, return_ (-1, Some err));;
    defer term_Close;;
    pid ← unless_err command_Start (λ err, return_ (-1, Some err));
    started ← unless_err (GetProcessStartTime pid) (λ err, return_ (-1, Some err));
    if_err (WritePid dataPath pid started) (λ err,
      call command_Process_Kill;;
      call command_Wait;;
      return_ (-1, Some err));;
    defer (DeletePid dataPath);;
    '(cleaner, err) ← call (SetupCgroups container pid);
    (if err is Some err
     then call command_Process_Kill;;
          call command_Wait;;
          return_ (-1, Some err)
     else mret tt);;
    (if cleaner is Some cleaner
     then defer (cleaner_Cleanup cleaner)
     else mret tt);;
    if_err (InitializeNetworking container pid syncPipe) (λ err,
      call command_Process_Kill;;
      call command_Wait;;
      return_ (-1, Some err));;
    defer (TeardownNetworking container pid syncPipe);;
    call (SyncPipe_Close syncPipe);;
    (if startCallback then call (emit EvStartCallback) else mret tt);;
    call (log_Printf "before execing container, pid is %d" [AInt (os_Getpid env)]);;
    '(err, status) ← call command_Wait;
    (if err is Some err
     then if is_ExitError err then mret tt else return_ (-1, Some err)
     else mret tt);;
    call (log_Printf "done execing container, pid is %d" [AInt (os_Getpid env)]);;
    return_ (WaitStatus_ExitStatus status, None)).

End namespaces.
End namespaces.

(** ** Observations on traces *)

(** How many events of a trace satisfy [p]. *)
Definition count (p : event → bool) (t : trace) : nat := length (List.filter p t).

Definition is_kill (e : event) : bool := if e is EvKill then true else false.
Definition is_wait (e : event) : bool := if e is EvWait then true else false.
Definition is_close (e : event) : bool := if e is EvSyncPipeClose _ then true else false.
Definition is_delete_pid (e : event) : bool := if e is EvDeletePid _ then true else false.

(** The interfaces looked up, and the netlink requests issued, in order. *)
Definition interface_lookups (t : trace) : list string :=
  omap (λ e, if e is EvInterfaceByName name then Some name else None) t.

Definition netlink_requests (t : trace) : list netlink_request :=
  omap (λ e, if e is EvNetlink req then Some req else None) t.

(** Classes of events, by the part of the launch that makes them. *)
Definition launch_event (e : event) : bool :=
  match e with
  | EvNewSyncPipe | EvCreateMasterAndConsole | EvTermSetMaster _
  | EvCreateCommand _ _ _ _ _ _ | EvTermAttach | EvStart
  | EvGetProcessStartTime _ | EvWritePid _ _ _ => true
  | _ => false
  end.

Definition cgroup_event (e : event) : bool :=
  match e with
  | EvUseSystemd | EvSystemdApply _ _ | EvFsApply _ _ => true
  | _ => false
  end.

Definition strategy_event (e : event) : bool :=
  match e with
  | EvGetStrategy _ | EvStrategyCreate _ _ _ => true
  | _ => false
  end.

Definition relocation_event (e : event) : bool :=
  match e with
  | EvInterfaceByName _ | EvNetlink _ | EvLog _ _ => true
  | _ => false
  end.

(** Networking proper: strategies, interface operations, the payload sent to
    the child, namespace switches. *)
Definition networking_event (e : event) : bool :=
  match e with
  | EvGetStrategy _ | EvStrategyCreate _ _ _ | EvSendToChild _ _
  | EvOpenFile _ | EvSetns _ | EvInterfaceByName _ | EvNetlink _ => true
  | _ => false
  end.

(** The deferred calls of [Exec] other than [TeardownNetworking]. *)
Definition unwind_event (e : event) : bool :=
  match e with
  | EvCleanup _ | EvDeletePid _ | EvTermClose => true
  | _ => false
  end.

(** Everything [InitializeNetworking] and [TeardownNetworking] can do. *)
Definition network_phase_event (e : event) : bool :=
  networking_event e || (if e is EvLog _ _ then true else false).

(** What happens before networking starts. *)
Definition setup_event (e : event) : bool := launch_event e || cgroup_event e.

(** The three requests that move an interface into the namespace of
    [nsPid]. *)
Definition relocation (nsPid : Z) (iface : Interface) : list netlink_request :=
  [NetworkLinkDown iface; NetworkSetNsPid iface nsPid; NetworkLinkUp iface].

Definition host_names (container : Container) : list string :=
  HostIfaceName <$> NetworkInterfaces container.

(** Every configured network has a registered strategy whose [Create]
    succeeds. *)
Definition strategies_succeed (env : Env) (nspid : Z) (configs : list Network) : Prop :=
  Forall (λ config, ∃ strategy,
            network_GetStrategy env (Type_ config) = Ok strategy
            ∧ ∀ t context, (strategy_Create env t strategy config nspid context).2 = None)
         configs.

(** The named interfaces exist, [ifc] giving what the lookup returns. *)
Definition interfaces_exist (env : Env) (ifc : string → Interface) (names : list string) : Prop :=
  ∀ name, name ∈ names → ∀ t, net_InterfaceByName env t name = Ok (ifc name).

(** The bitwise OR of the registered flag values of the enabled, recognised
    entries, as the contract of [GetNamespaceFlags] words it. *)
Definition enabled_flags (env : Env) (entries : list (string * bool)) : list Z :=
  omap (λ '(key, enabled),
          if enabled : bool then Value <$> libcontainer_GetNamespace env key else None)
       entries.

Definition bitwise_or (flags : list Z) : Z := foldr Z.lor 0 flags.

(** A loop whose body neither returns nor updates a variable. *)
Fixpoint for_each {A : Type} (l : list A) (f : A → M unit) : M unit :=
  match l with
  | [] => mret tt
  | x :: l' => f x;; for_each l' f
  end.

(** [m] only appends events of class [P] to the trace. *)
Definition emits {A : Type} (P : event → Prop) (m : M A) : Prop :=
  ∀ t, ∃ d, (m t).2 = t ++ d ∧ Forall P d.

Definition emitsB {R A : Type} (P : event → Prop) (b : Body R A) : Prop :=
  ∀ ds, Forall (emits P) ds →
  ∀ t, ∃ d, (b ds t).2 = t ++ d ∧ Forall P d ∧ Forall (emits P) (b ds t).1.2.

(** ** The exit paths of [Exec]

    [at_command], [at_started], ... say that [Exec] has reached a point of
    its body with a given history; [Exec_run] lists, for every [return] of
    [Exec], the answers that lead to it and the result and trace it leaves
    once the deferred calls have run. *)

Section Exec_paths.
Context (env : Env) (container : Container) (rootfs dataPath : string)
        (args : list string) (startCallback : bool).

(** [createCommand] has returned. *)
Inductive at_command (syncPipe : SyncPipe) : trace → Prop :=
| at_command_plain :
    NewSyncPipe_answer env [] = Ok syncPipe →
    Tty container = false →
    at_command syncPipe
      [EvNewSyncPipe;
       EvCreateCommand "" rootfs dataPath (os_Args0 env) (child syncPipe) args]
| at_command_tty master console :
    NewSyncPipe_answer env [] = Ok syncPipe →
    Tty container = true →
    system_CreateMasterAndConsole env [EvNewSyncPipe] = Ok (master, console) →
    at_command syncPipe
      [EvNewSyncPipe; EvCreateMasterAndConsole; EvTermSetMaster master;
       EvCreateCommand console rootfs dataPath (os_Args0 env) (child syncPipe) args].

(** The child has started; [term.Close] is deferred. *)
Inductive at_started (syncPipe : SyncPipe) (pid : Z) : trace → Prop :=
| at_started_intro t :
    at_command syncPipe t →
    term_Attach_answer env t = None →
    command_Start_answer env (t ++ [EvTermAttach]) = Ok pid →
    at_started syncPipe pid (t ++ [EvTermAttach; EvStart]).

(** The pid record is written; [DeletePid] is deferred. *)
Inductive at_recorded (syncPipe : SyncPipe) (pid : Z) : trace → Prop :=
| at_recorded_intro t started :
    at_started syncPipe pid t →
    system_GetProcessStartTime env t pid = Ok started →
    WritePid_answer env (t ++ [EvGetProcessStartTime pid]) dataPath pid started = None →
    at_recorded syncPipe pid (t ++ [EvGetProcessStartTime pid; EvWritePid dataPath pid started]).

(** [SetupCgroups] has returned without error. *)
Inductive at_cgroups (syncPipe : SyncPipe) (pid : Z) (cleaner : option ActiveCgroup)
    : trace → Prop :=
| at_cgroups_intro t t' :
    at_recorded syncPipe pid t →
    namespaces.SetupCgroups env container pid t = (cleaner, None, t') →
    at_cgroups syncPipe pid cleaner t'.

(** [InitializeNetworking] has returned without error;
    [TeardownNetworking] is deferred. *)
Inductive at_networked (syncPipe : SyncPipe) (pid : Z) (cleaner : option ActiveCgroup)
    : trace → Prop :=
| at_networked_intro t t' :
    at_cgroups syncPipe pid cleaner t →
    namespaces.InitializeNetworking env container pid syncPipe t = (None, t') →
    at_networked syncPipe pid cleaner t'.

(** From [syncPipe.Close()] up to the call of [command.Wait()]. *)
Definition release (syncPipe : SyncPipe) : trace :=
  [EvSyncPipeClose syncPipe]
  ++ (if startCallback then [EvStartCallback] else [])
  ++ [EvLog "before execing container, pid is %d" [AInt (os_Getpid env)]].

(** The deferred calls, in the order they run. *)
Definition unwind_cgroups (cleaner : option ActiveCgroup) : trace :=
  (if cleaner is Some cleaner then [EvCleanup cleaner] else [])
  ++ [EvDeletePid dataPath; EvTermClose].

Definition unwind_network (syncPipe : SyncPipe) (pid : Z) (cleaner : option ActiveCgroup)
    (t : trace) : trace :=
  (namespaces.TeardownNetworking env container pid syncPipe t).2 ++ unwind_cgroups cleaner.

Inductive Exec_run : Z * option error * trace → Prop :=
| run_pipe_failed err :
    NewSyncPipe_answer env [] = Err err →
    Exec_run (-1, Some err, [EvNewSyncPipe])
| run_console_failed syncPipe err :
    NewSyncPipe_answer env [] = Ok syncPipe →
    Tty container = true →
    system_CreateMasterAndConsole env [EvNewSyncPipe] = Err err →
    Exec_run (-1, Some err, [EvNewSyncPipe; EvCreateMasterAndConsole])
| run_attach_failed syncPipe t err :
    at_command syncPipe t →
    term_Attach_answer env t = Some err →
    Exec_run (-1, Some err, t ++ [EvTermAttach])
| run_start_failed syncPipe t err :
    at_command syncPipe t →
    term_Attach_answer env t = None →
    command_Start_answer env (t ++ [EvTermAttach]) = Err err →
    Exec_run (-1, Some err, t ++ [EvTermAttach; EvStart; EvTermClose])
| run_start_time_failed syncPipe pid t err :
    at_started syncPipe pid t →
    system_GetProcessStartTime env t pid = Err err →
    Exec_run (-1, Some err, t ++ [EvGetProcessStartTime pid; EvTermClose])
| run_record_failed syncPipe pid t started err :
    at_started syncPipe pid t →
    system_GetProcessStartTime env t pid = Ok started →
    WritePid_answer env (t ++ [EvGetProcessStartTime pid]) dataPath pid started = Some err →
    Exec_run (-1, Some err,
              t ++ [EvGetProcessStartTime pid; EvWritePid dataPath pid started;
                    EvKill; EvWait; EvTermClose])
| run_cgroups_failed syncPipe pid t cleaner err t' :
    at_recorded syncPipe pid t →
    namespaces.SetupCgroups env container pid t = (cleaner, Some err, t') →
    Exec_run (-1, Some err, t' ++ [EvKill; EvWait; EvDeletePid dataPath; EvTermClose])
| run_network_failed syncPipe pid cleaner t err t' :
    at_cgroups syncPipe pid cleaner t →
    namespaces.InitializeNetworking env container pid syncPipe t = (Some err, t') →
    Exec_run (-1, Some err, t' ++ [EvKill; EvWait] ++ unwind_cgroups cleaner)
| run_wait_failed syncPipe pid cleaner t err status :
    at_networked syncPipe pid cleaner t →
    command_Wait_answer env (t ++ release syncPipe) = (Some err, status) →
    is_ExitError err = false →
    Exec_run (-1, Some err,
              unwind_network syncPipe pid cleaner (t ++ release syncPipe ++ [EvWait]))
| run_exited syncPipe pid cleaner t err status :
    at_networked syncPipe pid cleaner t →
    command_Wait_answer env (t ++ release syncPipe) = (err, status) →
    (if err is Some err then is_ExitError err = true else True) →
    Exec_run (WaitStatus_ExitStatus status, None,
              unwind_network syncPipe pid cleaner
                (t ++ release syncPipe
                   ++ [EvWait; EvLog "done execing container, pid is %d" [AInt (os_Getpid env)]])).

End Exec_paths.

(** ** Sample hosts and containers *)

Module Sample.

(** The namespace registry of [libcontainer]. *)
Definition registry : list Namespace :=
  [ {| Key := "NEWNS";   Value := 0x20000;    NsFile := "mnt" |};
    {| Key := "NEWUTS";  Value := 0x4000000;  NsFile := "uts" |};
    {| Key := "NEWIPC";  Value := 0x8000000;  NsFile := "ipc" |};
    {| Key := "NEWUSER"; Value := 0x10000000; NsFile := "user" |};
    {| Key := "NEWPID";  Value := 0x20000000; NsFile := "pid" |};
    {| Key := "NEWNET";  Value := 0x40000000; NsFile := "net" |} ].

Definition GetNamespace (key : string) : option Namespace :=
  List.find (λ ns, bool_decide (Key ns = key)) registry.

Definition eth0 : Interface := {| Index := 2; MTU := 1500; Name := "eth0" |}.

(** Where a launch is made to fail. *)
Inductive failure : Type :=
| no_failure
| console_fails
| start_time_fails
| record_fails
| cgroups_fail
| strategy_fails
| netlink_fails
| wait_fails.

Definition fails_at (here where_ : failure) : bool :=
  match here, where_ with
  | console_fails, console_fails | start_time_fails, start_time_fails
  | record_fails, record_fails | cgroups_fail, cgroups_fail
  | strategy_fails, strategy_fails | netlink_fails, netlink_fails
  | wait_fails, wait_fails => true
  | _, _ => false
  end.

(** A host on which everything succeeds except the step [f]; the child
    exits with status [exit_code]. *)
Definition host (f : failure) (exit_code : Z) : Env := {|
  net_InterfaceByName := λ _ name,
    if bool_decide (name = "eth0") then Ok eth0
    else Err (errors_New "no such network interface");
  net_ParseCIDR := λ s,
    if bool_decide (s = "10.0.0.2/24") then Ok ("10.0.0.2", "10.0.0.0/24")%string
    else Err (errors_New "invalid CIDR address");
  netlink_answer := λ _ _,
    if fails_at f netlink_fails then Some (errors_New "operation not permitted") else None;
  libcontainer_GetNamespace := GetNamespace;
  os_Getpid := 100;
  os_Args0 := "nsinit";
  os_OpenFile := λ _ path,
    Ok {| fd := match path with proc_self_net_ns => 7 | proc_pid_net_ns _ => 8 end |};
  system_Setns := λ _ _, None;
  system_CreateMasterAndConsole := λ _,
    if fails_at f console_fails then Err (errors_New "no pty")
    else Ok ({| fd := 5 |}, "/dev/pts/3"%string);
  system_GetProcessStartTime := λ _ _,
    if fails_at f start_time_fails then Err (errors_New "no such process")
    else Ok "12345"%string;
  NewSyncPipe_answer := λ _, Ok {| parent := {| fd := 4 |}; child := {| fd := 3 |} |};
  SendToChild_answer := λ _ _ _, None;
  term_Attach_answer := λ _, None;
  command_Start_answer := λ _, Ok 4242;
  command_Wait_answer := λ _,
    if fails_at f wait_fails then (Some (errors_New "wait: no child processes"), 0)
    else if bool_decide (exit_code = 0) then (None, 0)
    else (Some exec_ExitError, exit_code * 256);
  WritePid_answer := λ _ _ _ _,
    if fails_at f record_fails then Some (errors_New "permission denied") else None;
  systemd_UseSystemd := λ _, false;
  systemd_Apply := λ _ _ _, (Some {| cgroup_id := 1 |}, None);
  fs_Apply := λ _ _ _,
    if fails_at f cgroups_fail then (None, Some (errors_New "mountpoint not found"))
    else (Some {| cgroup_id := 2 |}, None);
  network_GetStrategy := λ type,
    if bool_decide (type = "veth") && negb (fails_at f strategy_fails)
    then Ok {| strategy_name := "veth" |}
    else Err (errors_New "unknown network type");
  strategy_Create := λ _ _ _ _ context, (<["vethChild" := "veth1234"]> context, None)
|}.

Definition syncPipe : SyncPipe := {| parent := {| fd := 4 |}; child := {| fd := 3 |} |}.

(** An interactive container with a cgroup, one veth network and two
    bound interfaces, the second of which does not exist on the host. *)
Definition box : Container := {|
  Tty := true;
  Namespaces := {[ "NEWNET" := true; "NEWPID" := false; "bogus" := true ]};
  Cgroups := Some {| Cgroup_Name := "box"; Cgroup_Parent := "docker" |};
  Networks := [ {| Type_ := "veth"; Address := "10.0.0.2/24";
                   Gateway := "10.0.0.1"; Mtu := 1500 |} ];
  NetworkInterfaces := [ {| HostIfaceName := "eth0" |}; {| HostIfaceName := "eth9" |} ]
|}.

(** The same with the existing interface only. *)
Definition wired : Container := {|
  Tty := true;
  Namespaces := {[ "NEWNET" := true ]};
  Cgroups := Some {| Cgroup_Name := "box"; Cgroup_Parent := "docker" |};
  Networks := [ {| Type_ := "veth"; Address := "10.0.0.2/24";
                   Gateway := "10.0.0.1"; Mtu := 1500 |} ];
  NetworkInterfaces := [ {| HostIfaceName := "eth0" |} ]
|}.

(** A container with no terminal, no cgroups and no networks. *)
Definition bare : Container := {|
  Tty := false;
  Namespaces := ∅;
  Cgroups := None;
  Networks := [];
  NetworkInterfaces := []
|}.

Definition launch (f : failure) (exit_code : Z) (container : Container)
    : Z * option error * trace :=
  namespaces.Exec (host f exit_code) container "/rootfs" "/data" ["sh"%string] true [].

End Sample.

(** ** [DefaultCreateCommand] *)

(** [syscall.SysProcAttr] and [exec.Cmd], with the fields that
    [DefaultCreateCommand] sets. *)
Record SysProcAttr : Type := { Cloneflags : Z; Pdeathsig : Z }.

Record Cmd : Type := {
  Cmd_Args : list string;
  Cmd_Dir : string;
  Cmd_Env : list string;
  Cmd_SysProcAttr : option SysProcAttr;
  Cmd_ExtraFiles : list File
}.

(** [exec.Command(name, arg...)]. *)
Definition exec_Command (name : string) (arg : list string) : Cmd :=
  {| Cmd_Args := name :: arg; Cmd_Dir := ""; Cmd_Env := [];
     Cmd_SysProcAttr := None; Cmd_ExtraFiles := [] |}.

(** The conversion [uintptr(x)] of a Go [int] on a 64-bit host. *)
Definition uintptr (x : Z) : Z := x mod 2 ^ 64.

Definition SIGKILL : Z := 9.

(** [system.SetCloneFlags] belongs to package [system], outside the two
    packages: it is the argument [system_SetCloneFlags], which receives the
    command and the flags and gives the command back.  [environ] is what
    [os.Environ()] returns.  The result is [None] when the assignment to
    [command.SysProcAttr.Pdeathsig] would dereference a nil [SysProcAttr]. *)
Definition DefaultCreateCommand (env : Env) (system_SetCloneFlags : Cmd → Z → Cmd)
    (environ : list string) (container : Container)
    (console rootfs dataPath init : string) (pipe : File) (args : list string) : option Cmd :=
  let env_ := ["console=" +:+ console; "pipe=3"; "data_path=" +:+ dataPath] in
  let command := exec_Command init ("init" :: args) in
  let command :=
    {| Cmd_Args := Cmd_Args command; Cmd_Dir := rootfs; Cmd_Env := Cmd_Env command;
       Cmd_SysProcAttr := Cmd_SysProcAttr command;
       Cmd_ExtraFiles := Cmd_ExtraFiles command |} in
  let command :=
    {| Cmd_Args := Cmd_Args command; Cmd_Dir := Cmd_Dir command; Cmd_Env := environ ++ env_;
       Cmd_SysProcAttr := Cmd_SysProcAttr command;
       Cmd_ExtraFiles := Cmd_ExtraFiles command |} in
  let command :=
    system_SetCloneFlags command
      (uintptr (namespaces.GetNamespaceFlags env (Namespaces container))) in
  match Cmd_SysProcAttr command with
  | None => None
  | Some attr =>
      Some {| Cmd_Args := Cmd_Args command; Cmd_Dir := Cmd_Dir command;
              Cmd_Env := Cmd_Env command;
              Cmd_SysProcAttr := Some {| Cloneflags := Cloneflags attr; Pdeathsig := SIGKILL |};
              Cmd_ExtraFiles := [pipe] |}
  end.

(** ** Further observations on traces *)

Definition is_term_close (e : event) : bool := if e is EvTermClose then true else false.
Definition is_cleanup (e : event) : bool := if e is EvCleanup _ then true else false.
Definition is_callback (e : event) : bool := if e is EvStartCallback then true else false.
Definition is_log (e : event) : bool := if e is EvLog _ _ then true else false.
Definition is_send (e : event) : bool := if e is EvSendToChild _ _ then true else false.
Definition is_create_command (e : event) : bool :=
  if e is EvCreateCommand _ _ _ _ _ _ then true else false.

(** What [InitializeNetworking] can do: strategies, relocation, the
    payload. *)
Definition initialize_event (e : event) : bool :=
  strategy_event e || relocation_event e || is_send e.

(** What [TeardownNetworking] can do: namespace switches and relocation. *)
Definition teardown_event (e : event) : bool :=
  match e with
  | EvOpenFile _ | EvSetns _ => true
  | _ => relocation_event e
  end.

(** The descriptors passed to [system.Setns], the files opened, the network
    types looked up and the networks a strategy was created for, in order. *)
Definition setns_fds (t : trace) : list Z :=
  omap (λ e, if e is EvSetns fd then Some fd else None) t.

Definition opened_files (t : trace) : list proc_path :=
  omap (λ e, if e is EvOpenFile path then Some path else None) t.

Definition strategy_lookups (t : trace) : list string :=
  omap (λ e, if e is EvGetStrategy type then Some type else None) t.

Definition strategies_created (t : trace) : list Network :=
  omap (λ e, if e is EvStrategyCreate _ config _ then Some config else None) t.

(** [m] makes at most one netlink request, and returns nil only when the
    last thing it did is a request that netlink accepted. *)
Definition reports_netlink (env : Env) (m : M (option error)) : Prop :=
  ∀ t, ∃ d,
    (m t).2 = t ++ d
    ∧ (length (netlink_requests d) ≤ 1)%nat
    ∧ ((m t).1 = None →
       ∃ d0 req, d = d0 ++ [EvNetlink req]
                 ∧ netlink_requests d0 = []
                 ∧ netlink_answer env (t ++ d0) req = None).

(** The calls that [TeardownNetworking] alone makes. *)
Definition is_namespace_switch (e : event) : bool :=
  match e with EvOpenFile _ | EvSetns _ => true | _ => false end.

(** The value a name contributes to the flags when it is enabled: that of
    its registry entry, nothing when it has none. *)
Definition namespace_value (env : Env) (key : string) : Z :=
  if libcontainer_GetNamespace env key is Some ns then Value ns else 0.

(** ** What a launch has acquired *)

Section acquired.
Context (env : Env) (container : Container) (rootfs dataPath : string) (args : list string).

(** [term.Attach] has succeeded: [term.Close] is deferred. *)
Definition terminal_attached : Prop :=
  ∃ syncPipe t,
    at_command env container rootfs dataPath args syncPipe t
    ∧ term_Attach_answer env t = None.

(** [WritePid] has succeeded: [DeletePid] is deferred. *)
Definition pid_recorded : Prop :=
  ∃ syncPipe pid t, at_recorded env container rootfs dataPath args syncPipe pid t.

(** [SetupCgroups] has returned the handle [h] and no error: its [Cleanup]
    is deferred. *)
Definition cgroup_joined (h : ActiveCgroup) : Prop :=
  ∃ syncPipe pid t t',
    at_recorded env container rootfs dataPath args syncPipe pid t
    ∧ namespaces.SetupCgroups env container pid t = (Some h, None, t').

(** [InitializeNetworking] has succeeded: [TeardownNetworking] is deferred
    and the child is released. *)
Definition child_released : Prop :=
  ∃ syncPipe pid cleaner t,
    at_networked env container rootfs dataPath args syncPipe pid cleaner t.
End acquired.

(** ** Hosts that differ from a given one in one answer *)

Module Hosts.

(** [os.OpenFile] answers as [answer] says. *)
Definition with_OpenFile (answer : trace → proc_path → result File) (env : Env) : Env := {|
  net_InterfaceByName := net_InterfaceByName env;
  net_ParseCIDR := net_ParseCIDR env;
  netlink_answer := netlink_answer env;
  libcontainer_GetNamespace := libcontainer_GetNamespace env;
  os_Getpid := os_Getpid env;
  os_Args0 := os_Args0 env;
  os_OpenFile := answer;
  system_Setns := system_Setns env;
  system_CreateMasterAndConsole := system_CreateMasterAndConsole env;
  system_GetProcessStartTime := system_GetProcessStartTime env;
  NewSyncPipe_answer := NewSyncPipe_answer env;
  SendToChild_answer := SendToChild_answer env;
  term_Attach_answer := term_Attach_answer env;
  command_Start_answer := command_Start_answer env;
  command_Wait_answer := command_Wait_answer env;
  WritePid_answer := WritePid_answer env;
  systemd_UseSystemd := systemd_UseSystemd env;
  systemd_Apply := systemd_Apply env;
  fs_Apply := fs_Apply env;
  network_GetStrategy := network_GetStrategy env;
  strategy_Create := strategy_Create env
|}.

(** [command.Wait] answers as [answer] says. *)
Definition with_Wait (answer : trace → option error * WaitStatus) (env : Env) : Env := {|
  net_InterfaceByName := net_InterfaceByName env;
  net_ParseCIDR := net_ParseCIDR env;
  netlink_answer := netlink_answer env;
  libcontainer_GetNamespace := libcontainer_GetNamespace env;
  os_Getpid := os_Getpid env;
  os_Args0 := os_Args0 env;
  os_OpenFile := os_OpenFile env;
  system_Setns := system_Setns env;
  system_CreateMasterAndConsole := system_CreateMasterAndConsole env;
  system_GetProcessStartTime := system_GetProcessStartTime env;
  NewSyncPipe_answer := NewSyncPipe_answer env;
  SendToChild_answer := SendToChild_answer env;
  term_Attach_answer := term_Attach_answer env;
  command_Start_answer := command_Start_answer env;
  command_Wait_answer := answer;
  WritePid_answer := WritePid_answer env;
  systemd_UseSystemd := systemd_UseSystemd env;
  systemd_Apply := systemd_Apply env;
  fs_Apply := fs_Apply env;
  network_GetStrategy := network_GetStrategy env;
  strategy_Create := strategy_Create env
|}.

(** The cgroup filesystem backend answers as [answer] says. *)
Definition with_fs_Apply (answer : trace → Cgroup → Z → option ActiveCgroup * option error) (env : Env) : Env := {|
  net_InterfaceByName := net_InterfaceByName env;
  net_ParseCIDR := net_ParseCIDR env;
  netlink_answer := netlink_answer env;
  libcontainer_GetNamespace := libcontainer_GetNamespace env;
  os_Getpid := os_Getpid env;
  os_Args0 := os_Args0 env;
  os_OpenFile := os_OpenFile env;
  system_Setns := system_Setns env;
  system_CreateMasterAndConsole := system_CreateMasterAndConsole env;
  system_GetProcessStartTime := system_GetProcessStartTime env;
  NewSyncPipe_answer := NewSyncPipe_answer env;
  SendToChild_answer := SendToChild_answer env;
  term_Attach_answer := term_Attach_answer env;
  command_Start_answer := command_Start_answer env;
  command_Wait_answer := command_Wait_answer env;
  WritePid_answer := WritePid_answer env;
  systemd_UseSystemd := systemd_UseSystemd env;
  systemd_Apply := systemd_Apply env;
  fs_Apply := answer;
  network_GetStrategy := network_GetStrategy env;
  strategy_Create := strategy_Create env
|}.

(** [strategy.Create] answers as [answer] says. *)
Definition with_strategy_Create (answer : trace → NetworkStrategy → Network → Z → Context → Context * option error) (env : Env) : Env := {|
  net_InterfaceByName := net_InterfaceByName env;
  net_ParseCIDR := net_ParseCIDR env;
  netlink_answer := netlink_answer env;
  libcontainer_GetNamespace := libcontainer_GetNamespace env;
  os_Getpid := os_Getpid env;
  os_Args0 := os_Args0 env;
  os_OpenFile := os_OpenFile env;
  system_Setns := system_Setns env;
  system_CreateMasterAndConsole := system_CreateMasterAndConsole env;
  system_GetProcessStartTime := system_GetProcessStartTime env;
  NewSyncPipe_answer := NewSyncPipe_answer env;
  SendToChild_answer := SendToChild_answer env;
  term_Attach_answer := term_Attach_answer env;
  command_Start_answer := command_Start_answer env;
  command_Wait_answer := command_Wait_answer env;
  WritePid_answer := WritePid_answer env;
  systemd_UseSystemd := systemd_UseSystemd env;
  systemd_Apply := systemd_Apply env;
  fs_Apply := fs_Apply env;
  network_GetStrategy := network_GetStrategy env;
  strategy_Create := answer
|}.

(** A [system.SetCloneFlags] that allocates the [SysProcAttr] when the
    command has none and stores the flags in it. *)
Definition SetCloneFlags (cmd : Cmd) (flag : Z) : Cmd :=
  {| Cmd_Args := Cmd_Args cmd; Cmd_Dir := Cmd_Dir cmd; Cmd_Env := Cmd_Env cmd;
     Cmd_SysProcAttr :=
       Some {| Cloneflags := flag;
               Pdeathsig := if Cmd_SysProcAttr cmd is Some attr then Pdeathsig attr else 0 |};
     Cmd_ExtraFiles := Cmd_ExtraFiles cmd |}.

(** The sample host, except that [command.Wait] fails with an error that
    is not an exit error. *)
Definition lost_child : Env :=
  with_Wait (λ _, (Some (errors_New "wait: no child processes"), 0))
    (Sample.host Sample.no_failure 0).

(** A container with two networks, the second of an unregistered type. *)
Definition two_networks : Container := {|
  Tty := false;
  Namespaces := {[ "NEWNET" := true ]};
  Cgroups := None;
  Networks := [ {| Type_ := "veth"; Address := "10.0.0.2/24";
                   Gateway := "10.0.0.1"; Mtu := 1500 |};
                {| Type_ := "macvlan"; Address := "10.0.1.2/24";
                   Gateway := "10.0.1.1"; Mtu := 1500 |};
                {| Type_ := "veth"; Address := "10.0.2.2/24";
                   Gateway := "10.0.2.1"; Mtu := 1500 |} ];
  NetworkInterfaces := [ {| HostIfaceName := "eth0" |} ]
|}.

End Hosts.

(** * Properties *)

Ltac run := unfold mbind, M_bind, mret, M_ret, emit, perform; cbn.

Ltac run_body :=
  repeat (progress (unfold mbind, Body_bind, M_bind, mret, Body_ret, M_ret, emit, perform; cbn)).

Ltac list_eq := rewrite <- ?app_assoc; reflexivity.

(** ** End-to-end runs of the model *)

(** No cgroups, no networks, a program that succeeds: exit code 0, no error,
    and the pid record is deleted. *)
Example launch_bare :
  Sample.launch Sample.no_failure 0 Sample.bare =
    (0, None,
     [EvNewSyncPipe;
      EvCreateCommand "" "/rootfs" "/data" "nsinit" {| fd := 3 |} ["sh"%string];
      EvTermAttach; EvStart; EvGetProcessStartTime 4242;
      EvWritePid "/data" 4242 "12345";
      EvSendToChild Sample.syncPipe ∅;
      EvSyncPipeClose Sample.syncPipe; EvStartCallback;
      EvLog "before execing container, pid is %d" [AInt 100];
      EvWait;
      EvLog "done execing container, pid is %d" [AInt 100];
      EvOpenFile proc_self_net_ns; EvOpenFile (proc_pid_net_ns 4242); EvSetns 8;
      EvLog "namespace set to pid" [];
      EvSetns 7; EvDeletePid "/data"; EvTermClose]).
Proof. reflexivity. Qed.

(** A program that exits with code 17 in the full container. *)
Example launch_box_17 :
  (Sample.launch Sample.no_failure 17 Sample.box).1 = (17, None).
Proof. reflexivity. Qed.

(** ** [WaitStatus] *)

(** A child that exits with code [c] leaves the wait status [c * 256], and
    [ExitStatus] gives [c] back; a child ended by signal [s] leaves [s], for
    which [ExitStatus] is -1. *)
Lemma WaitStatus_ExitStatus_exited c :
  0 ≤ c < 256 → WaitStatus_ExitStatus (c * 256) = c.
Proof.
  intros Hc. unfold WaitStatus_ExitStatus, WaitStatus_Exited.
  change 127 with (Z.ones 7). change 255 with (Z.ones 8).
  rewrite !Z.land_ones, Z.shiftr_div_pow2 by lia.
  change (2 ^ 7) with 128. change (2 ^ 8) with 256.
  replace ((c * 256) `mod` 128) with 0 by (Z.div_mod_to_equations; lia).
  cbn. Z.div_mod_to_equations. lia.
Qed.

Lemma WaitStatus_ExitStatus_signaled s :
  0 < s < 127 → WaitStatus_ExitStatus s = -1.
Proof.
  intros Hs. unfold WaitStatus_ExitStatus, WaitStatus_Exited.
  change 127 with (Z.ones 7). rewrite Z.land_ones by lia.
  rewrite Z.mod_small by lia. by destruct (Z.eqb_spec s 0); [lia|].
Qed.

(** ** [SetInterfaceIp] *)

(** C10.  If the named interface exists and the address string is not a
    valid CIDR, [SetInterfaceIp] returns the parse error after the lookup
    alone: no netlink request is issued. *)
Theorem SetInterfaceIp_invalid_CIDR env name rawIp t iface err :
  net_InterfaceByName env t name = Ok iface →
  net_ParseCIDR env rawIp = Err err →
  network.SetInterfaceIp env name rawIp t = (Some err, t ++ [EvInterfaceByName name])
  ∧ netlink_requests (network.SetInterfaceIp env name rawIp t).2 = netlink_requests t.
Proof.
  intros Hif Hcidr.
  assert (network.SetInterfaceIp env name rawIp t
          = (Some err, t ++ [EvInterfaceByName name])) as ->.
  { unfold network.SetInterfaceIp, network.InterfaceByName. run. by rewrite Hif, Hcidr. }
  split; [done|]. cbn. unfold netlink_requests. rewrite omap_app. cbn. by rewrite app_nil_r.
Qed.

Lemma SetInterfaceIp_invalid_CIDR_witness :
  network.SetInterfaceIp (Sample.host Sample.no_failure 0) "eth0" "10.0.0.2" []
    = (Some (errors_New "invalid CIDR address"), [EvInterfaceByName "eth0"])
  ∧ netlink_requests
      (network.SetInterfaceIp (Sample.host Sample.no_failure 0) "eth0" "10.0.0.2" []).2 = [].
Proof.
  apply (SetInterfaceIp_invalid_CIDR (Sample.host Sample.no_failure 0)
           "eth0" "10.0.0.2" [] Sample.eth0 (errors_New "invalid CIDR address"));
    reflexivity.
Defined.

(** With a valid address the request is issued. *)
Example SetInterfaceIp_valid :
  network.SetInterfaceIp (Sample.host Sample.no_failure 0) "eth0" "10.0.0.2/24" []
    = (None, [EvInterfaceByName "eth0";
              EvNetlink (NetworkLinkAddIp Sample.eth0 "10.0.0.2" "10.0.0.0/24")]).
Proof. reflexivity. Qed.

(** ** [SetupCgroups] *)

(** C3.  Without a cgroup specification [SetupCgroups] returns a nil handle
    and a nil error and calls nothing.  With one, it asks once whether systemd
    manages cgroups and then calls exactly one backend, systemd's if so and the
    cgroup filesystem's otherwise, and returns what that backend returned. *)
Theorem SetupCgroups_backend env container nspid t :
  (Cgroups container = None →
     namespaces.SetupCgroups env container nspid t = (None, None, t))
  ∧ (∀ c, Cgroups container = Some c →
       (systemd_UseSystemd env t = true →
          namespaces.SetupCgroups env container nspid t =
            (systemd_Apply env (t ++ [EvUseSystemd]) c nspid,
             t ++ [EvUseSystemd; EvSystemdApply c nspid]))
       ∧ (systemd_UseSystemd env t = false →
          namespaces.SetupCgroups env container nspid t =
            (fs_Apply env (t ++ [EvUseSystemd]) c nspid,
             t ++ [EvUseSystemd; EvFsApply c nspid]))).
Proof.
  unfold namespaces.SetupCgroups. split.
  - by intros ->.
  - intros c ->. run. split; intros ->; by rewrite <- app_assoc.
Qed.

Lemma SetupCgroups_backend_witness :
  namespaces.SetupCgroups (Sample.host Sample.no_failure 0) Sample.bare 4242 [] = (None, None, [])
  ∧ namespaces.SetupCgroups (Sample.host Sample.no_failure 0) Sample.box 4242 [] =
      (Some {| cgroup_id := 2 |}, None,
       [EvUseSystemd; EvFsApply {| Cgroup_Name := "box"; Cgroup_Parent := "docker" |} 4242]).
Proof.
  split.
  - exact (proj1 (SetupCgroups_backend (Sample.host Sample.no_failure 0) Sample.bare 4242 [])
             eq_refl).
  - exact (proj2 (proj2 (SetupCgroups_backend (Sample.host Sample.no_failure 0) Sample.box
                           4242 [])
                        {| Cgroup_Name := "box"; Cgroup_Parent := "docker" |} eq_refl)
                 eq_refl).
Defined.

(** ** [GetNamespaceFlags] *)

Section GetNamespaceFlags.
Context (env : Env).

Lemma GetNamespaceFlags_range_foldl entries acc :
  foldl (λ flag '(key, enabled),
           if enabled : bool
           then if libcontainer_GetNamespace env key is Some ns
                then Z.lor flag (Value ns)
                else flag
           else flag) acc entries
  = Z.lor acc (bitwise_or (enabled_flags env entries)).
Proof.
  revert acc. induction entries as [|[key enabled] entries IH]; intros acc; cbn.
  - by rewrite Z.lor_0_r.
  - rewrite IH. destruct enabled; [|done].
    destruct (libcontainer_GetNamespace env key) as [ns|]; cbn; [|done].
    by rewrite Z.lor_assoc.
Qed.

Lemma GetNamespaceFlags_range_or entries :
  namespaces.GetNamespaceFlags_range env entries = bitwise_or (enabled_flags env entries).
Proof. unfold namespaces.GetNamespaceFlags_range. by rewrite GetNamespaceFlags_range_foldl. Qed.

Lemma bitwise_or_testbit flags i :
  Z.testbit (bitwise_or flags) i = true ↔ ∃ v, v ∈ flags ∧ Z.testbit v i = true.
Proof.
  induction flags as [|v flags IH]; cbn.
  - rewrite Z.bits_0. split; [done|]. intros (v & Hv & _). by apply elem_of_nil in Hv.
  - rewrite Z.lor_spec, orb_true_iff, IH. split.
    + intros [H|(w & Hw & H)]; [exists v | exists w]; split; try done; [left | by right].
    + intros (w & Hw & H). apply elem_of_cons in Hw as [->|Hw]; [by left | right; eauto].
Qed.

Lemma elem_of_enabled_flags entries v :
  v ∈ enabled_flags env entries ↔
  ∃ key ns, (key, true) ∈ entries ∧ libcontainer_GetNamespace env key = Some ns ∧ Value ns = v.
Proof.
  unfold enabled_flags. rewrite list_elem_of_omap. split.
  - intros ([key enabled] & Hin & H). destruct enabled; [|done].
    destruct (libcontainer_GetNamespace env key) as [ns|] eqn:Hns; [|done].
    injection H as <-. eauto.
  - intros (key & ns & Hin & Hns & <-). exists (key, true). split; [done|]. by rewrite Hns.
Qed.

(** Go [int]s are 64 bits wide: the OR of flags that fit stays in range, so
    the loop never wraps around. *)
Lemma int64_shiftr x :
  - 2 ^ 63 ≤ x < 2 ^ 63 ↔ Z.shiftr x 63 = 0 ∨ Z.shiftr x 63 = -1.
Proof.
  rewrite Z.shiftr_div_pow2 by lia.
  change (2 ^ 63) with 9223372036854775808.
  Z.div_mod_to_equations. lia.
Qed.

Lemma bitwise_or_int64 flags :
  Forall (λ v, - 2 ^ 63 ≤ v < 2 ^ 63) flags → - 2 ^ 63 ≤ bitwise_or flags < 2 ^ 63.
Proof.
  induction 1 as [|v flags Hv _ IH]; [cbn; lia|].
  change (bitwise_or (v :: flags)) with (Z.lor v (bitwise_or flags)).
  apply int64_shiftr. apply int64_shiftr in Hv, IH.
  rewrite Z.shiftr_lor. by destruct Hv as [-> | ->], IH as [-> | ->]; [left|right..].
Qed.

Lemma GetNamespaceFlags_range_int64 entries :
  (∀ key ns, libcontainer_GetNamespace env key = Some ns → - 2 ^ 63 ≤ Value ns < 2 ^ 63) →
  - 2 ^ 63 ≤ namespaces.GetNamespaceFlags_range env entries < 2 ^ 63.
Proof.
  intros Hreg. rewrite GetNamespaceFlags_range_or. apply bitwise_or_int64.
  apply Forall_forall. intros v Hv.
  apply elem_of_enabled_flags in Hv as (key & ns & _ & Hns & <-). eauto.
Qed.

(** C2.  Whatever the order in which the map yields its entries, the loop
    computes the bitwise OR of the registered values of the enabled,
    recognised names: a bit is set in the result exactly when it is set in the
    value of such a name.  Disabled and unknown entries contribute nothing, no
    error can be returned, and the empty map gives 0. *)
Theorem GetNamespaceFlags_or (nss : gmap string bool) (order : list (string * bool)) :
  order ≡ₚ map_to_list nss →
  namespaces.GetNamespaceFlags_range env order = bitwise_or (enabled_flags env order)
  ∧ namespaces.GetNamespaceFlags_range env order = namespaces.GetNamespaceFlags env nss
  ∧ (∀ i, Z.testbit (namespaces.GetNamespaceFlags_range env order) i = true ↔
          ∃ key ns, nss !! key = Some true
                    ∧ libcontainer_GetNamespace env key = Some ns
                    ∧ Z.testbit (Value ns) i = true)
  ∧ namespaces.GetNamespaceFlags env ∅ = 0.
Proof.
  intros Hperm.
  assert (∀ l i, l ≡ₚ map_to_list nss →
            Z.testbit (namespaces.GetNamespaceFlags_range env l) i = true ↔
            ∃ key ns, nss !! key = Some true
                      ∧ libcontainer_GetNamespace env key = Some ns
                      ∧ Z.testbit (Value ns) i = true) as Hbits.
  { intros l i Hl. rewrite GetNamespaceFlags_range_or, bitwise_or_testbit. split.
    - intros (v & Hv & Hbit).
      apply elem_of_enabled_flags in Hv as (key & ns & Hin & Hns & <-).
      exists key, ns. split; [|done]. apply elem_of_map_to_list. by rewrite <- Hl.
    - intros (key & ns & Hkey & Hns & Hbit). exists (Value ns). split; [|done].
      apply elem_of_enabled_flags. exists key, ns. split; [|done].
      rewrite Hl. by apply elem_of_map_to_list. }
  split; [apply GetNamespaceFlags_range_or|]. split; [|split; [intros i; by apply Hbits|]].
  - apply Z.bits_inj'. intros i _.
    apply eq_true_iff_eq. unfold namespaces.GetNamespaceFlags.
    by rewrite (Hbits order i Hperm), (Hbits (map_to_list nss) i).
  - unfold namespaces.GetNamespaceFlags. by rewrite map_to_list_empty.
Qed.
End GetNamespaceFlags.

(** The example of the specification: an unknown name next to [NEWNET]. *)
Example GetNamespaceFlags_NEWNET_bogus :
  namespaces.GetNamespaceFlags (Sample.host Sample.no_failure 0)
    {[ "NEWNET" := true; "bogus" := true ]} = 0x40000000.
Proof. vm_compute. reflexivity. Qed.

Lemma GetNamespaceFlags_or_witness :
  let env := Sample.host Sample.no_failure 0 in
  let order := reverse (map_to_list (Namespaces Sample.box)) in
  namespaces.GetNamespaceFlags_range env order = bitwise_or (enabled_flags env order)
  ∧ namespaces.GetNamespaceFlags_range env order
    = namespaces.GetNamespaceFlags env (Namespaces Sample.box)
  ∧ (∀ i, Z.testbit (namespaces.GetNamespaceFlags_range env order) i = true ↔
          ∃ key ns, Namespaces Sample.box !! key = Some true
                    ∧ libcontainer_GetNamespace env key = Some ns
                    ∧ Z.testbit (Value ns) i = true)
  ∧ namespaces.GetNamespaceFlags env ∅ = 0.
Proof.
  apply (GetNamespaceFlags_or (Sample.host Sample.no_failure 0) (Namespaces Sample.box)
           (reverse (map_to_list (Namespaces Sample.box)))).
  apply reverse_Permutation.
Defined.

(** ** What a computation can append to the trace *)

Import namespaces.

Section emits.
Context (P : event → Prop).

Lemma emits_ret {A} (a : A) : emits P (mret a).
Proof. intros t. exists []. by rewrite app_nil_r. Qed.

Lemma emits_bind {A B} (m : M A) (k : A → M B) :
  emits P m → (∀ a, emits P (k a)) → emits P (m ≫= k).
Proof.
  intros Hm Hk t. unfold mbind, M_bind.
  destruct (Hm t) as (d1 & E1 & F1). destruct (m t) as [a t1]; cbn in E1; subst t1.
  destruct (Hk a (t ++ d1)) as (d2 & E2 & F2).
  exists (d1 ++ d2). rewrite E2, app_assoc. split; [done|]. by apply Forall_app.
Qed.

Lemma emits_perform {A} (e : event) (answer : trace → A) :
  P e → emits P (perform e answer).
Proof. intros He t. exists [e]. split; [done|]. by constructor. Qed.

Lemma emits_run_deferred ds : Forall (emits P) ds → emits P (run_deferred ds).
Proof.
  induction 1 as [|d ds Hd _ IH]; cbn; [apply emits_ret|].
  apply emits_bind; [done|]. by intros _.
Qed.

Lemma emitsB_ret {R A} (a : A) : emitsB P (mret a : Body R A).
Proof. intros ds Hds t. exists []. by rewrite app_nil_r. Qed.

Lemma emitsB_bind {R A B} (m : Body R A) (k : A → Body R B) :
  emitsB P m → (∀ a, emitsB P (k a)) → emitsB P (m ≫= k).
Proof.
  intros Hm Hk ds Hds t. unfold mbind, Body_bind, mbind, M_bind.
  destruct (Hm ds Hds t) as (d1 & E1 & F1 & G1).
  destruct (m ds t) as [[[r|a] ds1] t1]; cbn in *; subst t1.
  - by exists d1.
  - destruct (Hk a ds1 G1 (t ++ d1)) as (d2 & E2 & F2 & G2).
    exists (d1 ++ d2). rewrite E2, app_assoc. split; [done|]. split; [|done].
    by apply Forall_app.
Qed.

Lemma emitsB_call {R A} (m : M A) : emits P m → emitsB P (call m : Body R A).
Proof.
  intros Hm ds Hds t. unfold call, mbind, M_bind.
  destruct (Hm t) as (d & E & F). destruct (m t) as [a t1]; cbn in *. by exists d.
Qed.

Lemma emitsB_return {R A} (r : R) : emitsB P (return_ r : Body R A).
Proof. intros ds Hds t. exists []. by rewrite app_nil_r. Qed.

Lemma emitsB_defer {R} (d : M unit) : emits P d → emitsB P (defer d : Body R unit).
Proof.
  intros Hd ds Hds t. exists []. rewrite app_nil_r. cbn. split; [done|]. split; [done|].
  by constructor.
Qed.

Lemma emitsB_for_range {R A S} (l : list A) (s : S) (body : S → A → Body R S) :
  (∀ s x, emitsB P (body s x)) → emitsB P (for_range l s body).
Proof.
  intros Hbody. revert s. induction l as [|x l IH]; intros s; cbn.
  - apply emitsB_ret.
  - apply emitsB_bind; [done|]. intros s'. apply IH.
Qed.

Lemma emits_func {R} (body : Body R R) : emitsB P body → emits P (func body).
Proof.
  intros Hb t. unfold func, mbind, M_bind.
  destruct (Hb [] (Forall_nil_2 _) t) as (d1 & E1 & F1 & G1).
  destruct (body [] t) as [[fl ds] t1]; cbn in *; subst t1.
  destruct (emits_run_deferred ds G1 (t ++ d1)) as (d2 & E2 & F2).
  destruct (run_deferred ds (t ++ d1)) as [[] t2]; cbn in *; subst t2.
  exists (d1 ++ d2). rewrite app_assoc. split; [done|]. by apply Forall_app.
Qed.
End emits.

Ltac emits_step :=
  first
    [ apply emits_func | apply emitsB_bind | apply emitsB_for_range | apply emitsB_call
    | apply emitsB_return | apply emitsB_defer | apply emitsB_ret
    | apply emits_bind | apply emits_perform | apply emits_ret
    | match goal with
      | |- emits _ (match ?x with _ => _ end) => destruct x
      | |- emitsB _ (match ?x with _ => _ end) => destruct x
      end
    | intro
    | done ].

Section frames.
Context (env : Env).

Lemma SetupCgroups_emits container nspid :
  emits cgroup_event (SetupCgroups env container nspid).
Proof. unfold SetupCgroups. repeat emits_step. Qed.

Lemma InitializeNetworking_emits container nspid pipe :
  emits network_phase_event (InitializeNetworking env container nspid pipe).
Proof.
  unfold InitializeNetworking, InitializeNetworking_iface, unless_err, if_err,
    GetStrategy, strategy_Create_, SyncPipe_SendToChild,
    network.InterfaceDown, network.InterfaceUp, network.SetInterfaceInNamespacePid,
    network.InterfaceByName, network.netlink, log_Printf, emit.
  repeat emits_step.
Qed.

Lemma TeardownNetworking_emits container nspid pipe :
  emits network_phase_event (TeardownNetworking env container nspid pipe).
Proof.
  unfold TeardownNetworking, TeardownNetworking_iface, OpenFile, Setns,
    network.InterfaceDown, network.InterfaceUp, network.SetInterfaceInNamespacePid,
    network.InterfaceByName, network.netlink, log_Printf, emit.
  repeat emits_step.
Qed.
End frames.


(** ** Running function bodies *)

Lemma func_eq {R} (body : Body R R) t :
  func body t = (match (body [] t).1.1 with Returned r => r | Next r => r end,
                 (run_deferred (body [] t).1.2 (body [] t).2).2).
Proof.
  unfold func. run. destruct (body [] t) as [[fl ds] t1]. cbn.
  by destruct (run_deferred ds t1) as [[] t2].
Qed.

Lemma Body_bind_Next {R A B} (m : Body R A) (k : A → Body R B) ds t a ds' t' :
  m ds t = (Next a, ds', t') → (m ≫= k) ds t = k a ds' t'.
Proof. intros E. unfold mbind, Body_bind. run. by rewrite E. Qed.

Lemma for_range_calls {R A} (f : A → M unit) (body : unit → A → Body R unit) (l : list A) ds t :
  (∀ x ds t, body tt x ds t = call (f x) ds t) →
  for_range l tt body ds t = (Next tt, ds, (for_each l f t).2).
Proof.
  intros Hbody. revert t. induction l as [|x l IH]; intros t; [done|].
  cbn. unfold mbind at 1, Body_bind. run. rewrite Hbody. unfold call. run.
  destruct (f x t) as [[] t1]. cbn. apply IH.
Qed.

Lemma for_range_call {R A} (f : A → M unit) (l : list A) ds t :
  for_range (R:=R) l tt (λ _ x, call (f x)) ds t = (Next tt, ds, (for_each l f t).2).
Proof. by apply for_range_calls. Qed.

(** ** Relocation of the bound interfaces *)

Section relocation.
Context (env : Env).

Ltac answer_cases :=
  repeat (match goal with
          | |- context [net_InterfaceByName env ?t ?n] =>
              destruct (net_InterfaceByName env t n) eqn:?
          | |- context [netlink_answer env ?t ?r] =>
              destruct (netlink_answer env t r) eqn:?
          end; cbn).

Ltac iface_run :=
  unfold network.InterfaceDown, network.InterfaceUp, network.SetInterfaceInNamespacePid,
    network.InterfaceByName, network.netlink, log_Printf;
  run; answer_cases;
  rewrite <- ?app_assoc;
  (eexists; split; [reflexivity|]; split; [reflexivity|]; split; [by repeat constructor|]);
  intros iface Hex; rewrite !Hex in *; by simplify_eq.

Lemma InitializeNetworking_iface_run nspid net_iface t :
  ∃ d, InitializeNetworking_iface env nspid net_iface t = (tt, t ++ d)
       ∧ interface_lookups d = replicate 3 (HostIfaceName net_iface)
       ∧ Forall relocation_event d
       ∧ ∀ iface, (∀ t', net_InterfaceByName env t' (HostIfaceName net_iface) = Ok iface) →
                  netlink_requests d = relocation nspid iface.
Proof. unfold InitializeNetworking_iface. iface_run. Qed.

Lemma TeardownNetworking_iface_run nspid net_iface t :
  ∃ d, TeardownNetworking_iface env nspid net_iface t = (tt, t ++ d)
       ∧ interface_lookups d = replicate 3 (HostIfaceName net_iface)
       ∧ Forall relocation_event d
       ∧ ∀ iface, (∀ t', net_InterfaceByName env t' (HostIfaceName net_iface) = Ok iface) →
                  netlink_requests d = relocation 1 iface.
Proof. unfold TeardownNetworking_iface. iface_run. Qed.
End relocation.

Section loops.
Context (env : Env).

Lemma for_each_relocation {A} (f : A → M unit) (name : A → string)
    (nsPid : Z) (ifc : string → Interface) (l : list A) :
  (∀ x t, ∃ d, f x t = (tt, t ++ d)
               ∧ interface_lookups d = replicate 3 (name x)
               ∧ Forall relocation_event d
               ∧ ∀ iface, (∀ t', net_InterfaceByName env t' (name x) = Ok iface) →
                          netlink_requests d = relocation nsPid iface) →
  ∀ t, ∃ d, for_each l f t = (tt, t ++ d)
            ∧ interface_lookups d = flat_map (replicate 3) (name <$> l)
            ∧ Forall relocation_event d
            ∧ (interfaces_exist env ifc (name <$> l) →
               netlink_requests d = flat_map (λ n, relocation nsPid (ifc n)) (name <$> l)).
Proof.
  intros Hf. induction l as [|x l IH]; intros t.
  - exists []. rewrite app_nil_r. by repeat split.
  - destruct (Hf x t) as (d1 & E1 & L1 & F1 & N1).
    destruct (IH (t ++ d1)) as (d2 & E2 & L2 & F2 & N2).
    exists (d1 ++ d2). cbn [for_each]. run. rewrite E1, E2, app_assoc.
    split; [done|]. split; [|split].
    + unfold interface_lookups in *. rewrite omap_app, L1, L2. done.
    + by apply Forall_app.
    + intros Hex. unfold netlink_requests in *. rewrite omap_app. cbn.
      rewrite (N1 (ifc (name x))), N2; [done| |].
      * intros n Hn. apply Hex. cbn. by right.
      * intros t'. apply Hex. cbn. by left.
Qed.

Lemma strategies_loop nspid configs (context : Context) ds t :
  strategies_succeed env nspid configs →
  ∃ context' d,
    for_range (R:=option error) configs context (λ context config,
      strategy ← unless_err (GetStrategy env (Type_ config)) (λ err, return_ (Some err));
      '(context, err) ← call (strategy_Create_ env strategy config nspid context);
      if err is Some err then return_ (Some err) else mret context) ds t
    = (Next context', ds, t ++ d)
    ∧ Forall strategy_event d.
Proof.
  intros Hok. revert context t. induction Hok as [|config configs (s & Hs & Hc) _ IH];
    intros context t.
  - exists context, []. by rewrite app_nil_r.
  - cbn [for_range]. unfold mbind at 1, Body_bind, unless_err, call, GetStrategy, strategy_Create_.
    unfold mbind, Body_bind. run. rewrite Hs. cbn.
    specialize (Hc (t ++ [EvGetStrategy (Type_ config)]) context).
    destruct (strategy_Create env _ s config nspid context) as [context1 err]; cbn in Hc; subst err.
    cbn.
    destruct (IH context1 ((t ++ [EvGetStrategy (Type_ config)]) ++ [EvStrategyCreate s config nspid]))
      as (context' & d & E & F).
    exists context', ([EvGetStrategy (Type_ config); EvStrategyCreate s config nspid] ++ d).
    split.
    + etrans; [exact E|]. by rewrite <- !app_assoc.
    + apply Forall_app. split; [by repeat constructor | done].
Qed.
End loops.

Lemma strategy_events_no_relocation d :
  Forall strategy_event d → interface_lookups d = [] ∧ netlink_requests d = [].
Proof. induction 1 as [|e d He _ [IH1 IH2]]; [done|]. by destruct e. Qed.

(** C7.  Relocation is best effort, at initialisation and at teardown.
    Once the strategies have run, [InitializeNetworking] looks up every bound
    interface three times, in list order, whatever the lookups and the netlink
    requests answer; where the interfaces exist, the requests issued are
    exactly down, move to the child's namespace, up, for each interface in
    turn, even when every request fails.  Nothing but lookups, requests and log
    lines happens in between, the payload is then sent, and the result of
    [InitializeNetworking] is the result of that send.  [TeardownNetworking]
    does the same with namespace pid 1, always returns, and a failure to open
    or enter a namespace does not stop it either. *)
Theorem relocation_best_effort env container nspid pipe (ifc : string → Interface) t :
  (strategies_succeed env nspid (Networks container) →
   ∃ d context,
     InitializeNetworking env container nspid pipe t
       = (SendToChild_answer env (t ++ d) pipe context, t ++ d ++ [EvSendToChild pipe context])
     ∧ Forall (λ e, strategy_event e || relocation_event e) d
     ∧ interface_lookups d = flat_map (replicate 3) (host_names container)
     ∧ (interfaces_exist env ifc (host_names container) →
        netlink_requests d = flat_map (λ name, relocation nspid (ifc name)) (host_names container)))
  ∧ (∃ d,
       TeardownNetworking env container nspid pipe t = (tt, t ++ d)
       ∧ Forall network_phase_event d
       ∧ interface_lookups d = flat_map (replicate 3) (host_names container)
       ∧ (interfaces_exist env ifc (host_names container) →
          netlink_requests d = flat_map (λ name, relocation 1 (ifc name)) (host_names container))).
Proof.
  split.
  - intros Hok. unfold InitializeNetworking. rewrite func_eq.
    destruct (strategies_loop env nspid (Networks container) ∅ [] t Hok)
      as (context & d1 & E1 & F1).
    rewrite !(Body_bind_Next _ _ _ _ _ _ _ E1).
    rewrite !(Body_bind_Next _ _ _ _ _ _ _ (for_range_call _ _ _ _)).
    destruct (for_each_relocation env (InitializeNetworking_iface env nspid) HostIfaceName
                nspid ifc (NetworkInterfaces container)
                (InitializeNetworking_iface_run env nspid) (t ++ d1))
      as (d2 & E2 & L2 & F2 & N2).
    rewrite E2. unfold call, return_, SyncPipe_SendToChild. run_body.
    exists (d1 ++ d2), context. rewrite <- !app_assoc. split; [done|].
    assert (interface_lookups d1 = [] ∧ netlink_requests d1 = []) as [L1 N1].
    { by apply strategy_events_no_relocation. }
    unfold interface_lookups, netlink_requests in *. rewrite !omap_app, L1, N1. cbn.
    split; [|done]. apply Forall_app. split.
    + eapply Forall_impl; [exact F1|]. intros e He. by apply orb_True; left.
    + eapply Forall_impl; [exact F2|]. intros e He. by apply orb_True; right.
  - unfold TeardownNetworking, func, call, return_, defer, OpenFile, Setns, log_Printf.
    run_body.
    destruct (os_OpenFile env t proc_self_net_ns) as [original|?]; cbn;
    destruct (os_OpenFile env _ (proc_pid_net_ns nspid)) as [running|?]; cbn;
    destruct (system_Setns env _ _) as [?|]; cbn.
    all: (erewrite (for_range_calls (TeardownNetworking_iface env nspid)); [|done]).
    all: match goal with
         | |- context [for_each _ _ ?T] =>
             destruct (for_each_relocation env (TeardownNetworking_iface env nspid) HostIfaceName
                         1 ifc (NetworkInterfaces container)
                         (TeardownNetworking_iface_run env nspid) T)
               as (d2 & E2 & L2 & F2 & N2)
         end.
    all: rewrite E2; run_body.
    all: try (destruct (system_Setns env _ _) as [?|]; cbn).
    all: rewrite <- ?app_assoc; eexists; (split; [reflexivity|]).
    all: (split; [|split]).
    all: try (repeat (apply Forall_app; split);
              first [ by repeat constructor
                    | eapply Forall_impl; [exact F2|]; by intros [] ]).
    all: unfold interface_lookups, netlink_requests in *; rewrite ?omap_app; cbn.
    all: by rewrite ?app_nil_r.
Qed.

Lemma relocation_best_effort_witness :
  (∃ d context,
     InitializeNetworking (Sample.host Sample.netlink_fails 0) Sample.wired 4242
       Sample.syncPipe []
       = (None, d ++ [EvSendToChild Sample.syncPipe context])
     ∧ interface_lookups d = ["eth0"; "eth0"; "eth0"]%string
     ∧ netlink_requests d = relocation 4242 Sample.eth0)
  ∧ (∃ d,
       TeardownNetworking (Sample.host Sample.netlink_fails 0) Sample.wired 4242
         Sample.syncPipe [] = (tt, d)
       ∧ netlink_requests d = relocation 1 Sample.eth0).
Proof.
  assert (interfaces_exist (Sample.host Sample.netlink_fails 0) (λ _, Sample.eth0)
            (host_names Sample.wired)) as Hex.
  { intros name Hin t. apply list_elem_of_singleton in Hin as ->. reflexivity. }
  destruct (relocation_best_effort (Sample.host Sample.netlink_fails 0) Sample.wired 4242
              Sample.syncPipe (λ _, Sample.eth0) []) as [Hinit Hdown].
  split.
  - destruct Hinit as (d & context & E & _ & L & N).
    + repeat constructor. exists {| strategy_name := "veth" |}. split; reflexivity.
    + exists d, context. split; [exact E|]. split; [exact L | exact (N Hex)].
  - destruct Hdown as (d & E & _ & _ & N). exists d. split; [exact E | exact (N Hex)].
Defined.

(** On a host whose every netlink request is refused, the requests are all
    made all the same. *)
Example relocation_all_refused :
  let run := InitializeNetworking (Sample.host Sample.netlink_fails 0) Sample.box 4242
               Sample.syncPipe [] in
  run.1 = None
  ∧ netlink_requests run.2 = relocation 4242 Sample.eth0.
Proof. vm_compute. done. Qed.

(** ** [Exec] takes one of its exit paths *)

Ltac exec_simpl :=
  cbn -[SetupCgroups InitializeNetworking TeardownNetworking].

Ltac exec_step :=
  match goal with
  | |- context [NewSyncPipe_answer ?e ?t] =>
      destruct (NewSyncPipe_answer e t) as [?syncPipe|?err] eqn:?
  | |- context [if Tty ?c then _ else _] => destruct (Tty c) eqn:?
  | |- context [system_CreateMasterAndConsole ?e ?t] =>
      destruct (system_CreateMasterAndConsole e t) as [[?master ?console]|?err] eqn:?
  | |- context [term_Attach_answer ?e ?t] =>
      destruct (term_Attach_answer e t) as [?err|] eqn:?
  | |- context [command_Start_answer ?e ?t] =>
      destruct (command_Start_answer e t) as [?pid|?err] eqn:?
  | |- context [system_GetProcessStartTime ?e ?t ?p] =>
      destruct (system_GetProcessStartTime e t p) as [?started|?err] eqn:?
  | |- context [WritePid_answer ?e ?t ?d ?p ?s] =>
      destruct (WritePid_answer e t d p s) as [?err|] eqn:?
  | |- context [SetupCgroups ?e ?c ?p ?t] =>
      destruct (SetupCgroups e c p t) as [[?cleaner [?err|]] ?t_cg] eqn:?
  | |- context [match ?cl with Some _ => _ | None => _ end] => is_var cl; destruct cl
  | |- context [InitializeNetworking ?e ?c ?p ?sp ?t] =>
      destruct (InitializeNetworking e c p sp t) as [[?err|] ?t_net] eqn:?
  | |- context [if ?cb then _ else _] => is_var cb; destruct cb
  | |- context [command_Wait_answer ?e ?t] =>
      destruct (command_Wait_answer e t) as [[?err|] ?status] eqn:?
  | |- context [is_ExitError ?err] => destruct (is_ExitError err) eqn:?
  | |- context [TeardownNetworking ?e ?c ?p ?sp ?t] =>
      destruct (TeardownNetworking e c p sp t) as [[] ?t_td] eqn:?
  end; exec_simpl.

Ltac invert_at :=
  repeat match goal with
         | H : at_networked _ _ _ _ _ _ _ _ _ |- _ => inversion H; clear H; subst
         | H : at_cgroups _ _ _ _ _ _ _ _ _ |- _ => inversion H; clear H; subst
         | H : at_recorded _ _ _ _ _ _ _ _ |- _ => inversion H; clear H; subst
         | H : at_started _ _ _ _ _ _ _ _ |- _ => inversion H; clear H; subst
         | H : at_command _ _ _ _ _ _ _ |- _ => inversion H; clear H; subst
         end.

Section Exec_run.
Context (env : Env) (container : Container) (rootfs dataPath : string)
        (args : list string) (startCallback : bool).

Local Abbreviation run := (Exec_run env container rootfs dataPath args startCallback).

Lemma at_eq {A} (P : A → Prop) x y : P x → x = y → P y.
Proof. by intros ? <-. Qed.

Ltac at_solve :=
  lazymatch goal with
  | |- at_command _ _ _ _ _ _ _ => solve [ by econstructor ]
  | |- at_started _ _ _ _ _ _ _ _ =>
      eapply (at_eq (at_started _ _ _ _ _ _ _));
        [ eapply at_started_intro; cycle 1; [eassumption | eassumption | at_solve] | list_eq ]
  | |- at_recorded _ _ _ _ _ _ _ _ =>
      eapply (at_eq (at_recorded _ _ _ _ _ _ _));
        [ eapply at_recorded_intro; cycle 1; [eassumption | eassumption | at_solve] | list_eq ]
  | |- at_cgroups _ _ _ _ _ _ _ _ _ =>
      eapply at_cgroups_intro; cycle 1; [eassumption | at_solve]
  | |- at_networked _ _ _ _ _ _ _ _ _ =>
      eapply at_networked_intro; cycle 1; [eassumption | at_solve]
  end.

Lemma Exec_run_Exec : run (Exec env container rootfs dataPath args startCallback []).
Proof.
  unfold Exec, func, unless_err, if_err, call, return_, defer.
  unfold mbind, Body_bind, mret, Body_ret, mbind, M_bind, mret, M_ret.
  unfold NewSyncPipe, CreateMasterAndConsole, term_SetMaster, createCommand, term_Attach,
    term_Close, command_Start, GetProcessStartTime, WritePid, DeletePid, command_Process_Kill,
    command_Wait, cleaner_Cleanup, SyncPipe_Close, log_Printf, emit, perform.
  exec_simpl.
  repeat exec_step.
  all: unfold mbind, M_bind, mret, M_ret; exec_simpl.
  all: repeat exec_step.
  all: try solve [ by econstructor ].
  all: try solve [ eapply (at_eq (Exec_run _ _ _ _ _ _)); [ eapply run_attach_failed; cycle 1; [eassumption | at_solve] | list_eq] ].
  all: try solve [ eapply (at_eq (Exec_run _ _ _ _ _ _)); [ eapply run_start_failed; cycle 1; [eassumption | eassumption | at_solve] | list_eq] ].
  all: try solve [ eapply (at_eq (Exec_run _ _ _ _ _ _)); [ eapply run_start_time_failed; cycle 1; [eassumption | at_solve] | list_eq] ].
  all: try solve [ eapply (at_eq (Exec_run _ _ _ _ _ _)); [ eapply run_record_failed; cycle 1; [eassumption | eassumption | at_solve] | list_eq] ].
  all: try solve [ eapply (at_eq (Exec_run _ _ _ _ _ _)); [ eapply run_cgroups_failed; cycle 1; [eassumption | at_solve] | list_eq] ].
  all: try solve [ eapply (at_eq (Exec_run _ _ _ _ _ _)); [ eapply run_network_failed; cycle 1; [eassumption | at_solve] | unfold unwind_cgroups; list_eq] ].
  all: rewrite <- ?app_assoc in *; cbn [app] in *.
  all: try solve [
    eapply (at_eq (Exec_run _ _ _ _ _ _));
      [ eapply run_wait_failed;
        [ at_solve
        | unfold release; cbn [app]; eassumption
        | eassumption ]
      | unfold unwind_network, unwind_cgroups, release;
        rewrite <- ?app_assoc; cbn [app];
        match goal with H : TeardownNetworking _ _ _ _ _ = _ |- _ => rewrite H end;
        reflexivity ] ].
  all: try solve [
    eapply (at_eq (Exec_run _ _ _ _ _ _));
      [ eapply run_exited;
        [ at_solve
        | unfold release; cbn [app]; eassumption
        | done ]
      | unfold unwind_network, unwind_cgroups, release;
        rewrite <- ?app_assoc; cbn [app];
        match goal with H : TeardownNetworking _ _ _ _ _ = _ |- _ => rewrite H end;
        reflexivity ] ].
Qed.

(** The exit paths exclude one another, so [Exec_run] is exactly the graph
    of [Exec]. *)
Lemma Exec_run_deterministic x y : run x → run y → x = y.
Proof.
  intros Hx Hy.
  destruct Hx; destruct Hy; invert_at;
    repeat match goal with
           | H : match ?e with Some _ => _ | None => _ end |- _ => destruct e; cbn in H
           end;
    congruence.
Qed.

Lemma Exec_run_exact x :
  run x ↔ Exec env container rootfs dataPath args startCallback [] = x.
Proof.
  split.
  - intros Hx. exact (Exec_run_deterministic _ _ Exec_run_Exec Hx).
  - intros <-. apply Exec_run_Exec.
Qed.
End Exec_run.

(** ** Counting events *)

Lemma count_app p t1 t2 : count p (t1 ++ t2) = (count p t1 + count p t2)%nat.
Proof. unfold count. by rewrite List.filter_app, length_app. Qed.

Lemma count_Forall_0 (Q : event → Prop) p d :
  Forall Q d → (∀ e, Q e → p e = false) → count p d = 0%nat.
Proof.
  intros HQ Hp. induction HQ as [|e d He _ IH]; [done|].
  unfold count in *. cbn. by rewrite (Hp e He).
Qed.

Lemma count_0_Forall p t : count p t = 0%nat → Forall (λ e, p e = false) t.
Proof.
  induction t as [|e t IH]; [constructor|]. unfold count in *. cbn.
  destruct (p e) eqn:He; [done|]. intros H. constructor; auto.
Qed.

Lemma count_is_kill t : count is_kill t = 0%nat ↔ EvKill ∉ t.
Proof.
  split.
  - intros H Hin. apply count_0_Forall in H.
    by apply (proj1 (Forall_forall _ _) H) in Hin.
  - intros H. apply (count_Forall_0 (λ e, e ≠ EvKill)).
    + apply Forall_forall. by intros e He ->.
    + by intros [].
Qed.

Lemma count_is_wait t : count is_wait t = 0%nat ↔ EvWait ∉ t.
Proof.
  split.
  - intros H Hin. apply count_0_Forall in H.
    by apply (proj1 (Forall_forall _ _) H) in Hin.
  - intros H. apply (count_Forall_0 (λ e, e ≠ EvWait)).
    + apply Forall_forall. by intros e He ->.
    + by intros [].
Qed.

Lemma count_is_close t : count is_close t = 0%nat ↔ ∀ pipe, EvSyncPipeClose pipe ∉ t.
Proof.
  split.
  - intros H pipe Hin. apply count_0_Forall in H.
    by apply (proj1 (Forall_forall _ _) H) in Hin.
  - intros H. apply (count_Forall_0 (λ e, ∀ pipe, e ≠ EvSyncPipeClose pipe)).
    + apply Forall_forall. intros e He pipe ->. by apply (H pipe).
    + intros [] He; try done. by destruct (He pipe).
Qed.

(** ** Histories at the points of [Exec] *)

Section histories.
Context (env : Env) (container : Container) (rootfs dataPath : string)
        (args : list string).

Lemma at_command_launch syncPipe t :
  at_command env container rootfs dataPath args syncPipe t →
  Forall launch_event t ∧ NewSyncPipe_answer env [] = Ok syncPipe.
Proof. destruct 1; split; by repeat constructor. Qed.

Lemma at_started_launch syncPipe pid t :
  at_started env container rootfs dataPath args syncPipe pid t →
  Forall launch_event t
  ∧ NewSyncPipe_answer env [] = Ok syncPipe
  ∧ ∃ t0, t = t0 ++ [EvStart] ∧ command_Start_answer env t0 = Ok pid.
Proof.
  destruct 1 as [t Hc Ha Hs]. destruct (at_command_launch _ _ Hc) as [F Hp].
  split; [|split; [done|]].
  - apply Forall_app. split; [done | by repeat constructor].
  - exists (t ++ [EvTermAttach]). by rewrite <- app_assoc.
Qed.

Lemma at_recorded_launch syncPipe pid t :
  at_recorded env container rootfs dataPath args syncPipe pid t →
  Forall launch_event t
  ∧ NewSyncPipe_answer env [] = Ok syncPipe
  ∧ ∃ t0 t1, t = t0 ++ EvStart :: t1 ∧ command_Start_answer env t0 = Ok pid.
Proof.
  destruct 1 as [t started Hs Hg Hw].
  destruct (at_started_launch _ _ _ Hs) as (F & Hp & t0 & -> & Hstart).
  split; [|split; [done|]].
  - apply Forall_app. split; [done | by repeat constructor].
  - exists t0, [EvGetProcessStartTime pid; EvWritePid dataPath pid started].
    by rewrite <- app_assoc.
Qed.
End histories.

(** ** The three kinds of run of [Exec] *)

Section Exec_kinds.
Context (env : Env) (container : Container) (rootfs dataPath : string)
        (args : list string) (startCallback : bool).

Lemma unwind_cgroups_events cleaner : Forall unwind_event (unwind_cgroups dataPath cleaner).
Proof. destruct cleaner; by repeat constructor. Qed.

Lemma at_cgroups_setup syncPipe pid cleaner t1 :
  at_cgroups env container rootfs dataPath args syncPipe pid cleaner t1 →
  ∃ t0, at_recorded env container rootfs dataPath args syncPipe pid t0
        ∧ SetupCgroups env container pid t0 = (cleaner, None, t1)
        ∧ Forall setup_event t1.
Proof.
  destruct 1 as [t0 t1 Hr Hcg]. exists t0. split; [done|]. split; [done|].
  destruct (SetupCgroups_emits env container pid t0) as (d & E & F).
  rewrite Hcg in E. cbn in E. subst t1.
  destruct (at_recorded_launch _ _ _ _ _ _ _ _ Hr) as (F0 & _).
  apply Forall_app. split.
  - eapply Forall_impl; [exact F0|]. intros e He. by apply orb_True; left.
  - eapply Forall_impl; [exact F|]. intros e He. by apply orb_True; right.
Qed.

Lemma at_networked_history syncPipe pid cleaner t2 :
  at_networked env container rootfs dataPath args syncPipe pid cleaner t2 →
  ∃ t0 t1, at_recorded env container rootfs dataPath args syncPipe pid t0
           ∧ SetupCgroups env container pid t0 = (cleaner, None, t1)
           ∧ InitializeNetworking env container pid syncPipe t1 = (None, t2)
           ∧ Forall setup_event t1
           ∧ Forall (λ e, setup_event e || network_phase_event e) t2.
Proof.
  intros [t1 t2' Hcg Hn].
  destruct (at_cgroups_setup _ _ _ _ Hcg) as (t0 & Hr & Hs & F1).
  exists t0, t1. repeat (split; [done|]).
  destruct (InitializeNetworking_emits env container pid syncPipe t1) as (d & E & F).
  rewrite Hn in E. cbn in E. subst t2'. apply Forall_app. split.
  - eapply Forall_impl; [exact F1|]. intros e He. by apply orb_True; left.
  - eapply Forall_impl; [exact F|]. intros e He. by apply orb_True; right.
Qed.

(** A run of [Exec] either stops before the pid record is attempted
    (nothing is killed, waited for or closed), or is aborted by killing and
    reaping the child, or releases the child and waits for it. *)
Lemma Exec_kinds code err tr :
  Exec env container rootfs dataPath args startCallback [] = (code, err, tr) →
  (code = -1 ∧ err ≠ None
   ∧ Forall (λ e, launch_event e || unwind_event e) tr)
  ∨ (code = -1 ∧ err ≠ None
     ∧ ∃ q u, tr = q ++ [EvKill; EvWait] ++ u
              ∧ Forall (λ e, setup_event e || network_phase_event e) q
              ∧ Forall unwind_event u)
  ∨ (∃ syncPipe pid cleaner t0 t1 t2 d u,
       at_recorded env container rootfs dataPath args syncPipe pid t0
       ∧ SetupCgroups env container pid t0 = (cleaner, None, t1)
       ∧ InitializeNetworking env container pid syncPipe t1 = (None, t2)
       ∧ Forall setup_event t1
       ∧ Forall (λ e, setup_event e || network_phase_event e) t2
       ∧ tr = t2 ++ release env startCallback syncPipe ++ EvWait :: d ++ u
       ∧ Forall network_phase_event d
       ∧ Forall unwind_event u
       ∧ (code, err) =
           match command_Wait_answer env (t2 ++ release env startCallback syncPipe) with
           | (None, status) => (WaitStatus_ExitStatus status, None)
           | (Some err, status) =>
               if is_ExitError err then (WaitStatus_ExitStatus status, None)
               else (-1, Some err)
           end).
Proof.
  intros HExec.
  pose proof (Exec_run_Exec env container rootfs dataPath args startCallback) as Hrun.
  rewrite HExec in Hrun.
  pose proof at_networked_history as Hnet.
  inversion Hrun as
    [ e Hp | sp e Hp Ht Hc | sp t e Hc Ha | sp t e Hc Ha Hs | sp pid t e Hs Hg
    | sp pid t started e Hs Hg Hw | sp pid t cleaner e t' Hr Hcg
    | sp pid cleaner t e t' Hcg Hn | sp pid cleaner t e status Hn Hw He
    | sp pid cleaner t e status Hn Hw He ]; subst.
  - left. by repeat constructor.
  - left. by repeat constructor.
  - left. destruct (at_command_launch _ _ _ _ _ _ _ Hc) as [F _].
    repeat split; try done. apply Forall_app. split; [|by repeat constructor].
    eapply Forall_impl; [exact F|]. intros ? ?. by apply orb_True; left.
  - left. destruct (at_command_launch _ _ _ _ _ _ _ Hc) as [F _].
    repeat split; try done. apply Forall_app. split; [|by repeat constructor].
    eapply Forall_impl; [exact F|]. intros ? ?. by apply orb_True; left.
  - left. destruct (at_started_launch _ _ _ _ _ _ _ _ Hs) as [F _].
    repeat split; try done. apply Forall_app. split; [|by repeat constructor].
    eapply Forall_impl; [exact F|]. intros ? ?. by apply orb_True; left.
  - right; left. destruct (at_started_launch _ _ _ _ _ _ _ _ Hs) as [F _].
    repeat split; try done.
    exists (t ++ [EvGetProcessStartTime pid; EvWritePid dataPath pid started]), [EvTermClose].
    split; [by rewrite <- app_assoc|]. split; [|by repeat constructor].
    apply Forall_app. split; [|by repeat constructor].
    eapply Forall_impl; [exact F|]. intros ? H. apply orb_True; left. by apply orb_True; left.
  - right; left. repeat split; try done.
    exists t', [EvDeletePid dataPath; EvTermClose].
    split; [done|]. split; [|by repeat constructor].
    destruct (SetupCgroups_emits env container pid t) as (d & E & F).
    rewrite Hcg in E. cbn in E. subst t'.
    destruct (at_recorded_launch _ _ _ _ _ _ _ _ Hr) as (F0 & _).
    apply Forall_app. split.
    + eapply Forall_impl; [exact F0|]. intros ? H.
      apply orb_True; left. by apply orb_True; left.
    + eapply Forall_impl; [exact F|]. intros ? H.
      apply orb_True; left. by apply orb_True; right.
  - right; left. repeat split; try done.
    exists t', (unwind_cgroups dataPath cleaner).
    split; [done|]. split; [|apply unwind_cgroups_events].
    destruct (at_cgroups_setup _ _ _ _ Hcg) as (t0 & _ & _ & F1).
    destruct (InitializeNetworking_emits env container pid sp t) as (d & E & F).
    rewrite Hn in E. cbn in E. subst t'. apply Forall_app. split.
    + eapply Forall_impl; [exact F1|]. intros ? H. by apply orb_True; left.
    + eapply Forall_impl; [exact F|]. intros ? H. by apply orb_True; right.
  - right; right. destruct (Hnet _ _ _ _ Hn) as (t0 & t1 & Hr & Hcg & Hi & F1 & F2).
    destruct (TeardownNetworking_emits env container pid sp
                (t ++ release env startCallback sp ++ [EvWait])) as (d & E & F).
    exists sp, pid, cleaner, t0, t1, t, d, (unwind_cgroups dataPath cleaner).
    repeat (split; [done|]). split; [|split; [done|split; [apply unwind_cgroups_events|]]].
    + unfold unwind_network.
      etrans; [exact (f_equal (λ x, x ++ unwind_cgroups dataPath cleaner) E)|].
      by rewrite <- !app_assoc.
    + by rewrite Hw, He.
  - right; right. destruct (Hnet _ _ _ _ Hn) as (t0 & t1 & Hr & Hcg & Hi & F1 & F2).
    destruct (TeardownNetworking_emits env container pid sp
                (t ++ release env startCallback sp
                   ++ [EvWait;
                       EvLog "done execing container, pid is %d" [AInt (os_Getpid env)]]))
      as (d & E & F).
    exists sp, pid, cleaner, t0, t1, t,
      (EvLog "done execing container, pid is %d" [AInt (os_Getpid env)] :: d),
      (unwind_cgroups dataPath cleaner).
    repeat (split; [done|]).
    split; [|split; [by constructor|split; [apply unwind_cgroups_events|]]].
    + unfold unwind_network.
      etrans; [exact (f_equal (λ x, x ++ unwind_cgroups dataPath cleaner) E)|].
      by rewrite <- !app_assoc.
    + rewrite Hw. destruct e as [e|]; [by rewrite He | done].
Qed.
End Exec_kinds.

(** ** Properties of [Exec] *)

Lemma not_elem_of_Forall (Q : event → bool) e (l : trace) :
  Forall Q l → Q e = false → e ∉ l.
Proof.
  intros F He Hin. apply (proj1 (Forall_forall _ _) F) in Hin. by rewrite He in Hin.
Qed.

Ltac count_classes :=
  rewrite ?count_app;
  repeat match goal with
         | F : Forall ?Q ?d |- context [count ?p ?d] =>
             rewrite (count_Forall_0 Q p d F) by (by intros [])
         end.

Section Exec_properties.
Context (env : Env) (container : Container) (rootfs dataPath : string)
        (args : list string) (startCallback : bool).

Lemma count_release p syncPipe :
  p EvStartCallback = false → p (EvLog "before execing container, pid is %d" [AInt (os_Getpid env)]) = false →
  count p (release env startCallback syncPipe) = if p (EvSyncPipeClose syncPipe) then 1%nat else 0%nat.
Proof.
  intros H1 H2. unfold release, count.
  destruct startCallback; cbn; rewrite ?H1, H2;
    by destruct (p (EvSyncPipeClose syncPipe)).
Qed.

(** X22.  The launches that fail after the start time of the child is
    known abort it.  When the pid record cannot be written, [Exec] kills the
    child, waits for it and closes the terminal; no record is deleted, none
    having been written.  When [SetupCgroups] fails, it kills, waits, deletes
    the record and closes the terminal; the handle that may come with the
    error is not cleaned up.  When [InitializeNetworking] fails, it kills,
    waits, cleans up the cgroup if it got a handle, deletes the record and
    closes the terminal.  Each time the result is -1 and the error of the
    failed step. *)
Lemma Exec_setup_failure_reaps_child syncPipe pid :
  (∀ t started err,
     at_started env container rootfs dataPath args syncPipe pid t →
     system_GetProcessStartTime env t pid = Ok started →
     WritePid_answer env (t ++ [EvGetProcessStartTime pid]) dataPath pid started = Some err →
     Exec env container rootfs dataPath args startCallback []
       = (-1, Some err,
          t ++ [EvGetProcessStartTime pid; EvWritePid dataPath pid started;
                EvKill; EvWait; EvTermClose]))
  ∧ (∀ t cleaner err t',
       at_recorded env container rootfs dataPath args syncPipe pid t →
       SetupCgroups env container pid t = (cleaner, Some err, t') →
       Exec env container rootfs dataPath args startCallback []
         = (-1, Some err, t' ++ [EvKill; EvWait; EvDeletePid dataPath; EvTermClose]))
  ∧ (∀ t cleaner err t',
       at_cgroups env container rootfs dataPath args syncPipe pid cleaner t →
       InitializeNetworking env container pid syncPipe t = (Some err, t') →
       Exec env container rootfs dataPath args startCallback []
         = (-1, Some err, t' ++ [EvKill; EvWait] ++ unwind_cgroups dataPath cleaner)).
Proof.
  split; [|split]; intros; apply Exec_run_exact.
  - by eapply run_record_failed.
  - by eapply run_cgroups_failed.
  - by eapply run_network_failed.
Qed.

(** Once [InitializeNetworking] has succeeded the child is released and
    waited for, and everything is unwound whatever the wait answers. *)
Lemma Exec_released syncPipe pid cleaner t :
  at_networked env container rootfs dataPath args syncPipe pid cleaner t →
  ∃ d u,
    (Exec env container rootfs dataPath args startCallback []).2
      = t ++ release env startCallback syncPipe ++ [EvWait] ++ d ++ u
    ∧ Forall network_phase_event d
    ∧ u = unwind_cgroups dataPath cleaner.
Proof.
  intros Hnet.
  destruct (command_Wait_answer env (t ++ release env startCallback syncPipe))
    as [err status] eqn:Hw.
  assert (∃ T, (Exec env container rootfs dataPath args startCallback []).2
               = unwind_network env container dataPath syncPipe pid cleaner
                   (t ++ release env startCallback syncPipe ++ EvWait :: T)
               ∧ Forall network_phase_event T) as (T & -> & HT).
  { destruct err as [err|]; [destruct (is_ExitError err) eqn:He|].
    - eexists. split; [|shelve].
      by rewrite (proj1 (Exec_run_exact _ _ _ _ _ _ _)
                    (run_exited _ _ _ _ _ _ _ _ _ _ _ _ Hnet Hw He)).
    - exists []. split; [|done].
      by rewrite (proj1 (Exec_run_exact _ _ _ _ _ _ _)
                    (run_wait_failed _ _ _ _ _ _ _ _ _ _ _ _ Hnet Hw He)).
    - eexists. split; [|shelve].
      by rewrite (proj1 (Exec_run_exact _ _ _ _ _ _ _)
                    (run_exited _ _ _ _ _ _ _ _ _ _ _ _ Hnet Hw I)).
    Unshelve. all: by repeat constructor. }
  unfold unwind_network.
  match goal with
  | |- context [TeardownNetworking env container pid syncPipe ?X] =>
      destruct (TeardownNetworking_emits env container pid syncPipe X) as (d3 & -> & F3)
  end.
  exists (T ++ d3), (unwind_cgroups dataPath cleaner).
  split; [|split; [by apply Forall_app|done]].
  rewrite <- ?app_assoc. cbn [app]. by rewrite <- ?app_assoc.
Qed.

(** Once the pid record is written, every return of [Exec] deletes it,
    once. *)
Lemma Exec_record_deleted syncPipe pid t :
  at_recorded env container rootfs dataPath args syncPipe pid t →
  count is_delete_pid (Exec env container rootfs dataPath args startCallback []).2 = 1%nat.
Proof.
  intros Hr.
  assert (count is_delete_pid t = 0%nat) as Ht.
  { destruct (at_recorded_launch _ _ _ _ _ _ _ _ Hr) as (F & _). by count_classes. }
  assert (∀ cleaner, count is_delete_pid (unwind_cgroups dataPath cleaner) = 1%nat) as Hu
    by (by intros [?|]).
  destruct (SetupCgroups env container pid t) as [[cleaner err] t1] eqn:Hcg.
  destruct (SetupCgroups_emits env container pid t) as (d1 & E1 & F1).
  rewrite Hcg in E1. cbn in E1. subst t1.
  destruct err as [err|].
  { rewrite (proj1 (Exec_run_exact _ _ _ _ _ _ _)
               (run_cgroups_failed _ _ _ _ _ _ _ _ _ _ _ _ Hr Hcg)).
    cbn [snd]. count_classes. by rewrite Ht. }
  pose proof (at_cgroups_intro _ _ _ _ _ _ _ _ _ _ Hr Hcg) as Hc.
  destruct (InitializeNetworking env container pid syncPipe (t ++ d1)) as [err t2] eqn:Hn.
  destruct (InitializeNetworking_emits env container pid syncPipe (t ++ d1)) as (d2 & E2 & F2).
  rewrite Hn in E2. cbn in E2. subst t2.
  destruct err as [err|].
  { rewrite (proj1 (Exec_run_exact _ _ _ _ _ _ _)
               (run_network_failed _ _ _ _ _ _ _ _ _ _ _ _ Hc Hn)).
    cbn [snd]. count_classes. by rewrite Ht, Hu. }
  destruct (Exec_released _ _ _ _ (at_networked_intro _ _ _ _ _ _ _ _ _ _ Hc Hn))
    as (d & u & -> & Fd & ->).
  count_classes. rewrite count_release by done. by rewrite Ht, Hu.
Qed.

(** C9.  Every error return of [Exec] carries the exit code -1; a result
    without error carries the exit status of the child as [command.Wait]
    observed it. *)
Theorem Exec_error_code code err tr :
  Exec env container rootfs dataPath args startCallback [] = (code, err, tr) →
  (err ≠ None → code = -1)
  ∧ (code ≠ -1 → err = None)
  ∧ (err = None →
     ∃ t1 t2, tr = t1 ++ EvWait :: t2
              ∧ code = WaitStatus_ExitStatus (command_Wait_answer env t1).2).
Proof.
  intros HExec.
  destruct (Exec_kinds _ _ _ _ _ _ _ _ _ HExec)
    as [(-> & He & _) | [(-> & He & _)
       | (sp & pid & cleaner & t0 & t1 & t2 & d & u & _ & _ & _ & _ & _ & -> & _ & _ & Hr)]];
    [done..|].
  destruct (command_Wait_answer env (t2 ++ release env startCallback sp))
    as [[e|] status] eqn:Hw; [destruct (is_ExitError e)|]; simplify_eq.
  - repeat split; try done. intros _.
    exists (t2 ++ release env startCallback sp), (d ++ u).
    rewrite Hw. split; [by rewrite <- app_assoc | done].
  - done.
  - repeat split; try done. intros _.
    exists (t2 ++ release env startCallback sp), (d ++ u).
    rewrite Hw. split; [by rewrite <- app_assoc | done].
Qed.

(** C4.  When [Exec] waits for a child it has not killed, that is the only
    wait of the run, and its answer decides the result: a nil error or an
    [*exec.ExitError] gives the exit status of the child (zero or not) with a
    nil error; any other error is returned, with -1. *)
Theorem Exec_wait_result code err tr :
  Exec env container rootfs dataPath args startCallback [] = (code, err, tr) →
  EvWait ∈ tr → EvKill ∉ tr →
  ∃ t1 t2,
    tr = t1 ++ EvWait :: t2 ∧ (EvWait ∉ t1) ∧ (EvWait ∉ t2)
    ∧ (code, err) =
        match command_Wait_answer env t1 with
        | (None, status) => (WaitStatus_ExitStatus status, None)
        | (Some err, status) =>
            if is_ExitError err then (WaitStatus_ExitStatus status, None)
            else (-1, Some err)
        end.
Proof.
  intros HExec Hwait Hkill.
  destruct (Exec_kinds _ _ _ _ _ _ _ _ _ HExec)
    as [(_ & _ & F) | [(_ & _ & q & u & -> & _)
       | (sp & pid & cleaner & t0 & t1 & t2 & d & u & _ & _ & _ & _ & F2 & -> & Fd & Fu & Hr)]].
  - by apply (not_elem_of_Forall _ _ _ F) in Hwait.
  - destruct Hkill. apply elem_of_app. right. by left.
  - exists (t2 ++ release env startCallback sp), (d ++ u).
    split; [by rewrite <- app_assoc|]. split; [|split; [|done]].
    + apply count_is_wait. count_classes. by rewrite count_release.
    + apply count_is_wait. by count_classes.
Qed.

(** C8.  A run of [Exec] that returns no error has called [SetupCgroups]
    with the pid of the started child, got a nil error from it, and only then,
    from the very history [SetupCgroups] left, run [InitializeNetworking]:
    nothing of networking happens before. *)
Theorem Exec_cgroups_before_networking code tr :
  Exec env container rootfs dataPath args startCallback [] = (code, None, tr) →
  ∃ syncPipe pid cleaner t0 t1 t2,
    SetupCgroups env container pid t0 = (cleaner, None, t1)
    ∧ InitializeNetworking env container pid syncPipe t1 = (None, t2)
    ∧ t0 `prefix_of` t1 ∧ t1 `prefix_of` t2 ∧ t2 `prefix_of` tr
    ∧ Forall (λ e, networking_event e = false) t1
    ∧ ∃ ts t', t0 = ts ++ EvStart :: t' ∧ command_Start_answer env ts = Ok pid.
Proof.
  intros HExec.
  destruct (Exec_kinds _ _ _ _ _ _ _ _ _ HExec)
    as [(_ & He & _) | [(_ & He & _)
       | (sp & pid & cleaner & t0 & t1 & t2 & d & u & Hr & Hcg & Hn & F1 & _ & -> & _)]];
    [done..|].
  exists sp, pid, cleaner, t0, t1, t2. split; [done|]. split; [done|].
  destruct (SetupCgroups_emits env container pid t0) as (d0 & E0 & _).
  destruct (InitializeNetworking_emits env container pid sp t1) as (d1 & E1 & _).
  rewrite Hcg in E0. rewrite Hn in E1. cbn in E0, E1.
  split; [by exists d0|]. split; [by exists d1|]. split; [by eexists|]. split.
  - eapply Forall_impl; [exact F1|]. by intros [].
  - by destruct (at_recorded_launch _ _ _ _ _ _ _ _ Hr) as (_ & _ & ?).
Qed.

(** C5, as the code has it.  [Exec] closes the parent's end of the pipe at
    most once.  It does so exactly when [SetupCgroups] and
    [InitializeNetworking] have both returned without error, and then right
    after them; a run that returns no error has closed it once.  A launch that
    is aborted, the child killed, never closes it. *)
Theorem Exec_pipe_closed_on_release_only code err tr :
  Exec env container rootfs dataPath args startCallback [] = (code, err, tr) →
  (count is_close tr ≤ 1)%nat
  ∧ (EvKill ∈ tr → count is_close tr = 0%nat)
  ∧ (err = None → count is_close tr = 1%nat)
  ∧ (count is_close tr = 1%nat →
     ∃ syncPipe pid cleaner t0 t1 t2 rest,
       NewSyncPipe_answer env [] = Ok syncPipe
       ∧ SetupCgroups env container pid t0 = (cleaner, None, t1)
       ∧ InitializeNetworking env container pid syncPipe t1 = (None, t2)
       ∧ tr = t2 ++ EvSyncPipeClose syncPipe :: rest
       ∧ count is_close t2 = 0%nat
       ∧ count is_close rest = 0%nat
       ∧ EvKill ∉ tr)
  ∧ (∀ syncPipe pid cleaner t,
       at_networked env container rootfs dataPath args syncPipe pid cleaner t →
       count is_close tr = 1%nat).
Proof.
  intros HExec.
  assert (∀ syncPipe pid cleaner t,
            at_networked env container rootfs dataPath args syncPipe pid cleaner t →
            count is_close tr = 1%nat) as Hreleased.
  { intros sp pid cleaner t Hnet.
    destruct (Exec_released _ _ _ _ Hnet) as (d & u & E & Fd & ->).
    rewrite HExec in E. cbn [snd] in E. subst tr.
    destruct (at_networked_history _ _ _ _ _ _ _ _ _ Hnet) as (_ & _ & _ & _ & _ & _ & F).
    pose proof (unwind_cgroups_events dataPath cleaner) as Fu.
    count_classes. by rewrite count_release. }
  cut ((count is_close tr ≤ 1)%nat
       ∧ (EvKill ∈ tr → count is_close tr = 0%nat)
       ∧ (err = None → count is_close tr = 1%nat)
       ∧ (count is_close tr = 1%nat →
          ∃ syncPipe pid cleaner t0 t1 t2 rest,
            NewSyncPipe_answer env [] = Ok syncPipe
            ∧ SetupCgroups env container pid t0 = (cleaner, None, t1)
            ∧ InitializeNetworking env container pid syncPipe t1 = (None, t2)
            ∧ tr = t2 ++ EvSyncPipeClose syncPipe :: rest
            ∧ count is_close t2 = 0%nat
            ∧ count is_close rest = 0%nat
            ∧ EvKill ∉ tr)).
  { intros (? & ? & ? & ?). by repeat split. }
  clear Hreleased.
  destruct (Exec_kinds _ _ _ _ _ _ _ _ _ HExec)
    as [(_ & He & F) | [(_ & He & q & u & -> & Fq & Fu)
       | (sp & pid & cleaner & t0 & t1 & t2 & d & u & Hr & Hcg & Hn & F1 & F2 & ->
          & Fd & Fu & _)]].
  - assert (count is_close tr = 0%nat) as -> by (by count_classes).
    repeat split; try done. lia.
  - assert (count is_close (q ++ [EvKill; EvWait] ++ u) = 0%nat) as ->
      by (by count_classes).
    repeat split; try done. lia.
  - change (EvWait :: d ++ u) with ([EvWait] ++ d ++ u).
    assert (count is_close (t2 ++ release env startCallback sp ++ [EvWait] ++ d ++ u)
            = 1%nat) as -> by (count_classes; by rewrite count_release).
    assert (EvKill ∉ t2 ++ release env startCallback sp ++ [EvWait] ++ d ++ u) as Hkill.
    { apply count_is_kill. count_classes. by rewrite count_release. }
    split; [lia|]. split; [done|]. split; [done|]. intros _.
    exists sp, pid, cleaner, t0, t1, t2,
      ((if startCallback then [EvStartCallback] else [])
         ++ [EvLog "before execing container, pid is %d" [AInt (os_Getpid env)]]
         ++ [EvWait] ++ d ++ u).
    split; [by destruct (at_recorded_launch _ _ _ _ _ _ _ _ Hr) as (_ & ? & _)|].
    split; [done|]. split; [done|]. split; [|split; [by count_classes|split; [|done]]].
    + unfold release. by rewrite <- !app_assoc.
    + count_classes. by destruct startCallback.
Qed.

(** X21.  A run of [Exec] that kills the child kills it once, waits for it
    once, right after the kill, and returns -1 with an error. *)
Lemma Exec_kill_then_wait_once code err tr :
  Exec env container rootfs dataPath args startCallback [] = (code, err, tr) →
  EvKill ∈ tr →
  count is_kill tr = 1%nat ∧ count is_wait tr = 1%nat
  ∧ code = -1 ∧ err ≠ None
  ∧ ∃ q u, tr = q ++ [EvKill; EvWait] ++ u.
Proof.
  intros HExec Hkill.
  destruct (Exec_kinds _ _ _ _ _ _ _ _ _ HExec)
    as [(_ & _ & F) | [(-> & He & q & u & -> & Fq & Fu)
       | (sp & pid & cleaner & t0 & t1 & t2 & d & u & _ & _ & _ & _ & F2 & ->
          & Fd & Fu & _)]].
  - by apply (not_elem_of_Forall _ _ _ F) in Hkill.
  - split; [by count_classes|]. split; [by count_classes|]. eauto.
  - exfalso. revert Hkill. apply count_is_kill.
    change (EvWait :: d ++ u) with ([EvWait] ++ d ++ u).
    count_classes. by rewrite count_release.
Qed.




(** C1, where the code falls short of it.  When the child has started and
    its start time cannot be read, [Exec] returns the error with the child
    neither killed nor waited for: only the terminal is closed. *)
Theorem Exec_start_time_failure_orphans_child syncPipe pid t err :
  at_started env container rootfs dataPath args syncPipe pid t →
  system_GetProcessStartTime env t pid = Err err →
  Exec env container rootfs dataPath args startCallback []
    = (-1, Some err, t ++ [EvGetProcessStartTime pid; EvTermClose])
  ∧ EvStart ∈ t
  ∧ (EvKill ∉ t ++ [EvGetProcessStartTime pid; EvTermClose])
  ∧ (EvWait ∉ t ++ [EvGetProcessStartTime pid; EvTermClose]).
Proof.
  intros Hs Hg.
  destruct (at_started_launch _ _ _ _ _ _ _ _ Hs) as (F & _ & t0 & E & _).
  split; [|split; [|split]].
  - apply Exec_run_exact. by apply run_start_time_failed with syncPipe.
  - rewrite E. apply elem_of_app. right. by left.
  - apply count_is_kill. by count_classes.
  - apply count_is_wait. by count_classes.
Qed.

(** C6, as the code has it.  When the container asks for a terminal and the
    master and console cannot be allocated, [Exec] returns -1 and the error
    right away: it has created the pipe and tried the allocation, and does
    nothing else. The pipe is not closed, no command is built, no child
    exists. *)
Theorem Exec_console_failure_no_cleanup syncPipe err :
  Tty container = true →
  NewSyncPipe_answer env [] = Ok syncPipe →
  system_CreateMasterAndConsole env [EvNewSyncPipe] = Err err →
  Exec env container rootfs dataPath args startCallback []
    = (-1, Some err, [EvNewSyncPipe; EvCreateMasterAndConsole]).
Proof. intros Ht Hp Hc. apply Exec_run_exact. by apply run_console_failed with syncPipe. Qed.
End Exec_properties.

(** ** The properties on the sample host *)

Ltac elem_of_list :=
  vm_compute; repeat first [apply list_elem_of_here | apply list_elem_of_further].

Lemma Exec_error_code_witness :
  (Sample.launch Sample.wait_fails 0 Sample.box).1.1 = -1
  ∧ ∃ t1 t2, (Sample.launch Sample.no_failure 17 Sample.box).2 = t1 ++ EvWait :: t2
             ∧ 17 = WaitStatus_ExitStatus
                      (command_Wait_answer (Sample.host Sample.no_failure 17) t1).2.
Proof.
  split.
  - exact (proj1 (Exec_error_code (Sample.host Sample.wait_fails 0) Sample.box
                    "/rootfs" "/data" ["sh"%string] true _ _ _ eq_refl)
                 ltac:(discriminate)).
  - exact (proj2 (proj2 (Exec_error_code (Sample.host Sample.no_failure 17) Sample.box
                           "/rootfs" "/data" ["sh"%string] true _ _ _ eq_refl))
                 eq_refl).
Defined.

Lemma Exec_wait_result_witness :
  ∃ t1 t2,
    (Sample.launch Sample.no_failure 17 Sample.box).2 = t1 ++ EvWait :: t2
    ∧ (17, None) =
        match command_Wait_answer (Sample.host Sample.no_failure 17) t1 with
        | (None, status) => (WaitStatus_ExitStatus status, None)
        | (Some err, status) =>
            if is_ExitError err then (WaitStatus_ExitStatus status, None)
            else (-1, Some err)
        end.
Proof.
  destruct (Exec_wait_result (Sample.host Sample.no_failure 17) Sample.box
              "/rootfs" "/data" ["sh"%string] true _ _ _ eq_refl)
    as (t1 & t2 & E & _ & _ & R).
  - elem_of_list.
  - apply count_is_kill. vm_compute. reflexivity.
  - exists t1, t2. split; [exact E | exact R].
Defined.

Lemma Exec_cgroups_before_networking_witness :
  ∃ syncPipe pid cleaner t0 t1 t2,
    SetupCgroups (Sample.host Sample.no_failure 0) Sample.box pid t0 = (cleaner, None, t1)
    ∧ InitializeNetworking (Sample.host Sample.no_failure 0) Sample.box pid syncPipe t1
      = (None, t2)
    ∧ t0 `prefix_of` t1 ∧ t1 `prefix_of` t2
    ∧ t2 `prefix_of` (Sample.launch Sample.no_failure 0 Sample.box).2
    ∧ Forall (λ e, networking_event e = false) t1
    ∧ ∃ ts t', t0 = ts ++ EvStart :: t'
               ∧ command_Start_answer (Sample.host Sample.no_failure 0) ts = Ok pid.
Proof.
  exact (Exec_cgroups_before_networking (Sample.host Sample.no_failure 0) Sample.box
           "/rootfs" "/data" ["sh"%string] true _ _ eq_refl).
Defined.

Lemma Exec_pipe_closed_on_release_only_witness :
  count is_close (Sample.launch Sample.no_failure 0 Sample.box).2 = 1%nat
  ∧ count is_close (Sample.launch Sample.strategy_fails 0 Sample.box).2 = 0%nat.
Proof.
  split.
  - exact (proj1 (proj2 (proj2 (Exec_pipe_closed_on_release_only
             (Sample.host Sample.no_failure 0) Sample.box
             "/rootfs" "/data" ["sh"%string] true _ _ _ eq_refl))) eq_refl).
  - apply (proj1 (proj2 (Exec_pipe_closed_on_release_only
             (Sample.host Sample.strategy_fails 0) Sample.box
             "/rootfs" "/data" ["sh"%string] true _ _ _ eq_refl))).
    elem_of_list.
Defined.

(** C5 as stated fails: the cgroup backend refuses the limits, the launch is
    aborted and the child killed and reaped, and the pipe that was created is
    never closed. *)
Lemma Exec_abort_leaves_pipe_open :
  (Sample.launch Sample.cgroups_fail 0 Sample.box).1
    = (-1, Some (errors_New "mountpoint not found"))
  ∧ EvNewSyncPipe ∈ (Sample.launch Sample.cgroups_fail 0 Sample.box).2
  ∧ EvKill ∈ (Sample.launch Sample.cgroups_fail 0 Sample.box).2
  ∧ count is_close (Sample.launch Sample.cgroups_fail 0 Sample.box).2 = 0%nat
  ∧ ¬ (∀ env container rootfs dataPath args startCallback,
         count is_close (Exec env container rootfs dataPath args startCallback []).2 = 1%nat).
Proof.
  split; [reflexivity|]. split; [elem_of_list|]. split; [elem_of_list|].
  split; [reflexivity|]. intros H.
  specialize (H (Sample.host Sample.cgroups_fail 0) Sample.box
                "/rootfs"%string "/data"%string ["sh"%string] true).
  vm_compute in H. discriminate.
Qed.

Lemma Exec_start_time_failure_orphans_child_witness :
  Sample.launch Sample.start_time_fails 0 Sample.box
  = (-1, Some (errors_New "no such process"),
     [EvNewSyncPipe; EvCreateMasterAndConsole; EvTermSetMaster {| fd := 5 |};
      EvCreateCommand "/dev/pts/3" "/rootfs" "/data" "nsinit" {| fd := 3 |} ["sh"%string];
      EvTermAttach; EvStart; EvGetProcessStartTime 4242; EvTermClose]).
Proof.
  apply (Exec_start_time_failure_orphans_child (Sample.host Sample.start_time_fails 0)
           Sample.box "/rootfs" "/data" ["sh"%string] true Sample.syncPipe 4242
           [EvNewSyncPipe; EvCreateMasterAndConsole; EvTermSetMaster {| fd := 5 |};
            EvCreateCommand "/dev/pts/3" "/rootfs" "/data" "nsinit" {| fd := 3 |}
              ["sh"%string];
            EvTermAttach; EvStart]
           (errors_New "no such process")).
  - apply (at_started_intro _ _ _ _ _ _ _
             [EvNewSyncPipe; EvCreateMasterAndConsole; EvTermSetMaster {| fd := 5 |};
              EvCreateCommand "/dev/pts/3" "/rootfs" "/data" "nsinit" {| fd := 3 |}
                ["sh"%string]]);
      [apply at_command_tty; reflexivity | reflexivity | reflexivity].
  - reflexivity.
Defined.

(** The sibling failures do kill and reap the child, and delete the pid
    record once it is written. *)
Example launch_record_fails :
  (Sample.launch Sample.record_fails 0 Sample.bare).2 =
    [EvNewSyncPipe;
     EvCreateCommand "" "/rootfs" "/data" "nsinit" {| fd := 3 |} ["sh"%string];
     EvTermAttach; EvStart; EvGetProcessStartTime 4242;
     EvWritePid "/data" 4242 "12345"; EvKill; EvWait; EvTermClose].
Proof. reflexivity. Qed.

Example launch_cgroups_fail :
  (Sample.launch Sample.cgroups_fail 0 Sample.box).2 =
    [EvNewSyncPipe; EvCreateMasterAndConsole; EvTermSetMaster {| fd := 5 |};
     EvCreateCommand "/dev/pts/3" "/rootfs" "/data" "nsinit" {| fd := 3 |} ["sh"%string];
     EvTermAttach; EvStart; EvGetProcessStartTime 4242;
     EvWritePid "/data" 4242 "12345"; EvUseSystemd;
     EvFsApply {| Cgroup_Name := "box"; Cgroup_Parent := "docker" |} 4242;
     EvKill; EvWait; EvDeletePid "/data"; EvTermClose].
Proof. reflexivity. Qed.

Example launch_strategy_fails :
  (Sample.launch Sample.strategy_fails 0 Sample.box).2 =
    [EvNewSyncPipe; EvCreateMasterAndConsole; EvTermSetMaster {| fd := 5 |};
     EvCreateCommand "/dev/pts/3" "/rootfs" "/data" "nsinit" {| fd := 3 |} ["sh"%string];
     EvTermAttach; EvStart; EvGetProcessStartTime 4242;
     EvWritePid "/data" 4242 "12345"; EvUseSystemd;
     EvFsApply {| Cgroup_Name := "box"; Cgroup_Parent := "docker" |} 4242;
     EvGetStrategy "veth";
     EvKill; EvWait; EvCleanup {| cgroup_id := 2 |}; EvDeletePid "/data"; EvTermClose].
Proof. reflexivity. Qed.

Lemma Exec_console_failure_no_cleanup_witness :
  Sample.launch Sample.console_fails 0 Sample.box
  = (-1, Some (errors_New "no pty"), [EvNewSyncPipe; EvCreateMasterAndConsole]).
Proof.
  apply (Exec_console_failure_no_cleanup (Sample.host Sample.console_fails 0) Sample.box
           "/rootfs" "/data" ["sh"%string] true Sample.syncPipe (errors_New "no pty"));
    reflexivity.
Defined.

(** C6 as stated fails: after the failed allocation the pipe is still
    open. *)
Lemma Exec_console_failure_pipe_left_open :
  (Sample.launch Sample.console_fails 0 Sample.box).1 = (-1, Some (errors_New "no pty"))
  ∧ EvNewSyncPipe ∈ (Sample.launch Sample.console_fails 0 Sample.box).2
  ∧ count is_close (Sample.launch Sample.console_fails 0 Sample.box).2 = 0%nat
  ∧ ¬ (∀ env container rootfs dataPath args startCallback syncPipe err,
         Tty container = true →
         NewSyncPipe_answer env [] = Ok syncPipe →
         system_CreateMasterAndConsole env [EvNewSyncPipe] = Err err →
         EvSyncPipeClose syncPipe
           ∈ (Exec env container rootfs dataPath args startCallback []).2).
Proof.
  split; [reflexivity|]. split; [elem_of_list|]. split; [reflexivity|]. intros H.
  specialize (H (Sample.host Sample.console_fails 0) Sample.box
                "/rootfs"%string "/data"%string ["sh"%string] true
                Sample.syncPipe (errors_New "no pty") eq_refl eq_refl eq_refl).
  revert H. apply count_is_close. reflexivity.
Qed.

(** * Further properties *)

(** ** Package [network]: missing interfaces *)

Section network_properties.
Context (env : Env).

Ltac network_run :=
  unfold network.InterfaceUp, network.InterfaceDown, network.ChangeInterfaceName,
    network.CreateVethPair, network.SetInterfaceInNamespacePid, network.SetInterfaceMaster,
    network.SetDefaultGateway, network.SetInterfaceIp, network.SetMtu,
    network.InterfaceByName, network.netlink, log_Printf;
  run.

(** X1.  When the lookup of the named interface fails, [InterfaceUp],
    [InterfaceDown], [ChangeInterfaceName], [SetInterfaceMaster],
    [SetInterfaceIp] and [SetMtu] return the error of the lookup having done
    nothing but that lookup: no netlink request is issued, the bridge is not
    looked up, and the address is not parsed, so that a missing interface wins
    over an invalid address. *)
Theorem network_lookup_failure name t err :
  net_InterfaceByName env t name = Err err →
  network.InterfaceUp env name t = (Some err, t ++ [EvInterfaceByName name])
  ∧ network.InterfaceDown env name t = (Some err, t ++ [EvInterfaceByName name])
  ∧ (∀ newName,
       network.ChangeInterfaceName env name newName t = (Some err, t ++ [EvInterfaceByName name]))
  ∧ (∀ master,
       network.SetInterfaceMaster env name master t = (Some err, t ++ [EvInterfaceByName name]))
  ∧ (∀ rawIp,
       network.SetInterfaceIp env name rawIp t = (Some err, t ++ [EvInterfaceByName name]))
  ∧ (∀ mtu, network.SetMtu env name mtu t = (Some err, t ++ [EvInterfaceByName name])).
Proof. intros H. repeat split; intros; network_run; by rewrite H. Qed.

(** X2.  [SetInterfaceInNamespacePid] logs its arguments before anything
    else.  When the interface cannot be found it logs the error of the lookup
    and returns it; no netlink request is issued. *)
Theorem SetInterfaceInNamespacePid_lookup_failure name nsPid t err :
  net_InterfaceByName env (t ++ [EvLog "setting interface my name %s, %d" [AStr name; AInt nsPid]])
    name = Err err →
  network.SetInterfaceInNamespacePid env name nsPid t
  = (Some err,
     t ++ [EvLog "setting interface my name %s, %d" [AStr name; AInt nsPid];
           EvInterfaceByName name;
           EvLog "error getting interfacebyname %+v" [AErr err]]).
Proof. intros H. network_run. rewrite H. cbn. by rewrite <- !app_assoc. Qed.

(** X3.  [SetInterfaceMaster] looks up the interface, then the bridge.
    When the bridge is missing, the error of its lookup is returned after the
    two lookups and no request is issued.  When both exist, one request is
    issued, which adds the interface to the bridge, and its answer is
    returned. *)
Theorem SetInterfaceMaster_lookups name master t iface :
  net_InterfaceByName env t name = Ok iface →
  (∀ err, net_InterfaceByName env (t ++ [EvInterfaceByName name]) master = Err err →
     network.SetInterfaceMaster env name master t
     = (Some err, t ++ [EvInterfaceByName name; EvInterfaceByName master]))
  ∧ (∀ masterIface,
       net_InterfaceByName env (t ++ [EvInterfaceByName name]) master = Ok masterIface →
       network.SetInterfaceMaster env name master t
       = (netlink_answer env (t ++ [EvInterfaceByName name; EvInterfaceByName master])
            (AddToBridge iface masterIface),
          t ++ [EvInterfaceByName name; EvInterfaceByName master;
                EvNetlink (AddToBridge iface masterIface)])).
Proof.
  intros H. split; intros x Hm; network_run; rewrite H; cbn; rewrite Hm; cbn;
    by rewrite <- !app_assoc.
Qed.

Ltac reports_solve :=
  intros t; network_run;
  repeat match goal with
         | |- context [net_InterfaceByName env ?t ?n] =>
             destruct (net_InterfaceByName env t n) eqn:?; cbn
         | |- context [net_ParseCIDR env ?s] =>
             destruct (net_ParseCIDR env s) as [[? ?]|?] eqn:?; cbn
         end;
  rewrite <- ?app_assoc; cbn [app];
  (eexists; split; [reflexivity|]; split; [cbn; lia|]);
  first
    [ done
    | intros Hnil;
      match goal with
      | |- ∃ d0 req, ?l = _ ∧ _ =>
          match l with
          | [?a; ?b; ?c; EvNetlink ?r] => exists [a; b; c], r
          | [?a; ?b; EvNetlink ?r] => exists [a; b], r
          | [?a; EvNetlink ?r] => exists [a], r
          | [EvNetlink ?r] => exists [], r
          end
      end;
      rewrite <- ?app_assoc, ?app_nil_r; cbn [app]; by repeat split ].

(** X4.  Each of the nine primitives issues at most one netlink request,
    and returns nil only when the last thing it did was a request that netlink
    accepted: a missing interface or an invalid address is never reported as a
    success. *)
Theorem network_reports_netlink :
  (∀ name, reports_netlink env (network.InterfaceUp env name))
  ∧ (∀ name, reports_netlink env (network.InterfaceDown env name))
  ∧ (∀ old newName, reports_netlink env (network.ChangeInterfaceName env old newName))
  ∧ (∀ name1 name2, reports_netlink env (network.CreateVethPair env name1 name2))
  ∧ (∀ name nsPid, reports_netlink env (network.SetInterfaceInNamespacePid env name nsPid))
  ∧ (∀ name master, reports_netlink env (network.SetInterfaceMaster env name master))
  ∧ (∀ ip ifaceName, reports_netlink env (network.SetDefaultGateway env ip ifaceName))
  ∧ (∀ name rawIp, reports_netlink env (network.SetInterfaceIp env name rawIp))
  ∧ (∀ name mtu, reports_netlink env (network.SetMtu env name mtu)).
Proof.
  repeat split; intros.
  all: reports_solve.
Qed.
End network_properties.

(** ** [GetNamespaceFlags] as a function of the map *)

Section GetNamespaceFlags_laws.
Context (env : Env).


Lemma GetNamespaceFlags_testbit (nss : gmap string bool) i :
  Z.testbit (GetNamespaceFlags env nss) i = true ↔
  ∃ key ns, nss !! key = Some true
            ∧ libcontainer_GetNamespace env key = Some ns
            ∧ Z.testbit (Value ns) i = true.
Proof.
  unfold GetNamespaceFlags. rewrite GetNamespaceFlags_range_or, bitwise_or_testbit. split.
  - intros (v & Hv & Hbit).
    apply elem_of_enabled_flags in Hv as (key & ns & Hin & Hns & <-).
    exists key, ns. split; [|done]. by apply elem_of_map_to_list.
  - intros (key & ns & Hkey & Hns & Hbit). exists (Value ns). split; [|done].
    apply elem_of_enabled_flags. exists key, ns. split; [|done].
    by apply elem_of_map_to_list.
Qed.

Lemma namespace_value_testbit key i :
  Z.testbit (namespace_value env key) i = true ↔
  ∃ ns, libcontainer_GetNamespace env key = Some ns ∧ Z.testbit (Value ns) i = true.
Proof.
  unfold namespace_value. destruct (libcontainer_GetNamespace env key) as [ns|].
  - split; [eauto|]. by intros (? & [= <-] & ?).
  - rewrite Z.bits_0. split; [done|]. by intros (? & ? & ?).
Qed.

(** X5.  Setting a name in the map replaces what the name contributed
    before: the flags of the updated map are the flags of the map without the
    name, ORed with the registered value of the name when it is set to true
    and recognised, and with nothing when it is set to false or unknown. *)
Theorem GetNamespaceFlags_insert (nss : gmap string bool) (key : string) (enabled : bool) :
  GetNamespaceFlags env (<[key := enabled]> nss)
  = Z.lor (GetNamespaceFlags env (delete key nss)) (if enabled then namespace_value env key else 0).
Proof.
  apply Z.bits_inj'. intros i _. apply eq_true_iff_eq.
  rewrite Z.lor_spec, orb_true_iff, !GetNamespaceFlags_testbit. split.
  - intros (k & ns & Hk & Hns & Hbit).
    apply lookup_insert_Some in Hk as [[<- ->]|[Hne Hk]].
    + right. apply namespace_value_testbit. eauto.
    + left. exists k, ns. by rewrite lookup_delete_ne.
  - intros [(k & ns & Hk & Hns & Hbit)|H].
    + apply lookup_delete_Some in Hk as [Hne Hk].
      exists k, ns. by rewrite lookup_insert_ne.
    + destruct enabled; [|by rewrite Z.bits_0 in H].
      apply namespace_value_testbit in H as (ns & Hns & Hbit).
      exists key, ns. by rewrite lookup_insert_eq.
Qed.

(** X6.  The flags of the union of two maps that share no name are the
    bitwise OR of the flags of each. *)
Theorem GetNamespaceFlags_union (nss1 nss2 : gmap string bool) :
  nss1 ##ₘ nss2 →
  GetNamespaceFlags env (nss1 ∪ nss2)
  = Z.lor (GetNamespaceFlags env nss1) (GetNamespaceFlags env nss2).
Proof.
  intros Hdisj. apply Z.bits_inj'. intros i _. apply eq_true_iff_eq.
  rewrite Z.lor_spec, orb_true_iff, !GetNamespaceFlags_testbit. split.
  - intros (k & ns & Hk & H). apply lookup_union_Some in Hk as [Hk|Hk]; [|  |done].
    + left. eauto.
    + right. eauto.
  - intros [(k & ns & Hk & H)|(k & ns & Hk & H)]; exists k, ns; split; try done.
    + apply lookup_union_Some; [done|]. by left.
    + apply lookup_union_Some; [done|]. by right.
Qed.

Lemma bounded_shiftr n x : 0 ≤ n → 0 ≤ x < 2 ^ n ↔ Z.shiftr x n = 0.
Proof.
  intros Hn. rewrite Z.shiftr_div_pow2 by done.
  assert (0 < 2 ^ n) by (by apply Z.pow_pos_nonneg).
  rewrite Z.div_small_iff by lia. lia.
Qed.

Lemma bitwise_or_bounded n flags :
  0 ≤ n → Forall (λ v, 0 ≤ v < 2 ^ n) flags → 0 ≤ bitwise_or flags < 2 ^ n.
Proof.
  intros Hn. induction 1 as [|v flags Hv _ IH].
  - cbn. split; [done|]. by apply Z.pow_pos_nonneg.
  - change (bitwise_or (v :: flags)) with (Z.lor v (bitwise_or flags)).
    apply bounded_shiftr; [done|]. apply bounded_shiftr in Hv, IH; [|done..].
    by rewrite Z.shiftr_lor, Hv, IH.
Qed.

Lemma GetNamespaceFlags_range_bounded n entries :
  0 ≤ n →
  (∀ key ns, libcontainer_GetNamespace env key = Some ns → 0 ≤ Value ns < 2 ^ n) →
  0 ≤ GetNamespaceFlags_range env entries < 2 ^ n.
Proof.
  intros Hn Hreg. rewrite GetNamespaceFlags_range_or.
  apply bitwise_or_bounded; [done|]. apply Forall_forall. intros v Hv.
  apply elem_of_enabled_flags in Hv as (key & ns & _ & Hns & <-). eauto.
Qed.

(** X7.  If every registered value is non-negative and fits in [n] bits,
    so does the result of [GetNamespaceFlags], whatever the map: the loop sets
    no bit that the registry does not have. *)
Theorem GetNamespaceFlags_bounded n (nss : gmap string bool) :
  0 ≤ n →
  (∀ key ns, libcontainer_GetNamespace env key = Some ns → 0 ≤ Value ns < 2 ^ n) →
  0 ≤ GetNamespaceFlags env nss < 2 ^ n.
Proof. intros Hn Hreg. by apply GetNamespaceFlags_range_bounded. Qed.
End GetNamespaceFlags_laws.

Lemma Sample_registry_bounded key ns :
  Sample.GetNamespace key = Some ns → 0 ≤ Value ns < 2 ^ 31.
Proof.
  unfold Sample.GetNamespace. intros H. apply find_some in H as [Hin _].
  assert (Forall (λ ns, 0 ≤ Value ns < 2 ^ 31) Sample.registry) as F
    by (repeat constructor; cbn; lia).
  rewrite List.Forall_forall in F. by apply F.
Qed.

Lemma GetNamespaceFlags_union_witness :
  GetNamespaceFlags (Sample.host Sample.no_failure 0)
    ({[ "NEWNET" := true ]} ∪ {[ "NEWPID" := true; "NEWIPC" := false ]})
  = Z.lor 0x40000000 0x20000000.
Proof.
  etrans; [apply (GetNamespaceFlags_union (Sample.host Sample.no_failure 0)
                    {[ "NEWNET" := true ]} {[ "NEWPID" := true; "NEWIPC" := false ]})|].
  - apply map_disjoint_spec. intros k x y Hx Hy.
    apply lookup_singleton_Some in Hx as [<- _]. vm_compute in Hy. discriminate.
  - vm_compute. reflexivity.
Defined.

Lemma GetNamespaceFlags_bounded_witness :
  0 ≤ GetNamespaceFlags (Sample.host Sample.no_failure 0) (Namespaces Sample.box) < 2 ^ 31.
Proof.
  apply (GetNamespaceFlags_bounded (Sample.host Sample.no_failure 0) 31 (Namespaces Sample.box)).
  - lia.
  - exact Sample_registry_bounded.
Defined.

(** ** [DefaultCreateCommand] *)

(** X8.  Provided the registered values are non-negative Go [int]s, and
    [system.SetCloneFlags] stores the flags in the [SysProcAttr] of the
    command (which it allocates) and leaves the arguments, the directory and
    the environment alone: [DefaultCreateCommand] returns a command that runs
    [init] with the arguments [init], the word init, then [args]; in the
    directory [rootfs]; with the environment of the parent followed by the
    console, [pipe=3] and the data path; with the pipe as its only extra file,
    which is descriptor 3 in the child; with [SIGKILL] as parent-death signal;
    and whose clone flags are exactly [GetNamespaceFlags] of the namespaces of
    the container, the conversion to [uintptr] losing nothing. *)
Theorem DefaultCreateCommand_command env (set : Cmd → Z → Cmd) environ container
    console rootfs dataPath init pipe args :
  (∀ key ns, libcontainer_GetNamespace env key = Some ns → 0 ≤ Value ns < 2 ^ 63) →
  (∀ cmd flag, ∃ attr,
     Cmd_SysProcAttr (set cmd flag) = Some attr ∧ Cloneflags attr = flag
     ∧ Cmd_Args (set cmd flag) = Cmd_Args cmd
     ∧ Cmd_Dir (set cmd flag) = Cmd_Dir cmd
     ∧ Cmd_Env (set cmd flag) = Cmd_Env cmd) →
  DefaultCreateCommand env set environ container console rootfs dataPath init pipe args
  = Some {| Cmd_Args := init :: "init"%string :: args;
            Cmd_Dir := rootfs;
            Cmd_Env := environ ++ ["console=" +:+ console; "pipe=3"; "data_path=" +:+ dataPath]%string;
            Cmd_SysProcAttr :=
              Some {| Cloneflags := GetNamespaceFlags env (Namespaces container);
                      Pdeathsig := SIGKILL |};
            Cmd_ExtraFiles := [pipe] |}.
Proof.
  intros Hreg Hset. unfold DefaultCreateCommand. cbn.
  match goal with
  | |- context [set ?c ?f] => destruct (Hset c f) as (attr & -> & Hf & -> & -> & ->)
  end.
  cbn. rewrite Hf. unfold uintptr.
  assert (0 ≤ GetNamespaceFlags env (Namespaces container) < 2 ^ 63)
    by (apply GetNamespaceFlags_range_bounded; [lia | done]).
  by rewrite Z.mod_small by lia.
Qed.

Lemma DefaultCreateCommand_command_witness :
  DefaultCreateCommand (Sample.host Sample.no_failure 0) Hosts.SetCloneFlags
    ["PATH=/bin"%string] Sample.box "/dev/pts/3" "/rootfs" "/data" "nsinit" {| fd := 3 |}
    ["sh"%string]
  = Some {| Cmd_Args := ["nsinit"; "init"; "sh"]%string;
            Cmd_Dir := "/rootfs";
            Cmd_Env := ["PATH=/bin"; "console=/dev/pts/3"; "pipe=3"; "data_path=/data"]%string;
            Cmd_SysProcAttr := Some {| Cloneflags := 0x40000000; Pdeathsig := 9 |};
            Cmd_ExtraFiles := [{| fd := 3 |}] |}.
Proof.
  apply (DefaultCreateCommand_command (Sample.host Sample.no_failure 0) Hosts.SetCloneFlags
           ["PATH=/bin"%string] Sample.box "/dev/pts/3" "/rootfs" "/data" "nsinit" {| fd := 3 |}
           ["sh"%string]).
  - intros key ns H. apply Sample_registry_bounded in H. lia.
  - intros cmd flag. eexists. repeat split.
Defined.

(** ** [InitializeNetworking]: the strategies *)

Lemma for_range_app {R A S} (l1 l2 : list A) (s : S) (body : S → A → Body R S) ds t :
  for_range (l1 ++ l2) s body ds t
  = match for_range l1 s body ds t with
    | (Next s', ds', t') => for_range l2 s' body ds' t'
    | (Returned r, ds', t') => (Returned r, ds', t')
    end.
Proof.
  revert s ds t. induction l1 as [|x l1 IH]; intros s ds t; [done|].
  cbn [app for_range]. unfold mbind at 1 2, Body_bind. run.
  destruct (body s x ds t) as [[[r|s'] ds'] t']; cbn; [done|]. apply IH.
Qed.

Lemma Body_bind_Returned {R A B} (m : Body R A) (k : A → Body R B) ds t r ds' t' :
  m ds t = (Returned r, ds', t') → (m ≫= k) ds t = (Returned r, ds', t').
Proof. intros E. unfold mbind, Body_bind. run. by rewrite E. Qed.

Section strategies.
Context (env : Env) (nspid : Z).

(** The body of the loop over [container.Networks]. *)
Local Abbreviation strategies_body :=
  (λ (context : Context) (config : Network),
     strategy ← unless_err (GetStrategy env (Type_ config)) (λ err, return_ (Some err));
     '(context, err) ← call (strategy_Create_ env strategy config nspid context);
     if err is Some err then return_ (Some err) else mret context).

Ltac body_run :=
  cbn [for_range]; unfold mbind at 1, Body_bind, unless_err, call, GetStrategy, strategy_Create_;
  unfold mbind, Body_bind; run.

Lemma strategies_loop_lists configs (context : Context) ds t :
  strategies_succeed env nspid configs →
  ∃ context' d,
    for_range (R:=option error) configs context strategies_body ds t = (Next context', ds, t ++ d)
    ∧ Forall strategy_event d
    ∧ strategy_lookups d = Type_ <$> configs
    ∧ strategies_created d = configs.
Proof.
  intros Hok. revert context t. induction Hok as [|config configs (s & Hs & Hc) _ IH];
    intros context t.
  - exists context, []. by rewrite app_nil_r.
  - body_run. rewrite Hs. cbn.
    specialize (Hc (t ++ [EvGetStrategy (Type_ config)]) context).
    destruct (strategy_Create env _ s config nspid context) as [context1 err]; cbn in Hc; subst err.
    cbn.
    destruct (IH context1 ((t ++ [EvGetStrategy (Type_ config)]) ++ [EvStrategyCreate s config nspid]))
      as (context' & d & E & F & L & C).
    exists context', ([EvGetStrategy (Type_ config); EvStrategyCreate s config nspid] ++ d).
    split; [|split; [|split]].
    + etrans; [exact E|]. by rewrite <- !app_assoc.
    + apply Forall_app. split; [by repeat constructor | done].
    + cbn. by rewrite <- L.
    + cbn. by rewrite <- C.
Qed.

(** Whatever the strategies answer, the loop makes strategy calls only, and
    either falls through or returns an error. *)
Lemma strategies_loop_cases configs (context : Context) ds t :
  ∃ d, Forall strategy_event d
       ∧ ((∃ context',
             for_range (R:=option error) configs context strategies_body ds t
             = (Next context', ds, t ++ d))
          ∨ (∃ err,
               for_range (R:=option error) configs context strategies_body ds t
               = (Returned (Some err), ds, t ++ d))).
Proof.
  revert context t. induction configs as [|config configs IH]; intros context t.
  - exists []. split; [done|]. left. exists context. by rewrite app_nil_r.
  - body_run. destruct (network_GetStrategy env (Type_ config)) as [s|err]; cbn.
    + destruct (strategy_Create env _ s config nspid context) as [context1 [err|]]; cbn.
      * exists [EvGetStrategy (Type_ config); EvStrategyCreate s config nspid].
        split; [by repeat constructor|]. right. exists err. by rewrite <- !app_assoc.
      * destruct (IH context1 ((t ++ [EvGetStrategy (Type_ config)])
                                 ++ [EvStrategyCreate s config nspid])) as (d & F & H).
        exists ([EvGetStrategy (Type_ config); EvStrategyCreate s config nspid] ++ d).
        split; [apply Forall_app; split; [by repeat constructor | done]|].
        destruct H as [(c & E)|(err & E)]; [left; exists c | right; exists err];
          (etrans; [exact E|]); by rewrite <- !app_assoc.
    + exists [EvGetStrategy (Type_ config)]. split; [by repeat constructor|].
      right. by exists err.
Qed.

(** X9.  [InitializeNetworking] stops at the first network whose type has
    no registered strategy and returns the error of that lookup.  The networks
    before it have been created, in order; the failing one and those after it
    have not, and the types after it are not even looked up.  Nothing but
    strategy calls has happened: no interface is touched and nothing is sent to
    the child. *)
Theorem InitializeNetworking_unknown_type container pipe t pre bad post err :
  Networks container = pre ++ bad :: post →
  strategies_succeed env nspid pre →
  network_GetStrategy env (Type_ bad) = Err err →
  ∃ d,
    InitializeNetworking env container nspid pipe t = (Some err, t ++ d)
    ∧ Forall strategy_event d
    ∧ strategy_lookups d = Type_ <$> (pre ++ [bad])
    ∧ strategies_created d = pre.
Proof.
  intros Hnet Hpre Hbad. unfold InitializeNetworking. rewrite func_eq, Hnet.
  destruct (strategies_loop_lists pre ∅ [] t Hpre) as (context & d & E & F & L & C).
  assert (for_range (R:=option error) (pre ++ bad :: post) ∅ strategies_body [] t
          = (Returned (Some err), [], t ++ d ++ [EvGetStrategy (Type_ bad)])) as Hloop.
  { rewrite for_range_app, E. body_run. rewrite Hbad. cbn. by rewrite <- app_assoc. }
  rewrite !(Body_bind_Returned _ _ _ _ _ _ _ Hloop). cbn.
  exists (d ++ [EvGetStrategy (Type_ bad)]).
  split; [done|]. split; [apply Forall_app; split; [done | by repeat constructor]|].
  unfold strategy_lookups, strategies_created in *. rewrite !omap_app, L, C. cbn.
  by rewrite fmap_app, app_nil_r.
Qed.

(** X10.  [InitializeNetworking] stops at the first network whose
    strategy fails to create it and returns that error.  The networks before
    it and the failing one have been handed to their strategies, in order;
    those after it are neither looked up nor created; no interface is touched
    and nothing is sent to the child. *)
Theorem InitializeNetworking_create_failure container pipe t pre bad post strategy err :
  Networks container = pre ++ bad :: post →
  strategies_succeed env nspid pre →
  network_GetStrategy env (Type_ bad) = Ok strategy →
  (∀ t context, (strategy_Create env t strategy bad nspid context).2 = Some err) →
  ∃ d,
    InitializeNetworking env container nspid pipe t = (Some err, t ++ d)
    ∧ Forall strategy_event d
    ∧ strategy_lookups d = Type_ <$> (pre ++ [bad])
    ∧ strategies_created d = pre ++ [bad].
Proof.
  intros Hnet Hpre Hbad Hcreate. unfold InitializeNetworking. rewrite func_eq, Hnet.
  destruct (strategies_loop_lists pre ∅ [] t Hpre) as (context & d & E & F & L & C).
  assert (for_range (R:=option error) (pre ++ bad :: post) ∅ strategies_body [] t
          = (Returned (Some err), [],
             t ++ d ++ [EvGetStrategy (Type_ bad); EvStrategyCreate strategy bad nspid]))
    as Hloop.
  { rewrite for_range_app, E. body_run. rewrite Hbad. cbn.
    specialize (Hcreate ((t ++ d) ++ [EvGetStrategy (Type_ bad)]) context).
    destruct (strategy_Create env _ strategy bad nspid context) as [context1 e];
      cbn in Hcreate; subst e. cbn. by rewrite <- !app_assoc. }
  rewrite !(Body_bind_Returned _ _ _ _ _ _ _ Hloop). cbn.
  exists (d ++ [EvGetStrategy (Type_ bad); EvStrategyCreate strategy bad nspid]).
  split; [done|]. split; [apply Forall_app; split; [done | by repeat constructor]|].
  unfold strategy_lookups, strategies_created in *. rewrite !omap_app, L, C. cbn.
  by rewrite fmap_app.
Qed.

(** X11.  Whatever the outside world answers, [InitializeNetworking]
    only calls strategies, relocates interfaces and sends the payload, and it
    sends at most one payload.  It returns nil only when sending the payload
    was the last thing it did and the send succeeded.  When it has sent
    nothing it has returned an error and has made strategy calls only. *)
Theorem InitializeNetworking_outcome container pipe t :
  ∃ d,
    (InitializeNetworking env container nspid pipe t).2 = t ++ d
    ∧ Forall initialize_event d
    ∧ (count is_send d ≤ 1)%nat
    ∧ ((InitializeNetworking env container nspid pipe t).1 = None →
       ∃ d0 context,
         d = d0 ++ [EvSendToChild pipe context]
         ∧ count is_send d0 = 0%nat
         ∧ SendToChild_answer env (t ++ d0) pipe context = None)
    ∧ (count is_send d = 0%nat →
       (InitializeNetworking env container nspid pipe t).1 ≠ None
       ∧ Forall strategy_event d).
Proof.
  unfold InitializeNetworking. rewrite func_eq.
  destruct (strategies_loop_cases (Networks container) ∅ [] t) as (d1 & F1 & [(context & E)|(err & E)]).
  - rewrite !(Body_bind_Next _ _ _ _ _ _ _ E).
    rewrite !(Body_bind_Next _ _ _ _ _ _ _ (for_range_call _ _ _ _)).
    destruct (for_each_relocation env (InitializeNetworking_iface env nspid) HostIfaceName
                nspid (λ _, {| Index := 0; MTU := 0; Name := "" |}) (NetworkInterfaces container)
                (InitializeNetworking_iface_run env nspid) (t ++ d1))
      as (d2 & E2 & _ & F2 & _).
    rewrite E2. unfold call, return_, SyncPipe_SendToChild. run_body.
    exists (d1 ++ d2 ++ [EvSendToChild pipe context]). rewrite <- !app_assoc.
    split; [done|].
    assert (count is_send (d1 ++ d2) = 0%nat) as H0.
    { rewrite count_app, (count_Forall_0 _ _ _ F1), (count_Forall_0 _ _ _ F2); [done|..];
        by intros []. }
    split; [|split; [|split]].
    + apply Forall_app. split; [eapply Forall_impl; [exact F1|]; by intros []|].
      apply Forall_app. split; [eapply Forall_impl; [exact F2|]; by intros []|].
      by repeat constructor.
    + rewrite app_assoc, count_app, H0. cbn. lia.
    + intros Hnone. exists (d1 ++ d2), context. rewrite <- !app_assoc. done.
    + rewrite app_assoc, count_app, H0. done.
  - rewrite !(Body_bind_Returned _ _ _ _ _ _ _ E). cbn.
    exists d1. split; [done|]. split; [eapply Forall_impl; [exact F1|]; by intros []|].
    assert (count is_send d1 = 0%nat) as ->
      by (apply (count_Forall_0 _ _ _ F1); by intros []).
    split; [lia|]. split; [done|]. done.
Qed.
End strategies.

(** ** [TeardownNetworking]: the namespace switch *)

(** X12.  [TeardownNetworking] opens the network namespace file of the
    supervisor, then that of the process [nspid], always both and in that
    order.  It then calls [Setns] with the descriptor of the second file, which
    is that of a nil file, all ones, when the open has failed, and goes on
    whatever [Setns] answers.  When, and only when, the first file could be
    opened it switches back to it: this is the last call, after all the work
    on the interfaces, and only a log line can follow it. *)
Theorem TeardownNetworking_namespace_switch env container nspid pipe t :
  let opened :=
    EvOpenFile proc_self_net_ns
    :: (if os_OpenFile env t proc_self_net_ns is Err err
        then [EvLog "unable to open self proc %+v" [AErr err]] else []) in
  let running :=
    if os_OpenFile env (t ++ opened) (proc_pid_net_ns nspid) is Ok running
    then Some running else None in
  ∃ d,
    TeardownNetworking env container nspid pipe t = (tt, t ++ d)
    ∧ Forall teardown_event d
    ∧ opened_files d = [proc_self_net_ns; proc_pid_net_ns nspid]
    ∧ setns_fds d =
        File_Fd running
        :: (if os_OpenFile env t proc_self_net_ns is Ok original then [fd original] else [])
    ∧ (∀ original, os_OpenFile env t proc_self_net_ns = Ok original →
         ∃ d0 l, d = d0 ++ EvSetns (fd original) :: l
                 ∧ Forall is_log l
                 ∧ interface_lookups d0 = interface_lookups d
                 ∧ netlink_requests d0 = netlink_requests d).
Proof.
  unfold TeardownNetworking, func, call, return_, defer, OpenFile, Setns, log_Printf.
  run_body.
  destruct (os_OpenFile env t proc_self_net_ns) as [original|?]; cbn;
  rewrite <- ?app_assoc; cbn [app];
  destruct (os_OpenFile env _ (proc_pid_net_ns nspid)) as [running|?]; cbn;
  destruct (system_Setns env _ _) as [?|]; cbn.
  all: (erewrite (for_range_calls (TeardownNetworking_iface env nspid)); [|done]).
  all: match goal with
       | |- context [for_each _ _ ?T] =>
           destruct (for_each_relocation env (TeardownNetworking_iface env nspid) HostIfaceName
                       1 (λ _, {| Index := 0; MTU := 0; Name := "" |})
                       (NetworkInterfaces container)
                       (TeardownNetworking_iface_run env nspid) T)
             as (d2 & E2 & L2 & F2 & N2)
       end.
  all: rewrite E2; run_body.
  all: try (destruct (system_Setns env _ _) as [?|]; cbn).
  all: rewrite <- ?app_assoc; cbn [app]; eexists; (split; [reflexivity|]).
  all: assert (opened_files d2 = [] ∧ setns_fds d2 = []) as [O2 S2]
         by (clear -F2; induction F2 as [|[] ? ? ? [? ?]]; by cbn in * ).
  all: split; [repeat first [ apply Forall_cons_2; [done|] | apply Forall_app_2
                            | (eapply Forall_impl; [exact F2|]; by intros [])
                            | apply Forall_nil_2 ]|].
  all: unfold opened_files, setns_fds in *; cbn; rewrite ?omap_app, ?O2, ?S2; cbn.
  all: split; [done|]; split; [done|].
  all: intros original' [= <-] || (intros ? [=]).
  all: match goal with
       | |- ∃ d0 l, ?a :: ?b :: ?c :: ?d :: ?e :: ?f :: ?D ++ ?r = _ ∧ _ =>
           exists (a :: b :: c :: d :: e :: f :: D), (tail r)
       | |- ∃ d0 l, ?a :: ?b :: ?c :: ?d :: ?e :: ?D ++ ?r = _ ∧ _ =>
           exists (a :: b :: c :: d :: e :: D), (tail r)
       | |- ∃ d0 l, ?a :: ?b :: ?c :: ?d :: ?D ++ ?r = _ ∧ _ =>
           exists (a :: b :: c :: d :: D), (tail r)
       end.
  all: split; [done|]; split; [by repeat constructor|].
  all: unfold interface_lookups, netlink_requests; cbn; rewrite ?omap_app; cbn.
  all: by rewrite ?app_nil_r.
Qed.

(** ** [Exec]: what a run unwinds *)

Section Exec_unwinding.
Context (env : Env) (container : Container) (rootfs dataPath : string)
        (args : list string) (startCallback : bool).

Lemma at_command_deterministic sp t sp' t' :
  at_command env container rootfs dataPath args sp t →
  at_command env container rootfs dataPath args sp' t' →
  sp = sp' ∧ t = t'.
Proof. intros H H'. destruct H; destruct H'; split; congruence. Qed.

Lemma at_started_deterministic sp pid t sp' pid' t' :
  at_started env container rootfs dataPath args sp pid t →
  at_started env container rootfs dataPath args sp' pid' t' →
  sp = sp' ∧ pid = pid' ∧ t = t'.
Proof.
  intros [t0 Hc Ha Hs] [t0' Hc' Ha' Hs'].
  destruct (at_command_deterministic _ _ _ _ Hc Hc') as [-> ->].
  repeat split; congruence.
Qed.

Lemma at_recorded_deterministic sp pid t sp' pid' t' :
  at_recorded env container rootfs dataPath args sp pid t →
  at_recorded env container rootfs dataPath args sp' pid' t' →
  sp = sp' ∧ pid = pid' ∧ t = t'.
Proof.
  intros [t0 started Hs Hg Hw] [t0' started' Hs' Hg' Hw'].
  destruct (at_started_deterministic _ _ _ _ _ _ Hs Hs') as (-> & -> & ->).
  repeat split; congruence.
Qed.

Lemma at_cgroups_deterministic sp pid cleaner t sp' pid' cleaner' t' :
  at_cgroups env container rootfs dataPath args sp pid cleaner t →
  at_cgroups env container rootfs dataPath args sp' pid' cleaner' t' →
  sp = sp' ∧ pid = pid' ∧ cleaner = cleaner' ∧ t = t'.
Proof.
  intros [t0 t1 Hr Hcg] [t0' t1' Hr' Hcg'].
  destruct (at_recorded_deterministic _ _ _ _ _ _ Hr Hr') as (-> & -> & ->).
  repeat split; congruence.
Qed.

Lemma at_networked_deterministic sp pid cleaner t sp' pid' cleaner' t' :
  at_networked env container rootfs dataPath args sp pid cleaner t →
  at_networked env container rootfs dataPath args sp' pid' cleaner' t' →
  sp = sp' ∧ pid = pid' ∧ cleaner = cleaner' ∧ t = t'.
Proof.
  intros [t0 t1 Hc Hn] [t0' t1' Hc' Hn'].
  destruct (at_cgroups_deterministic _ _ _ _ _ _ _ _ Hc Hc') as (-> & -> & -> & ->).
  repeat split; congruence.
Qed.

Lemma at_started_attached sp pid t :
  at_started env container rootfs dataPath args sp pid t →
  terminal_attached env container rootfs dataPath args.
Proof. intros [t0 Hc Ha Hs]. by exists sp, t0. Qed.

Lemma pid_recorded_attached :
  pid_recorded env container rootfs dataPath args →
  terminal_attached env container rootfs dataPath args.
Proof. intros (sp & pid & t & [t0 started Hs _ _]). by eapply at_started_attached. Qed.

Lemma at_cgroups_recorded sp pid cleaner t :
  at_cgroups env container rootfs dataPath args sp pid cleaner t →
  pid_recorded env container rootfs dataPath args.
Proof. intros [t0 t1 Hr _]. by exists sp, pid, t0. Qed.

Lemma at_cgroups_joined sp pid cleaner t h :
  at_cgroups env container rootfs dataPath args sp pid cleaner t →
  cleaner = Some h ↔ cgroup_joined env container rootfs dataPath args h.
Proof.
  intros [t0 t1 Hr Hcg]. split.
  - intros ->. by exists sp, pid, t0, t1.
  - intros (sp' & pid' & t0' & t1' & Hr' & Hcg').
    destruct (at_recorded_deterministic _ _ _ _ _ _ Hr Hr') as (-> & -> & ->). congruence.
Qed.

Lemma Forall_not_unwind (Q : event → bool) (l : trace) :
  Forall Q l → (∀ e, Q e → unwind_event e = false) → Forall (λ e, unwind_event e = false) l.
Proof. intros F H. eapply Forall_impl; [exact F|]. done. Qed.

(** Every run ends with the deferred calls of what it has acquired, last
    acquired first, and makes none of these calls before. *)
Lemma Exec_unwound code err tr :
  Exec env container rootfs dataPath args startCallback [] = (code, err, tr) →
  ∃ q u,
    tr = q ++ u
    ∧ Forall (λ e, unwind_event e = false) q
    ∧ ((u = [] ∧ ¬ terminal_attached env container rootfs dataPath args
        ∧ Forall (λ e, e ≠ EvStart) q)
       ∨ (u = [EvTermClose]
          ∧ terminal_attached env container rootfs dataPath args
          ∧ ¬ pid_recorded env container rootfs dataPath args)
       ∨ (∃ cleaner,
            u = unwind_cgroups dataPath cleaner
            ∧ pid_recorded env container rootfs dataPath args
            ∧ ∀ h, cleaner = Some h ↔ cgroup_joined env container rootfs dataPath args h)).
Proof.
  intros HExec.
  pose proof (Exec_run_Exec env container rootfs dataPath args startCallback) as Hrun.
  rewrite HExec in Hrun.
  inversion Hrun as
    [ e Hp | sp e Hp Ht Hc | sp t e Hc Ha | sp t e Hc Ha Hs | sp pid t e Hs Hg
    | sp pid t started e Hs Hg Hw | sp pid t cleaner e t' Hr Hcg
    | sp pid cleaner t e t' Hcg Hn | sp pid cleaner t e status Hn Hw He
    | sp pid cleaner t e status Hn Hw He ]; subst.
  - exists [EvNewSyncPipe], []. split; [done|]. split; [by repeat constructor|]. left.
    split; [done|]. split; [|by repeat constructor].
    intros (sp & t & Hc & _). destruct Hc; congruence.
  - exists [EvNewSyncPipe; EvCreateMasterAndConsole], [].
    split; [done|]. split; [by repeat constructor|]. left.
    split; [done|]. split; [|by repeat constructor].
    intros (sp' & t & Hc' & _). destruct Hc'; congruence.
  - exists (t ++ [EvTermAttach]), []. split; [by rewrite app_nil_r|].
    destruct (at_command_launch _ _ _ _ _ _ _ Hc) as [F _].
    split; [apply Forall_app; split; [|by repeat constructor];
            apply (Forall_not_unwind _ _ F); by intros []|].
    left. split; [done|]. split; [|destruct Hc; by repeat constructor].
    intros (sp' & t' & Hc' & Ha').
    destruct (at_command_deterministic _ _ _ _ Hc Hc') as [-> ->]. congruence.
  - exists (t ++ [EvTermAttach; EvStart]), [EvTermClose]. split; [by rewrite <- app_assoc|].
    destruct (at_command_launch _ _ _ _ _ _ _ Hc) as [F _].
    split; [apply Forall_app; split; [|by repeat constructor];
            apply (Forall_not_unwind _ _ F); by intros []|].
    right; left. split; [done|]. split; [by exists sp, t|].
    intros (sp' & pid' & t' & [t0 started [t1 Hc' Ha' Hs'] _ _]).
    destruct (at_command_deterministic _ _ _ _ Hc Hc') as [-> ->]. congruence.
  - exists (t ++ [EvGetProcessStartTime pid]), [EvTermClose]. split; [by rewrite <- app_assoc|].
    destruct (at_started_launch _ _ _ _ _ _ _ _ Hs) as [F _].
    split; [apply Forall_app; split; [|by repeat constructor];
            apply (Forall_not_unwind _ _ F); by intros []|].
    right; left. split; [done|]. split; [by eapply at_started_attached|].
    intros (sp' & pid' & t' & [t0 started Hs' Hg' _]).
    destruct (at_started_deterministic _ _ _ _ _ _ Hs Hs') as (-> & -> & ->). congruence.
  - exists (t ++ [EvGetProcessStartTime pid; EvWritePid dataPath pid started; EvKill; EvWait]),
      [EvTermClose]. split; [by rewrite <- app_assoc|].
    destruct (at_started_launch _ _ _ _ _ _ _ _ Hs) as [F _].
    split; [apply Forall_app; split; [|by repeat constructor];
            apply (Forall_not_unwind _ _ F); by intros []|].
    right; left. split; [done|]. split; [by eapply at_started_attached|].
    intros (sp' & pid' & t' & [t0 started' Hs' Hg' Hw']).
    destruct (at_started_deterministic _ _ _ _ _ _ Hs Hs') as (-> & -> & ->). congruence.
  - exists (t' ++ [EvKill; EvWait]), (unwind_cgroups dataPath None).
    split; [by rewrite <- app_assoc|].
    destruct (SetupCgroups_emits env container pid t) as (d & E & F).
    rewrite Hcg in E. cbn in E. subst t'.
    destruct (at_recorded_launch _ _ _ _ _ _ _ _ Hr) as (F0 & _).
    split; [repeat (apply Forall_app; split); [| |by repeat constructor];
            [apply (Forall_not_unwind _ _ F0) | apply (Forall_not_unwind _ _ F)]; by intros []|].
    right; right. exists None. split; [done|]. split; [by exists sp, pid, t|].
    intros h. split; [done|]. intros (sp' & pid' & t0' & t1' & Hr' & Hcg').
    destruct (at_recorded_deterministic _ _ _ _ _ _ Hr Hr') as (-> & -> & ->). congruence.
  - exists (t' ++ [EvKill; EvWait]), (unwind_cgroups dataPath cleaner).
    split; [by rewrite <- app_assoc|].
    destruct (at_cgroups_setup _ _ _ _ _ _ _ _ _ Hcg) as (t0 & _ & _ & F1).
    destruct (InitializeNetworking_emits env container pid sp t) as (d & E & F).
    rewrite Hn in E. cbn in E. subst t'.
    split; [repeat (apply Forall_app; split); [| |by repeat constructor];
            [apply (Forall_not_unwind _ _ F1) | apply (Forall_not_unwind _ _ F)]; by intros []|].
    right; right. exists cleaner. split; [done|].
    split; [by eapply at_cgroups_recorded|]. intros h. by eapply at_cgroups_joined.
  - destruct (at_networked_history _ _ _ _ _ _ _ _ _ Hn) as (t0 & t1 & Hr & Hcg & Hi & F1 & F2).
    destruct (TeardownNetworking_emits env container pid sp
                (t ++ release env startCallback sp ++ [EvWait])) as (d & E & F).
    exists ((t ++ release env startCallback sp ++ [EvWait]) ++ d), (unwind_cgroups dataPath cleaner).
    split; [unfold unwind_network;
            exact (f_equal (λ x, x ++ unwind_cgroups dataPath cleaner) E)|].
    split.
    { repeat (apply Forall_app; split).
      all: first [ by apply (Forall_not_unwind _ _ F2); intros []
                 | by apply (Forall_not_unwind _ _ F); intros []
                 | unfold release; destruct startCallback; by repeat constructor ]. }
    right; right. exists cleaner. split; [done|].
    inversion Hn as [t1' t2' Hc' Hn']; subst.
    split; [by eapply at_cgroups_recorded|]. intros h. by eapply at_cgroups_joined.
  - destruct (at_networked_history _ _ _ _ _ _ _ _ _ Hn) as (t0 & t1 & Hr & Hcg & Hi & F1 & F2).
    destruct (TeardownNetworking_emits env container pid sp
                (t ++ release env startCallback sp
                   ++ [EvWait;
                       EvLog "done execing container, pid is %d" [AInt (os_Getpid env)]]))
      as (d & E & F).
    eexists (_ ++ d), (unwind_cgroups dataPath cleaner).
    split; [unfold unwind_network;
            exact (f_equal (λ x, x ++ unwind_cgroups dataPath cleaner) E)|].
    split.
    { repeat (apply Forall_app; split).
      all: first [ by apply (Forall_not_unwind _ _ F2); intros []
                 | by apply (Forall_not_unwind _ _ F); intros []
                 | unfold release; destruct startCallback; by repeat constructor ]. }
    right; right. exists cleaner. split; [done|].
    inversion Hn as [t1' t2' Hc' Hn']; subst.
    split; [by eapply at_cgroups_recorded|]. intros h. by eapply at_cgroups_joined.
Qed.
End Exec_unwinding.

Lemma WaitStatus_ExitStatus_range w : -1 ≤ WaitStatus_ExitStatus w ≤ 255.
Proof.
  unfold WaitStatus_ExitStatus. destruct (WaitStatus_Exited w); [|lia].
  change (Z.land (Z.shiftr w 8) 255) with (Z.land (Z.shiftr w 8) (Z.ones 8)).
  rewrite Z.land_ones by lia. change (2 ^ 8) with 256.
  pose proof (Z.mod_pos_bound (Z.shiftr w 8) 256 ltac:(lia)). lia.
Qed.

Lemma count_le_1_unwind p (q u : trace) :
  Forall (λ e, unwind_event e = false) q → (∀ e, p e = true → unwind_event e = true) →
  count p (q ++ u) = count p u.
Proof.
  intros F Hp. rewrite count_app.
  rewrite (count_Forall_0 (λ e, unwind_event e = false) p q F); [done|].
  intros e He. destruct (p e) eqn:E; [|done]. apply Hp in E. congruence.
Qed.

Section Exec_resources.
Context (env : Env) (container : Container) (rootfs dataPath : string)
        (args : list string) (startCallback : bool).

(** X13.  The exit code that [Exec] returns is -1 or an exit status
    between 0 and 255. *)
Theorem Exec_exit_code_range :
  -1 ≤ (Exec env container rootfs dataPath args startCallback []).1.1 ≤ 255.
Proof.
  destruct (Exec env container rootfs dataPath args startCallback [])
    as [[code err] tr] eqn:HExec. cbn.
  destruct (Exec_kinds _ _ _ _ _ _ _ _ _ HExec)
    as [(-> & _) | [(-> & _)
       | (sp & pid & cleaner & t0 & t1 & t2 & d & u & _ & _ & _ & _ & _ & _ & _ & _ & Hr)]];
    [lia..|].
  destruct (command_Wait_answer env (t2 ++ release env startCallback sp)) as [[e|] status];
    [destruct (is_ExitError e)|]; simplify_eq; try lia; apply WaitStatus_ExitStatus_range.
Qed.

(** X14.  Once the child is released, what [command.Wait] reports
    decides the exit code.  If it reports, with a nil error or an
    [exec.ExitError], a child that exited with code [c], [Exec] returns [c]
    and no error.  If it reports a child ended by signal [s], [Exec] returns
    -1 and no error. *)
Theorem Exec_child_status syncPipe pid cleaner t e status :
  at_networked env container rootfs dataPath args syncPipe pid cleaner t →
  command_Wait_answer env (t ++ release env startCallback syncPipe) = (e, status) →
  (e = None ∨ e = Some exec_ExitError) →
  (∀ c, 0 ≤ c < 256 → status = c * 256 →
     (Exec env container rootfs dataPath args startCallback []).1 = (c, None))
  ∧ (∀ s, 0 < s < 127 → status = s →
       (Exec env container rootfs dataPath args startCallback []).1 = (-1, None)).
Proof.
  intros Hn Hw He.
  assert (if e is Some err then is_ExitError err = true else True) as He'
    by (by destruct He as [-> | ->]).
  rewrite (proj1 (Exec_run_exact _ _ _ _ _ _ _) (run_exited _ _ _ _ _ _ _ _ _ _ _ _ Hn Hw He')).
  cbn [fst]. split.
  - intros c Hc ->. by rewrite WaitStatus_ExitStatus_exited.
  - intros s Hs ->. by rewrite WaitStatus_ExitStatus_signaled.
Qed.

(** X15.  [Exec] closes the terminal at most once.  It closes it exactly
    when [term.Attach] has succeeded, and then as the very last thing it does;
    in particular the terminal is closed on every run that started the child,
    and also when [command.Start] fails. *)
Theorem Exec_terminal_closed code err tr :
  Exec env container rootfs dataPath args startCallback [] = (code, err, tr) →
  (count is_term_close tr ≤ 1)%nat
  ∧ (count is_term_close tr = 1%nat ↔ terminal_attached env container rootfs dataPath args)
  ∧ (count is_term_close tr = 1%nat → ∃ q, tr = q ++ [EvTermClose])
  ∧ (EvStart ∈ tr → count is_term_close tr = 1%nat).
Proof.
  intros HExec.
  destruct (Exec_unwound _ _ _ _ _ _ _ _ _ HExec) as (q & u & -> & Fq & Hu).
  rewrite (count_le_1_unwind is_term_close q u Fq) by (by intros []).
  destruct Hu as [(-> & Hna & Hs) | [(-> & Ha & _) | (cleaner & -> & Hr & _)]].
  - cbn. split; [lia|]. split; [done|]. split; [done|]. intros Hin. exfalso.
    rewrite app_nil_r in Hin. by apply (proj1 (Forall_forall _ _) Hs) in Hin.
  - cbn. split; [lia|]. split; [done|]. split; [by exists q|]. done.
  - assert (count is_term_close (unwind_cgroups dataPath cleaner) = 1%nat) as ->
      by (by destruct cleaner).
    split; [lia|]. split; [split; [intros _; by apply pid_recorded_attached | done]|].
    split; [|done]. intros _. exists (q ++ (if cleaner is Some c then [EvCleanup c] else [])
                                        ++ [EvDeletePid dataPath]).
    unfold unwind_cgroups. by rewrite <- !app_assoc.
Qed.

(** X16.  [Exec] deletes the pid record at most once.  It deletes it
    exactly when the record has been written, and then as the last thing
    before closing the terminal. *)
Theorem Exec_pid_record_deleted code err tr :
  Exec env container rootfs dataPath args startCallback [] = (code, err, tr) →
  (count is_delete_pid tr ≤ 1)%nat
  ∧ (count is_delete_pid tr = 1%nat ↔ pid_recorded env container rootfs dataPath args)
  ∧ (count is_delete_pid tr = 1%nat → ∃ q, tr = q ++ [EvDeletePid dataPath; EvTermClose]).
Proof.
  intros HExec.
  destruct (Exec_unwound _ _ _ _ _ _ _ _ _ HExec) as (q & u & -> & Fq & Hu).
  rewrite (count_le_1_unwind is_delete_pid q u Fq) by (by intros []).
  destruct Hu as [(-> & Hna & Hs) | [(-> & Ha & Hnr) | (cleaner & -> & Hr & _)]].
  - cbn. split; [lia|]. split; [|done]. split; [done|]. intros Hr. destruct Hna.
    by apply pid_recorded_attached.
  - cbn. split; [lia|]. split; [|done]. split; [done|]. intros Hr. by destruct Hnr.
  - assert (count is_delete_pid (unwind_cgroups dataPath cleaner) = 1%nat) as ->
      by (by destruct cleaner).
    split; [lia|]. split; [done|]. intros _.
    exists (q ++ (if cleaner is Some c then [EvCleanup c] else [])).
    unfold unwind_cgroups. by rewrite <- !app_assoc.
Qed.

(** X17.  [Exec] cleans up at most one cgroup handle.  It cleans up [h]
    exactly when [SetupCgroups] has returned [h] with a nil error, and then
    just before it deletes the pid record and closes the terminal.  A handle
    that comes with an error is not cleaned up. *)
Theorem Exec_cgroup_cleanup code err tr :
  Exec env container rootfs dataPath args startCallback [] = (code, err, tr) →
  (count is_cleanup tr ≤ 1)%nat
  ∧ (∀ h, EvCleanup h ∈ tr ↔ cgroup_joined env container rootfs dataPath args h)
  ∧ (∀ h, EvCleanup h ∈ tr →
       ∃ q, tr = q ++ [EvCleanup h; EvDeletePid dataPath; EvTermClose]).
Proof.
  intros HExec.
  destruct (Exec_unwound _ _ _ _ _ _ _ _ _ HExec) as (q & u & -> & Fq & Hu).
  rewrite (count_le_1_unwind is_cleanup q u Fq) by (by intros []).
  assert (∀ h, EvCleanup h ∉ q) as Hq.
  { intros h Hin. by apply (proj1 (Forall_forall _ _) Fq) in Hin. }
  assert (∀ h, cgroup_joined env container rootfs dataPath args h →
               pid_recorded env container rootfs dataPath args) as Hjr.
  { intros h (sp & pid & t & _ & Hr & _). by exists sp, pid, t. }
  destruct Hu as [(-> & Hna & Hs) | [(-> & Ha & Hnr) | (cleaner & -> & Hr & Hc)]].
  - cbn. split; [lia|]. rewrite app_nil_r. split; [|intros h Hin; by destruct (Hq h)].
    intros h. split; [intros Hin; by destruct (Hq h)|].
    intros Hj. destruct Hna. apply pid_recorded_attached. by eapply Hjr.
  - cbn. split; [lia|].
    assert (∀ h, EvCleanup h ∉ q ++ [EvTermClose]) as Hn.
    { intros h Hin. apply elem_of_app in Hin as [Hin|Hin]; [by destruct (Hq h)|].
      by apply list_elem_of_singleton in Hin. }
    split; [|intros h Hin; by destruct (Hn h)].
    intros h. split; [intros Hin; by destruct (Hn h)|].
    intros Hj. destruct Hnr. by eapply Hjr.
  - split; [destruct cleaner; cbn; lia|].
    assert (∀ h, EvCleanup h ∈ q ++ unwind_cgroups dataPath cleaner ↔ cleaner = Some h) as Hin.
    { intros h. rewrite elem_of_app. split.
      - intros [Hin|Hin]; [by destruct (Hq h)|]. destruct cleaner as [c|]; cbn in Hin.
        + apply elem_of_cons in Hin as [[= ->]|Hin]; [done|].
          apply elem_of_cons in Hin as [[=]|Hin].
          by apply list_elem_of_singleton in Hin.
        + apply elem_of_cons in Hin as [[=]|Hin].
          by apply list_elem_of_singleton in Hin.
      - intros ->. right. by left. }
    split.
    + intros h. by rewrite Hin, Hc.
    + intros h ->%Hin. by exists q.
Qed.
End Exec_resources.

Lemma InitializeNetworking_emits_initialize env container nspid pipe :
  emits initialize_event (InitializeNetworking env container nspid pipe).
Proof.
  unfold InitializeNetworking, InitializeNetworking_iface, unless_err, if_err,
    GetStrategy, strategy_Create_, SyncPipe_SendToChild,
    network.InterfaceDown, network.InterfaceUp, network.SetInterfaceInNamespacePid,
    network.InterfaceByName, network.netlink, log_Printf, emit.
  repeat emits_step.
Qed.

Section Exec_teardown.
Context (env : Env) (container : Container) (rootfs dataPath : string)
        (args : list string) (startCallback : bool).

(** Up to the release of the child nothing switches namespaces. *)
Lemma at_networked_no_switch syncPipe pid cleaner t :
  at_networked env container rootfs dataPath args syncPipe pid cleaner t →
  count is_namespace_switch t = 0%nat.
Proof.
  intros [t1 t2 Hcg Hn].
  destruct (at_cgroups_setup _ _ _ _ _ _ _ _ _ Hcg) as (t0 & _ & _ & F1).
  destruct (InitializeNetworking_emits_initialize env container pid syncPipe t1) as (d & E & F).
  rewrite Hn in E. cbn in E. subst t2. by count_classes.
Qed.

(** Once [InitializeNetworking] has succeeded, the run is: release, wait,
    at most a log line, [TeardownNetworking], the other deferred calls. *)
Lemma Exec_released_teardown syncPipe pid cleaner t :
  at_networked env container rootfs dataPath args syncPipe pid cleaner t →
  ∃ T, (Exec env container rootfs dataPath args startCallback []).2
       = unwind_network env container dataPath syncPipe pid cleaner
           (t ++ release env startCallback syncPipe ++ EvWait :: T)
       ∧ Forall is_log T.
Proof.
  intros Hnet.
  destruct (command_Wait_answer env (t ++ release env startCallback syncPipe))
    as [err status] eqn:Hw.
  destruct err as [err|]; [destruct (is_ExitError err) eqn:He|].
  - eexists. split; [|shelve].
    by rewrite (proj1 (Exec_run_exact _ _ _ _ _ _ _)
                  (run_exited _ _ _ _ _ _ _ _ _ _ _ _ Hnet Hw He)).
  - exists []. split; [|done].
    by rewrite (proj1 (Exec_run_exact _ _ _ _ _ _ _)
                  (run_wait_failed _ _ _ _ _ _ _ _ _ _ _ _ Hnet Hw He)).
  - eexists. split; [|shelve].
    by rewrite (proj1 (Exec_run_exact _ _ _ _ _ _ _)
                  (run_exited _ _ _ _ _ _ _ _ _ _ _ _ Hnet Hw I)).
  Unshelve. all: by repeat constructor.
Qed.

(** X18.  [Exec] runs [TeardownNetworking] only when it has released the
    child: on every other run no namespace file is opened and [Setns] is not
    called.  When the child has been released, [TeardownNetworking] runs with
    the pid of the child once [command.Wait] has returned, whatever it
    returned, after at most a log line; the rest of the deferred calls follow
    it, and nothing has switched namespaces before it. *)
Theorem Exec_teardown_after_wait code err tr :
  Exec env container rootfs dataPath args startCallback [] = (code, err, tr) →
  (¬ child_released env container rootfs dataPath args →
     count is_namespace_switch tr = 0%nat)
  ∧ (∀ syncPipe pid cleaner t,
       at_networked env container rootfs dataPath args syncPipe pid cleaner t →
       ∃ T,
         tr = (TeardownNetworking env container pid syncPipe
                 (t ++ release env startCallback syncPipe ++ EvWait :: T)).2
              ++ unwind_cgroups dataPath cleaner
         ∧ Forall is_log T
         ∧ count is_namespace_switch (t ++ release env startCallback syncPipe ++ EvWait :: T)
           = 0%nat).
Proof.
  intros HExec. split.
  - intros Hnr.
    pose proof (Exec_run_Exec env container rootfs dataPath args startCallback) as Hrun.
    rewrite HExec in Hrun.
    pose proof (unwind_cgroups_events dataPath) as Fu.
    inversion Hrun as
      [ e Hp | sp e Hp Ht Hc | sp t e Hc Ha | sp t e Hc Ha Hs | sp pid t e Hs Hg
      | sp pid t started e Hs Hg Hw | sp pid t cleaner e t' Hr Hcg
      | sp pid cleaner t e t' Hcg Hn | sp pid cleaner t e status Hn Hw He
      | sp pid cleaner t e status Hn Hw He ]; subst.
    + done.
    + done.
    + destruct (at_command_launch _ _ _ _ _ _ _ Hc) as [F _]. by count_classes.
    + destruct (at_command_launch _ _ _ _ _ _ _ Hc) as [F _]. by count_classes.
    + destruct (at_started_launch _ _ _ _ _ _ _ _ Hs) as [F _]. by count_classes.
    + destruct (at_started_launch _ _ _ _ _ _ _ _ Hs) as [F _]. by count_classes.
    + destruct (SetupCgroups_emits env container pid t) as (d & E & F).
      rewrite Hcg in E. cbn in E. subst t'.
      destruct (at_recorded_launch _ _ _ _ _ _ _ _ Hr) as (F0 & _). by count_classes.
    + destruct (at_cgroups_setup _ _ _ _ _ _ _ _ _ Hcg) as (t0 & _ & _ & F1).
      destruct (InitializeNetworking_emits_initialize env container pid sp t) as (d & E & F).
      rewrite Hn in E. cbn in E. subst t'.
      specialize (Fu cleaner).
      change (EvKill :: EvWait :: unwind_cgroups dataPath cleaner)
        with ([EvKill; EvWait] ++ unwind_cgroups dataPath cleaner).
      by count_classes.
    + destruct Hnr. by exists sp, pid, cleaner, t.
    + destruct Hnr. by exists sp, pid, cleaner, t.
  - intros sp pid cleaner t Hn.
    destruct (Exec_released_teardown _ _ _ _ Hn) as (T & E & FT).
    rewrite HExec in E. cbn [snd] in E. exists T. split; [done|]. split; [done|].
    rewrite !count_app, (at_networked_no_switch _ _ _ _ Hn).
    rewrite count_release by done.
    change (EvWait :: T) with ([EvWait] ++ T). rewrite count_app.
    rewrite (count_Forall_0 _ is_namespace_switch T FT) by (by intros []). done.
Qed.

(** X19.  The start callback is called as many times as the pipe is
    closed when the caller gave one, and never when the caller gave nil.  When
    it is called, it is called right after the pipe is closed and before the
    single wait of the run, and the child is not killed. *)
Theorem Exec_start_callback code err tr :
  Exec env container rootfs dataPath args startCallback [] = (code, err, tr) →
  count is_callback tr = (if startCallback then count is_close tr else 0%nat)
  ∧ (EvStartCallback ∈ tr →
     ∃ syncPipe q r,
       tr = q ++ [EvSyncPipeClose syncPipe; EvStartCallback] ++ r
       ∧ (EvWait ∉ q) ∧ count is_wait r = 1%nat ∧ (EvKill ∉ tr)).
Proof.
  intros HExec.
  assert (∀ t : trace, count is_callback t = 0%nat → EvStartCallback ∉ t) as Hnot.
  { intros t H Hin. apply count_0_Forall in H.
    by apply (proj1 (Forall_forall _ _) H) in Hin. }
  destruct (Exec_kinds _ _ _ _ _ _ _ _ _ HExec)
    as [(_ & _ & F) | [(_ & _ & q & u & -> & Fq & Fu)
       | (sp & pid & cleaner & t0 & t1 & t2 & d & u & _ & _ & _ & _ & F2 & ->
          & Fd & Fu & _)]].
  - assert (count is_callback tr = 0%nat) as H0 by (by count_classes).
    assert (count is_close tr = 0%nat) as H1 by (by count_classes).
    rewrite H0, H1. split; [by destruct startCallback|]. intros Hin. by destruct (Hnot _ H0).
  - assert (count is_callback (q ++ [EvKill; EvWait] ++ u) = 0%nat) as H0 by (by count_classes).
    assert (count is_close (q ++ [EvKill; EvWait] ++ u) = 0%nat) as H1 by (by count_classes).
    rewrite H0, H1. split; [by destruct startCallback|]. intros Hin. by destruct (Hnot _ H0).
  - change (EvWait :: d ++ u) with ([EvWait] ++ d ++ u).
    assert (count is_close (t2 ++ release env startCallback sp ++ [EvWait] ++ d ++ u) = 1%nat)
      as -> by (count_classes; by rewrite count_release).
    assert (count is_callback (t2 ++ release env startCallback sp ++ [EvWait] ++ d ++ u)
            = if startCallback then 1%nat else 0%nat) as H0.
    { count_classes. unfold release. by destruct startCallback. }
    split; [by destruct startCallback|]. intros Hin.
    destruct startCallback; [|by destruct (Hnot _ H0)].
    exists sp, t2,
      ([EvLog "before execing container, pid is %d" [AInt (os_Getpid env)]]
         ++ [EvWait] ++ d ++ u).
    split; [unfold release; by rewrite <- !app_assoc|].
    split; [apply count_is_wait; by count_classes|].
    split; [by count_classes|].
    apply count_is_kill. count_classes. by rewrite count_release.
Qed.
End Exec_teardown.

Section Exec_command.
Context (env : Env) (container : Container) (rootfs dataPath : string)
        (args : list string) (startCallback : bool).

Local Abbreviation built syncPipe t :=
  (∃ t0 r, at_command env container rootfs dataPath args syncPipe t0
           ∧ t = t0 ++ r
           ∧ count is_create_command r = 0%nat).

Lemma built_app syncPipe t d :
  built syncPipe t → count is_create_command d = 0%nat → built syncPipe (t ++ d).
Proof.
  intros (t0 & r & Hc & -> & H0) Hd. exists t0, (r ++ d).
  split; [done|]. split; [by rewrite app_assoc|]. by rewrite count_app, H0, Hd.
Qed.

Lemma at_command_built syncPipe t :
  at_command env container rootfs dataPath args syncPipe t → built syncPipe t.
Proof. intros Hc. exists t, []. by rewrite app_nil_r. Qed.

Lemma at_started_built syncPipe pid t :
  at_started env container rootfs dataPath args syncPipe pid t → built syncPipe t.
Proof. intros [t0 Hc _ _]. apply built_app; [by apply at_command_built | done]. Qed.

Lemma at_recorded_built syncPipe pid t :
  at_recorded env container rootfs dataPath args syncPipe pid t → built syncPipe t.
Proof. intros [t0 started Hs _ _]. apply built_app; [by eapply at_started_built | done]. Qed.

Lemma at_cgroups_built syncPipe pid cleaner t :
  at_cgroups env container rootfs dataPath args syncPipe pid cleaner t → built syncPipe t.
Proof.
  intros [t0 t1 Hr Hcg].
  destruct (SetupCgroups_emits env container pid t0) as (d & E & F).
  rewrite Hcg in E. cbn in E. subst t1.
  apply built_app; [by eapply at_recorded_built | by count_classes].
Qed.

Lemma at_networked_built syncPipe pid cleaner t :
  at_networked env container rootfs dataPath args syncPipe pid cleaner t → built syncPipe t.
Proof.
  intros [t0 t1 Hc Hn].
  destruct (InitializeNetworking_emits env container pid syncPipe t0) as (d & E & F).
  rewrite Hn in E. cbn in E. subst t1.
  apply built_app; [by eapply at_cgroups_built | by count_classes].
Qed.

(** A run that gets past the terminal allocation builds the command first;
    nothing after that builds another. *)
Lemma Exec_command_prefix code err tr :
  Exec env container rootfs dataPath args startCallback [] = (code, err, tr) →
  count is_create_command tr = 0%nat
  ∨ ∃ syncPipe, built syncPipe tr.
Proof.
  intros HExec.
  pose proof (Exec_run_Exec env container rootfs dataPath args startCallback) as Hrun.
  rewrite HExec in Hrun.
  inversion Hrun as
    [ e Hp | sp e Hp Ht Hc | sp t e Hc Ha | sp t e Hc Ha Hs | sp pid t e Hs Hg
    | sp pid t started e Hs Hg Hw | sp pid t cleaner e t' Hr Hcg
    | sp pid cleaner t e t' Hcg Hn | sp pid cleaner t e status Hn Hw He
    | sp pid cleaner t e status Hn Hw He ]; subst.
  1,2: by left.
  all: right; exists sp.
  - apply built_app; [by apply at_command_built | done].
  - apply built_app; [by apply at_command_built | done].
  - apply built_app; [by eapply at_started_built | done].
  - apply built_app; [by eapply at_started_built | done].
  - destruct (SetupCgroups_emits env container pid t) as (d & E & F).
    rewrite Hcg in E. cbn in E. subst t'.
    apply built_app; [|done].
    apply built_app; [by eapply at_recorded_built | by count_classes].
  - destruct (InitializeNetworking_emits env container pid sp t) as (d & E & F).
    rewrite Hn in E. cbn in E. subst t'.
    apply built_app; [|by destruct cleaner].
    apply built_app; [by eapply at_cgroups_built | by count_classes].
  - destruct (Exec_released _ _ _ _ _ startCallback _ _ _ _ Hn) as (d & u & E & Fd & ->).
    rewrite HExec in E. cbn [snd] in E.
    eapply (at_eq (λ x, built sp x)); [|symmetry; exact E].
    apply built_app; [by eapply at_networked_built|].
    pose proof (unwind_cgroups_events dataPath cleaner) as Fu.
    count_classes. by rewrite count_release.
  - destruct (Exec_released _ _ _ _ _ startCallback _ _ _ _ Hn) as (d & u & E & Fd & ->).
    rewrite HExec in E. cbn [snd] in E.
    eapply (at_eq (λ x, built sp x)); [|symmetry; exact E].
    apply built_app; [by eapply at_networked_built|].
    pose proof (unwind_cgroups_events dataPath cleaner) as Fu.
    count_classes. by rewrite count_release.
Qed.

(** X20.  [Exec] builds the command at most once, and always with its own
    [rootfs], [dataPath] and [args], [os.Args[0]] as the program to run, and
    the child end of the pipe it has just created.  With a terminal the
    console is the one [CreateMasterAndConsole] has returned, whose master has
    been handed to the terminal; without one the console is the empty
    string. *)
Theorem Exec_command_built code err tr :
  Exec env container rootfs dataPath args startCallback [] = (code, err, tr) →
  (count is_create_command tr ≤ 1)%nat
  ∧ ∀ console rootfs' dataPath' init pipe args',
      EvCreateCommand console rootfs' dataPath' init pipe args' ∈ tr →
      rootfs' = rootfs ∧ dataPath' = dataPath ∧ init = os_Args0 env ∧ args' = args
      ∧ (∃ syncPipe, NewSyncPipe_answer env [] = Ok syncPipe ∧ pipe = child syncPipe)
      ∧ (if Tty container
         then ∃ master,
                system_CreateMasterAndConsole env [EvNewSyncPipe] = Ok (master, console)
                ∧ EvTermSetMaster master ∈ tr
         else console = ""%string).
Proof.
  intros HExec.
  assert (∀ (t : trace) c r d i p a,
            count is_create_command t = 0%nat → EvCreateCommand c r d i p a ∉ t) as Hnot.
  { intros t c r d i p a H Hin. apply count_0_Forall in H.
    by apply (proj1 (Forall_forall _ _) H) in Hin. }
  destruct (Exec_command_prefix _ _ _ HExec) as [H0 | (sp & t & rest & Hc & -> & H0)].
  - rewrite H0. split; [lia|]. intros c r d i p a Hin. by destruct (Hnot _ c r d i p a H0).
  - rewrite count_app, H0. split; [destruct Hc; cbn; lia|].
    intros c r d i p a Hin. apply elem_of_app in Hin as [Hin|Hin];
      [|by destruct (Hnot _ c r d i p a H0)].
    destruct Hc as [Hp Ht | master console Hp Ht Hm]; rewrite Ht.
    + apply elem_of_cons in Hin as [[=]|Hin].
      apply list_elem_of_singleton in Hin as [= -> -> -> -> -> ->]. eauto 10.
    + apply elem_of_cons in Hin as [[=]|Hin]. apply elem_of_cons in Hin as [[=]|Hin].
      apply elem_of_cons in Hin as [[=]|Hin].
      apply list_elem_of_singleton in Hin as [= -> -> -> -> -> ->].
      repeat split; eauto. exists master. split; [done|].
      apply elem_of_app. left. do 2 right. by left.
Qed.
End Exec_command.

(** ** The further properties on the sample host *)

Lemma network_lookup_failure_witness :
  network.InterfaceUp (Sample.host Sample.no_failure 0) "eth9" []
  = (Some (errors_New "no such network interface"), [EvInterfaceByName "eth9"]).
Proof.
  exact (proj1 (network_lookup_failure (Sample.host Sample.no_failure 0) "eth9" []
                  (errors_New "no such network interface") eq_refl)).
Defined.

Lemma SetInterfaceInNamespacePid_lookup_failure_witness :
  network.SetInterfaceInNamespacePid (Sample.host Sample.no_failure 0) "eth9" 4242 []
  = (Some (errors_New "no such network interface"),
     [EvLog "setting interface my name %s, %d" [AStr "eth9"; AInt 4242];
      EvInterfaceByName "eth9";
      EvLog "error getting interfacebyname %+v" [AErr (errors_New "no such network interface")]]).
Proof.
  exact (SetInterfaceInNamespacePid_lookup_failure (Sample.host Sample.no_failure 0)
           "eth9" 4242 [] (errors_New "no such network interface") eq_refl).
Defined.

Lemma SetInterfaceMaster_lookups_witness :
  network.SetInterfaceMaster (Sample.host Sample.no_failure 0) "eth0" "docker0" []
  = (Some (errors_New "no such network interface"),
     [EvInterfaceByName "eth0"; EvInterfaceByName "docker0"]).
Proof.
  exact (proj1 (SetInterfaceMaster_lookups (Sample.host Sample.no_failure 0)
                  "eth0" "docker0" [] Sample.eth0 eq_refl)
               (errors_New "no such network interface") eq_refl).
Defined.

Lemma InitializeNetworking_unknown_type_witness :
  ∃ d,
    InitializeNetworking (Sample.host Sample.no_failure 0) Hosts.two_networks 4242
      Sample.syncPipe [] = (Some (errors_New "unknown network type"), d)
    ∧ Forall strategy_event d
    ∧ strategy_lookups d = ["veth"; "macvlan"]%string
    ∧ strategies_created d
      = [ {| Type_ := "veth"; Address := "10.0.0.2/24"; Gateway := "10.0.0.1"; Mtu := 1500 |} ].
Proof.
  apply (InitializeNetworking_unknown_type (Sample.host Sample.no_failure 0) 4242
           Hosts.two_networks Sample.syncPipe []
           [ {| Type_ := "veth"; Address := "10.0.0.2/24"; Gateway := "10.0.0.1"; Mtu := 1500 |} ]
           {| Type_ := "macvlan"; Address := "10.0.1.2/24"; Gateway := "10.0.1.1"; Mtu := 1500 |}
           [ {| Type_ := "veth"; Address := "10.0.2.2/24"; Gateway := "10.0.2.1"; Mtu := 1500 |} ]
           (errors_New "unknown network type")).
  - reflexivity.
  - repeat constructor. exists {| strategy_name := "veth" |}. split; reflexivity.
  - reflexivity.
Defined.

Lemma InitializeNetworking_create_failure_witness :
  let env := Hosts.with_strategy_Create
               (λ _ _ _ _ context, (context, Some (errors_New "veth: operation not permitted")))
               (Sample.host Sample.no_failure 0) in
  ∃ d,
    InitializeNetworking env Sample.wired 4242 Sample.syncPipe []
    = (Some (errors_New "veth: operation not permitted"), d)
    ∧ Forall strategy_event d
    ∧ strategy_lookups d = ["veth"%string]
    ∧ strategies_created d = Networks Sample.wired.
Proof.
  apply (InitializeNetworking_create_failure
           (Hosts.with_strategy_Create
              (λ _ _ _ _ context, (context, Some (errors_New "veth: operation not permitted")))
              (Sample.host Sample.no_failure 0))
           4242 Sample.wired Sample.syncPipe [] []
           {| Type_ := "veth"; Address := "10.0.0.2/24"; Gateway := "10.0.0.1"; Mtu := 1500 |}
           [] {| strategy_name := "veth" |} (errors_New "veth: operation not permitted")).
  - reflexivity.
  - constructor.
  - reflexivity.
  - reflexivity.
Defined.

(** The launch of [Sample.bare] up to the release of the child, on a host
    that differs from the sample one in what [command.Wait] answers. *)
Lemma Sample_bare_networked answer :
  at_networked (Hosts.with_Wait answer (Sample.host Sample.no_failure 0)) Sample.bare
    "/rootfs" "/data" ["sh"%string] Sample.syncPipe 4242 None
    [EvNewSyncPipe;
     EvCreateCommand "" "/rootfs" "/data" "nsinit" {| fd := 3 |} ["sh"%string];
     EvTermAttach; EvStart; EvGetProcessStartTime 4242;
     EvWritePid "/data" 4242 "12345";
     EvSendToChild Sample.syncPipe ∅].
Proof.
  apply (at_networked_intro _ _ _ _ _ _ _ _
           [EvNewSyncPipe;
            EvCreateCommand "" "/rootfs" "/data" "nsinit" {| fd := 3 |} ["sh"%string];
            EvTermAttach; EvStart; EvGetProcessStartTime 4242;
            EvWritePid "/data" 4242 "12345"]); [|reflexivity].
  apply (at_cgroups_intro _ _ _ _ _ _ _ _
           [EvNewSyncPipe;
            EvCreateCommand "" "/rootfs" "/data" "nsinit" {| fd := 3 |} ["sh"%string];
            EvTermAttach; EvStart; EvGetProcessStartTime 4242;
            EvWritePid "/data" 4242 "12345"]); [|reflexivity].
  apply (at_recorded_intro _ _ _ _ _ _ _
           [EvNewSyncPipe;
            EvCreateCommand "" "/rootfs" "/data" "nsinit" {| fd := 3 |} ["sh"%string];
            EvTermAttach; EvStart] "12345"); [|reflexivity..].
  apply (at_started_intro _ _ _ _ _ _ _
           [EvNewSyncPipe;
            EvCreateCommand "" "/rootfs" "/data" "nsinit" {| fd := 3 |} ["sh"%string]]);
    [|reflexivity..].
  apply at_command_plain; reflexivity.
Qed.

Lemma Exec_child_status_witness :
  (Exec (Hosts.with_Wait (λ _, (Some exec_ExitError, 17 * 256)) (Sample.host Sample.no_failure 0))
     Sample.bare "/rootfs" "/data" ["sh"%string] true []).1 = (17, None)
  ∧ (Exec (Hosts.with_Wait (λ _, (Some exec_ExitError, 9)) (Sample.host Sample.no_failure 0))
       Sample.bare "/rootfs" "/data" ["sh"%string] true []).1 = (-1, None).
Proof.
  split.
  - apply (proj1 (Exec_child_status _ _ _ _ _ true _ _ _ _ (Some exec_ExitError) (17 * 256)
                    (Sample_bare_networked (λ _, (Some exec_ExitError, 17 * 256)))
                    eq_refl (or_intror eq_refl)) 17); [lia | reflexivity].
  - apply (proj2 (Exec_child_status _ _ _ _ _ true _ _ _ _ (Some exec_ExitError) 9
                    (Sample_bare_networked (λ _, (Some exec_ExitError, 9)))
                    eq_refl (or_intror eq_refl)) 9); [lia | reflexivity].
Defined.

Lemma Exec_terminal_closed_witness :
  count is_term_close (Sample.launch Sample.cgroups_fail 0 Sample.box).2 = 1%nat.
Proof.
  apply (proj2 (proj2 (proj2 (Exec_terminal_closed (Sample.host Sample.cgroups_fail 0)
           Sample.box "/rootfs" "/data" ["sh"%string] true _ _ _ eq_refl)))).
  elem_of_list.
Defined.

Lemma Exec_pid_record_deleted_witness :
  pid_recorded (Sample.host Sample.cgroups_fail 0) Sample.box "/rootfs" "/data" ["sh"%string]
  ∧ ∃ q, (Sample.launch Sample.cgroups_fail 0 Sample.box).2
         = q ++ [EvDeletePid "/data"; EvTermClose].
Proof.
  destruct (Exec_pid_record_deleted (Sample.host Sample.cgroups_fail 0)
              Sample.box "/rootfs" "/data" ["sh"%string] true _ _ _ eq_refl)
    as (_ & Hiff & Hlast).
  split; [exact (proj1 Hiff eq_refl) | exact (Hlast eq_refl)].
Defined.

Lemma Exec_cgroup_cleanup_witness :
  cgroup_joined (Sample.host Sample.strategy_fails 0) Sample.box "/rootfs" "/data"
    ["sh"%string] {| cgroup_id := 2 |}.
Proof.
  apply (proj1 (proj2 (Exec_cgroup_cleanup (Sample.host Sample.strategy_fails 0)
           Sample.box "/rootfs" "/data" ["sh"%string] true _ _ _ eq_refl))).
  elem_of_list.
Defined.

Lemma Exec_teardown_after_wait_witness :
  ∃ T,
    (Exec Hosts.lost_child Sample.bare "/rootfs" "/data" ["sh"%string] true []).2
    = (TeardownNetworking Hosts.lost_child Sample.bare 4242 Sample.syncPipe
         ([EvNewSyncPipe;
           EvCreateCommand "" "/rootfs" "/data" "nsinit" {| fd := 3 |} ["sh"%string];
           EvTermAttach; EvStart; EvGetProcessStartTime 4242;
           EvWritePid "/data" 4242 "12345";
           EvSendToChild Sample.syncPipe ∅]
          ++ release Hosts.lost_child true Sample.syncPipe ++ EvWait :: T)).2
      ++ unwind_cgroups "/data" None
    ∧ Forall is_log T
    ∧ count is_namespace_switch
        ([EvNewSyncPipe;
          EvCreateCommand "" "/rootfs" "/data" "nsinit" {| fd := 3 |} ["sh"%string];
          EvTermAttach; EvStart; EvGetProcessStartTime 4242;
          EvWritePid "/data" 4242 "12345";
          EvSendToChild Sample.syncPipe ∅]
         ++ release Hosts.lost_child true Sample.syncPipe ++ EvWait :: T) = 0%nat.
Proof.
  exact (proj2 (Exec_teardown_after_wait Hosts.lost_child Sample.bare
                  "/rootfs" "/data" ["sh"%string] true _ _ _ eq_refl)
               _ _ _ _ (Sample_bare_networked _)).
Defined.

Lemma Exec_start_callback_witness :
  count is_callback (Sample.launch Sample.no_failure 0 Sample.box).2
  = count is_close (Sample.launch Sample.no_failure 0 Sample.box).2.
Proof.
  exact (proj1 (Exec_start_callback (Sample.host Sample.no_failure 0) Sample.box
                  "/rootfs" "/data" ["sh"%string] true _ _ _ eq_refl)).
Defined.

Lemma Exec_command_built_witness :
  (count is_create_command (Sample.launch Sample.no_failure 0 Sample.box).2 ≤ 1)%nat.
Proof.
  exact (proj1 (Exec_command_built (Sample.host Sample.no_failure 0) Sample.box
                  "/rootfs" "/data" ["sh"%string] true _ _ _ eq_refl)).
Defined.

Lemma Exec_kill_then_wait_once_witness :
  count is_kill (Sample.launch Sample.cgroups_fail 0 Sample.box).2 = 1%nat
  ∧ count is_wait (Sample.launch Sample.cgroups_fail 0 Sample.box).2 = 1%nat.
Proof.
  destruct (Exec_kill_then_wait_once (Sample.host Sample.cgroups_fail 0) Sample.box
              "/rootfs" "/data" ["sh"%string] true _ _ _ eq_refl) as (Hk & Hw & _).
  - elem_of_list.
  - split; [exact Hk | exact Hw].
Defined.

(** A handle that the cgroup backend returns together with an error is not
    cleaned up. *)
Example launch_cgroup_handle_with_error :
  let env := Hosts.with_fs_Apply
               (λ _ _ _, (Some {| cgroup_id := 2 |}, Some (errors_New "cannot write cgroup.procs")))
               (Sample.host Sample.no_failure 0) in
  count is_cleanup (Exec env Sample.box "/rootfs" "/data" ["sh"%string] true []).2 = 0%nat.
Proof. reflexivity. Qed.

(** When neither namespace file can be opened, [TeardownNetworking] still
    calls [Setns], once, with the descriptor of a nil file. *)
Example teardown_without_namespace_files :
  let env := Hosts.with_OpenFile (λ _ _, Err (errors_New "no such file or directory"))
               (Sample.host Sample.no_failure 0) in
  setns_fds (TeardownNetworking env Sample.wired 4242 Sample.syncPipe []).2 = [2 ^ 64 - 1].
Proof. reflexivity. Qed.

Lemma Exec_setup_failure_reaps_child_witness :
  Sample.launch Sample.record_fails 0 Sample.bare
  = (-1, Some (errors_New "permission denied"),
     [EvNewSyncPipe;
      EvCreateCommand "" "/rootfs" "/data" "nsinit" {| fd := 3 |} ["sh"%string];
      EvTermAttach; EvStart; EvGetProcessStartTime 4242;
      EvWritePid "/data" 4242 "12345"; EvKill; EvWait; EvTermClose]).
Proof.
  apply (proj1 (Exec_setup_failure_reaps_child (Sample.host Sample.record_fails 0) Sample.bare
                  "/rootfs" "/data" ["sh"%string] true Sample.syncPipe 4242)
           [EvNewSyncPipe;
            EvCreateCommand "" "/rootfs" "/data" "nsinit" {| fd := 3 |} ["sh"%string];
            EvTermAttach; EvStart]
           "12345"%string (errors_New "permission denied")).
  - apply (at_started_intro _ _ _ _ _ _ _
             [EvNewSyncPipe;
              EvCreateCommand "" "/rootfs" "/data" "nsinit" {| fd := 3 |} ["sh"%string]]);
      [apply at_command_plain; reflexivity | reflexivity | reflexivity].
  - reflexivity.
  - reflexivity.
Defined.
